(** * Serial ADC spectrum viewer: acquisition and analysis core

    A shallow embedding of [fft/fft.py] (text-framed variant) and
    [fft/fft2.py] (binary variant): line parsing, 16-bit framing, the
    sliding window, the sample-rate estimator and the magnitude scaling of
    the spectrum, followed by the properties proved about them.

    Python values are modelled as follows.
    - [int] is [Z] (unbounded).
    - [float] and [np.float64] are Rocq's primitive binary64 [float]; the
      arithmetic operators are the IEEE 754 ones.
    - [str] is [string]; a character is a code point below U+0100, which
      covers the 7-bit traffic of the serial link.
    - [bytes] / [bytearray] are [list byte].
    - a one-dimensional [np.ndarray] is a [list] of its elements.
    - a raised exception is the [Raise] case of [result].

    The serial port and the plot are outside the model: an iteration of
    a main loop is a function of the text or bytes that the read
    returned, and what a refresh hands to the plot is its result. *)

From Stdlib Require Import Ascii String.
From Stdlib.Strings Require Import Byte.
From Stdlib Require Import ZArith NArith Arith Lia Bool List.
From Stdlib Require Import PrimFloat SpecFloat FloatOps FloatAxioms.
From Stdlib Require Import Permutation Sorted.
Import ListNotations.

Set Implicit Arguments.

(** ** Exceptions and the error monad *)

Inductive exn : Type :=
| ValueError
| OverflowError
| ZeroDivisionError
| IndexError.

Inductive result (A : Type) : Type :=
| Ok (a : A)
| Raise (e : exn).

Arguments Ok {A} a.
Arguments Raise {A} e.

Definition bind {A B : Type} (m : result A) (k : A -> result B) : result B :=
  match m with
  | Ok a => k a
  | Raise e => Raise e
  end.

Declare Scope result_scope.
Delimit Scope result_scope with result.
Notation "x <- m ;; k" := (bind m (fun x => k))
  (at level 61, m at next level, right associativity) : result_scope.
Notation "' p <- m ;; k" := (bind m (fun x => let p := x in k))
  (at level 61, p pattern, m at next level, right associativity) : result_scope.

(** [try: body except ValueError: handler] *)
Definition try_except_ValueError {A : Type} (body handler : result A) : result A :=
  match body with
  | Raise ValueError => handler
  | r => r
  end.

(** ** Python built-ins used by the programs *)

Module Py.

Local Open Scope char_scope.

(** [str.isspace] on one character, for code points below U+0100:
    TAB..CR, FS..US, SPACE, NEL and NBSP. *)
Definition isspace (c : ascii) : bool :=
  let n := N_of_ascii c in
  ((9 <=? n) && (n <=? 13) || (28 <=? n) && (n <=? 32)
   || (n =? 133) || (n =? 160))%N.

(** The decimal value of a digit character; below U+0100 the only
    decimal digits are ['0'..'9']. *)
Definition digit_value (c : ascii) : option Z :=
  let n := N_of_ascii c in
  if ((48 <=? n) && (n <=? 57))%N then Some (Z.of_N n - 48)%Z else None.

(** Removal of the leading, trailing and surrounding characters that
    satisfy [sp]. *)
Fixpoint lstrip_by (sp : ascii -> bool) (s : string) : string :=
  match s with
  | String c s' => if sp c then lstrip_by sp s' else s
  | EmptyString => EmptyString
  end.

Fixpoint rstrip_by (sp : ascii -> bool) (s : string) : string :=
  match s with
  | EmptyString => EmptyString
  | String c s' =>
      match rstrip_by sp s' with
      | EmptyString => if sp c then EmptyString else String c EmptyString
      | r => String c r
      end
  end.

Definition strip_by (sp : ascii -> bool) (s : string) : string :=
  rstrip_by sp (lstrip_by sp s).

(** [s.strip()] *)
Definition strip (s : string) : string := strip_by isspace s.

(** The whitespace that [int] itself skips around a literal: the ASCII
    characters TAB..CR and SPACE, and the non-ASCII blanks NEL and NBSP.
    FS..US are not among them. *)
Definition int_isspace (c : ascii) : bool :=
  let n := N_of_ascii c in
  ((9 <=? n) && (n <=? 13) || (n =? 32) || (n =? 133) || (n =? 160))%N.

(** [sep in s] for a one-character [sep] *)
Fixpoint contains (sep : ascii) (s : string) : bool :=
  match s with
  | EmptyString => false
  | String c s' => if Ascii.eqb c sep then true else contains sep s'
  end.

(** [s.split(sep, 1)] for a one-character [sep]: the text before the
    first [sep] and the text after it, or [s] alone without a [sep]. *)
Fixpoint split1 (sep : ascii) (s : string) : list string :=
  match s with
  | EmptyString => [EmptyString]
  | String c s' =>
      if Ascii.eqb c sep then [EmptyString; s']
      else match split1 sep s' with
           | a :: rest => String c a :: rest
           | [] => []
           end
  end.

(** The digits of a base-10 literal, most significant first.  Single
    underscores are accepted between two digits; [after_digit] tells
    whether the previous character was a digit. *)
Fixpoint int_digits (acc : Z) (after_digit : bool) (s : string) : option Z :=
  match s with
  | EmptyString => if after_digit then Some acc else None
  | String c s' =>
      match digit_value c with
      | Some d => int_digits (10 * acc + d)%Z true s'
      | None =>
          if Ascii.eqb c "_" && after_digit then int_digits acc false s'
          else None
      end
  end.

(** The literal accepted by [int]: an optional sign, then the digits. *)
Definition int_literal (s : string) : option Z :=
  match s with
  | String c ds =>
      if Ascii.eqb c "-" then option_map Z.opp (int_digits 0 false ds)
      else if Ascii.eqb c "+" then int_digits 0 false ds
      else int_digits 0 false s
  | EmptyString => None
  end.

(** The interpreter setting that [int] reads: the cap on the number of
    digits of a decimal literal ([sys.get_int_max_str_digits()]), [0]
    when there is none.  The interpreter refuses a cap below 640. *)
Class Interpreter : Type := {
  max_str_digits : nat;
  max_str_digits_range : max_str_digits = 0%nat \/ (640 <= max_str_digits)%nat
}.

(** The number of digit characters of a literal. *)
Fixpoint count_digits (s : string) : nat :=
  match s with
  | EmptyString => 0%nat
  | String c s' =>
      match digit_value c with
      | Some _ => S (count_digits s')
      | None => count_digits s'
      end
  end.

(** [int(s)] for a [str] argument in base 10: surrounding whitespace is
    dropped, the rest must be a literal, and a literal with more digits
    than the cap is refused. *)
Definition int {py : Interpreter} (s : string) : result Z :=
  let s := strip_by int_isspace s in
  match int_literal s with
  | Some z =>
      if ((0 <? max_str_digits) && (max_str_digits <? count_digits s))%nat
      then Raise ValueError
      else Ok z
  | None => Raise ValueError
  end.

(** The binary64 number nearest to an integer (ties to even). *)
Definition Z2float (z : Z) : float :=
  SF2Prim (binary_normalize prec emax z 0 false).

(** [float(z)] for an [int]: overflow is an exception, not infinity. *)
Definition float_of_int (z : Z) : result float :=
  let f := Z2float z in
  if is_infinity f then Raise OverflowError else Ok f.

(** [x / y] on two [float]s *)
Definition float_truediv (x y : float) : result float :=
  if PrimFloat.eqb y 0 then Raise ZeroDivisionError else Ok (x / y)%float.

(** A real scalar is a Python [float] or a NumPy [float64]: the same
    numbers, but a division by zero raises on the first and follows
    IEEE 754 on the second. *)
Inductive scalar : Type :=
| PyFloat (f : float)
| Float64 (f : float).

Definition value (s : scalar) : float :=
  match s with
  | PyFloat f => f
  | Float64 f => f
  end.

(** [1.0 / s] *)
Definition reciprocal (s : scalar) : result scalar :=
  match s with
  | PyFloat f => (r <- float_truediv 1 f ;; Ok (PyFloat r))%result
  | Float64 f => Ok (Float64 (1 / f))
  end.

(** [n * s] for the length [n] of an array, an [int] that binary64
    holds exactly. *)
Definition mul_length (n : nat) (s : scalar) : scalar :=
  match s with
  | PyFloat f => PyFloat (Z2float (Z.of_nat n) * f)
  | Float64 f => Float64 (Z2float (Z.of_nat n) * f)
  end.

(** [a / b] with [a : int] and [b : float]: [a] is converted first. *)
Definition int_truediv_float (a : Z) (b : float) : result float :=
  (x <- float_of_int a ;; float_truediv x b)%result.

(** [a / b] on two [int]s: the correctly rounded quotient, computed
    with the division core of the IEEE specification on the integers
    themselves. *)
Definition int_truediv (a b : Z) : result float :=
  if (b =? 0)%Z then Raise ZeroDivisionError
  else
    let negate := xorb (a <? 0)%Z (b <? 0)%Z in
    if (a =? 0)%Z then Ok (if negate then neg_zero else zero)
    else
      let '(q, e, l) :=
        SFdiv_core_binary prec emax (Z.abs a) 0 (Z.abs b) 0 in
      let f := SF2Prim (binary_round_aux prec emax negate q e l) in
      if is_infinity f then Raise OverflowError else Ok f.

Lemma default_cap_range : 4300%nat = 0%nat \/ (640 <= 4300)%nat.
Proof. right. lia. Qed.

(** The interpreter with the default cap of 4300 digits. *)
Definition cpython : Interpreter := {|
  max_str_digits := 4300;
  max_str_digits_range := default_cap_range
|}.

(** [a[-1]] on a sequence *)
Definition getitem_last {A : Type} (a : list A) : result A :=
  match rev a with
  | [] => Raise IndexError
  | v :: _ => Ok v
  end.

End Py.

(** ** NumPy: array operations *)

Module Np.

Local Open Scope float_scope.

(** A [complex128] value: real and imaginary part. *)
Definition complex : Type := (float * float)%type.

(** The library routines that are taken as given: the Hann window, the
    real-input FFT, the modulus of a complex number and the mean of an
    array, with the shapes the documentation promises. *)
Class Library : Type := {
  hanning : nat -> list float;
  rfft : list float -> result (list complex);
  absolute : complex -> float;
  mean : list float -> float;
  hanning_length : forall n, length (hanning n) = n;
  rfft_empty : rfft [] = Raise ValueError;
  rfft_length : forall a, a <> [] ->
    exists X, rfft a = Ok X /\ length X = (length a / 2 + 1)%nat
}.

(** [np.zeros(n)] *)
Definition zeros (n : nat) : list float := repeat 0 n.

(** [a * b] on two arrays of one shape *)
Definition multiply (a b : list float) : list float :=
  map (fun p => fst p * snd p) (combine a b).

(** [a - c] with a scalar [c] *)
Definition subtract_scalar (a : list float) (c : float) : list float :=
  map (fun v => v - c) a.

(** [np.diff(a)]: [a[i+1] - a[i]] *)
Definition diff (a : list float) : list float :=
  map (fun p => snd p - fst p) (combine a (tl a)).

(** [a > c] and [a < c]: boolean arrays *)
Definition greater (a : list float) (c : float) : list bool :=
  map (fun v => c <? v) a.

Definition less (a : list float) (c : float) : list bool :=
  map (fun v => v <? c) a.

(** [m1 & m2] on boolean arrays of one shape *)
Definition logical_and (m1 m2 : list bool) : list bool :=
  map (fun p => fst p && snd p) (combine m1 m2).

(** [a[mask]]: the elements of [a] where [mask] is true, in order *)
Fixpoint select {A : Type} (mask : list bool) (a : list A) : list A :=
  match mask, a with
  | b :: mask', v :: a' => if b then v :: select mask' a' else select mask' a'
  | _, _ => []
  end.

Fixpoint insert_sorted (v : float) (a : list float) : list float :=
  match a with
  | [] => [v]
  | w :: a' => if v <=? w then v :: a else w :: insert_sorted v a'
  end.

(** [np.sort(a)] for an array without NaN *)
Definition sort (a : list float) : list float :=
  fold_right insert_sorted [] a.

(** [np.median(a)]: the middle element of the sorted array, or the mean
    of the two middle elements; NaN for an empty array. *)
Definition median (a : list float) : float :=
  let s := sort a in
  let n := length s in
  if (n =? 0)%nat then nan
  else if Nat.odd n then nth (n / 2) s nan
  else (nth (n / 2 - 1) s nan + nth (n / 2) s nan) / 2.

(** [np.arange(n)] as floats *)
Definition arange (n : nat) : list float :=
  map (fun i => Py.Z2float (Z.of_nat i)) (seq 0 n).

(** [np.fft.rfftfreq(n, d)]: [val = 1.0 / (n * d)], then
    [arange(n//2 + 1) * val] *)
Definition rfftfreq (n : nat) (d : Py.scalar) : result (list float) :=
  (val <- Py.reciprocal (Py.mul_length n d) ;;
   Ok (map (fun k => k * Py.value val) (arange (n / 2 + 1))))%result.

(** [np.frombuffer(b, dtype=np.uint16)] on a little-endian host: one
    value per two bytes, low byte first; a buffer of odd size is
    refused. *)
Fixpoint frombuffer_uint16 (b : list byte) : result (list Z) :=
  match b with
  | [] => Ok []
  | [_] => Raise ValueError
  | lo :: hi :: b' =>
      (rest <- frombuffer_uint16 b' ;;
       Ok ((Z.of_N (Byte.to_N lo) + 256 * Z.of_N (Byte.to_N hi))%Z :: rest))%result
  end.

Lemma flat_hanning_length (n : nat) : length (repeat 0.5 n) = n.
Proof. apply repeat_length. Qed.

(** The first [n/2 + 1] inputs, as real numbers. *)
Definition flat_rfft (a : list float) : result (list complex) :=
  match a with
  | [] => Raise ValueError
  | _ :: _ => Ok (map (fun v => (v, 0)) (firstn (length a / 2 + 1) a))
  end.

Lemma flat_rfft_length (a : list float) :
  a <> [] ->
  exists X, flat_rfft a = Ok X /\ length X = (length a / 2 + 1)%nat.
Proof.
  intros Ha. destruct a as [|v a']; [congruence|].
  eexists; split; [reflexivity|].
  rewrite length_map, length_firstn.
  apply Nat.min_l.
  pose proof (Nat.div_mod_eq (length (v :: a')) 2).
  pose proof (Nat.mod_upper_bound (length (v :: a')) 2).
  cbn [length] in *. lia.
Qed.

(** A small instance of the interface, on which the loops can be
    evaluated: a flat window, and a transform that returns the first
    [n/2 + 1] inputs as real numbers.  It has the shapes of the library
    routines, not their values. *)
Definition flat : Library := {|
  hanning := fun n => repeat 0.5 n;
  rfft := flat_rfft;
  absolute := fun c => abs (fst c);
  mean := fun a => fold_right add 0 a / Py.Z2float (Z.of_nat (length a));
  hanning_length := flat_hanning_length;
  rfft_empty := eq_refl;
  rfft_length := flat_rfft_length
|}.

End Np.

(** ** The sliding window (fft.py lines 124-125, fft2.py lines 55-56) *)

Module Window.

Section Ops.
Context {A : Type}.

(** [x[1:]] *)
Definition from1 (x : list A) : list A := tl x.

(** [x[:-1] = src]: the first [len(x) - 1] elements are overwritten *)
Definition set_init (x src : list A) : list A :=
  src ++ skipn (length x - 1) x.

(** [x[:-1] = x[1:]] *)
Definition shift_left (x : list A) : list A := set_init x (from1 x).

(** [x[-1] = v] *)
Definition set_last (x : list A) (v : A) : result (list A) :=
  match x with
  | [] => Raise IndexError
  | _ :: _ => Ok (removelast x ++ [v])
  end.

(** The two statements of a push, in source order. *)
Definition push (x : list A) (v : A) : result (list A) :=
  set_last (shift_left x) v.

Fixpoint push_all (x : list A) (vs : list A) : result (list A) :=
  match vs with
  | [] => Ok x
  | v :: vs' => (x' <- push x v ;; push_all x' vs')%result
  end.

(** The same statements with the number of element stores they
    perform: a slice assignment stores every element of its right-hand
    side, an item assignment stores one. *)
Definition shift_left_stores (x : list A) : list A * nat :=
  (shift_left x, length (from1 x)).

Definition set_last_stores (x : list A) (v : A) : result (list A * nat) :=
  (x' <- set_last x v ;; Ok (x', 1))%result.

Definition push_stores (x : list A) (v : A) : result (list A * nat) :=
  let '(x1, c1) := shift_left_stores x in
  ('(x2, c2) <- set_last_stores x1 v ;; Ok (x2, c1 + c2))%result.

Fixpoint push_all_stores (x : list A) (vs : list A) : result (list A * nat) :=
  match vs with
  | [] => Ok (x, 0)
  | v :: vs' =>
      ('(x1, c1) <- push_stores x v ;;
       '(x2, c2) <- push_all_stores x1 vs' ;;
       Ok (x2, c1 + c2))%result
  end.

End Ops.

End Window.

(** ** The magnitude spectrum (fft.py lines 170-172, fft2.py lines 70-72) *)

Module Spectrum.

Local Open Scope float_scope.

(** [mag[0] *= 0.5] *)
Definition halve_first (mag : list float) : result (list float) :=
  match mag with
  | [] => Raise IndexError
  | m0 :: rest => Ok (m0 * 0.5 :: rest)
  end.

(** [coherent_gain = np.mean(hann)];
    [mag = (np.abs(X) / (N * coherent_gain)) * 2.0]; [mag[0] *= 0.5] *)
Definition magnitude {L : Np.Library} (N : nat) (hann : list float)
    (X : list Np.complex) : result (list float) :=
  let coherent_gain := Np.mean hann in
  let mag :=
    map (fun Xk => (Np.absolute Xk / (Py.Z2float (Z.of_nat N) * coherent_gain)) * 2) X in
  halve_first mag.

End Spectrum.

(** ** fft.py *)

Module Fft.

Record config : Type := {
  FS_FALLBACK : float;
  N : nat;
  HOP : nat;
  VREF : float;
  ADC_BITS : nat
}.

(** The constants of [fft.py]. *)
Definition defaults : config := {|
  FS_FALLBACK := 1000%float;
  N := 2048;
  HOP := 128;
  VREF := 5%float;
  ADC_BITS := 10
|}.

(** [(adc / ((2**ADC_BITS) - 1)) * VREF] *)
Definition adc_to_volts (cfg : config) (adc : Z) : result float :=
  (q <- Py.int_truediv adc (2 ^ Z.of_nat (ADC_BITS cfg) - 1) ;;
   Ok (q * VREF cfg)%float)%result.

Local Open Scope string_scope.

(** [parse_line]: [(t_seconds or None, adc or None)].  The unpacking
    [a, b = line.split(",", 1)] raises [ValueError] outside the [try]
    when the split does not give two parts. *)
Definition parse_line {py : Py.Interpreter} (line : string)
    : result (option float * option Z) :=
  let line := Py.strip line in
  if String.eqb line "" then Ok (None, None)
  else if Py.contains "," line then
    match Py.split1 "," line with
    | [a; b] =>
        try_except_ValueError
          (t_ms <- Py.int (Py.strip a) ;;
           adc <- Py.int (Py.strip b) ;;
           t_s <- Py.int_truediv_float t_ms 1000 ;;
           Ok (Some t_s, Some adc))%result
          (Ok (None, None))
    | _ => Raise ValueError
    end
  else
    try_except_ValueError
      (adc <- Py.int line ;; Ok (None, Some adc))%result
      (Ok (None, None)).

(** The module-level variables the main loop updates. *)
Record state : Type := {
  x : list float;
  t : list float;
  have_timestamps : bool;
  sample_count : nat;
  new_samples : nat
}.

Definition init (cfg : config) : state := {|
  x := Np.zeros (N cfg);
  t := Np.zeros (N cfg);
  have_timestamps := false;
  sample_count := 0;
  new_samples := 0
|}.

(** What one refresh hands to the plot: the rate, the two curves of the
    time plot and the two curves of the frequency plot. *)
Record snapshot : Type := {
  fs : float;
  time_axis : list float;
  time_data : list float;
  freqs : list float;
  mag : list float
}.

Local Open Scope float_scope.

(** Lines 143-145: the rate from the timestamp buffer, a [float64]
    when it is estimated and the configured [float] otherwise. *)
Definition estimate_fs (cfg : config) (t : list float) : Py.scalar :=
  let dt := Np.diff t in
  let dt := Np.select (Np.logical_and (Np.greater dt 0) (Np.less dt 1)) dt in
  if (10 <? length dt)%nat then Py.Float64 (1 / Np.median dt)
  else Py.PyFloat (FS_FALLBACK cfg).

(** Lines 140-156: the rate and the time axis, by [have_timestamps]. *)
Definition rate_and_axis (cfg : config) (st : state)
    : result (Py.scalar * list float) :=
  if have_timestamps st then
    let fs := estimate_fs cfg (t st) in
    (t_last <- Py.getitem_last (t st) ;;
     Ok (fs, Np.subtract_scalar (t st) t_last))%result
  else
    let fs := FS_FALLBACK cfg in
    Ok (Py.PyFloat fs, map (fun i => i / fs) (Np.arange (N cfg))).

(** [np.fft.rfftfreq(N, d=1.0 / fs)]: line 165, and line 103 at start-up
    with [FS_FALLBACK]. *)
Definition freq_axis (cfg : config) (fs : Py.scalar) : result (list float) :=
  (d <- Py.reciprocal fs ;; Np.rfftfreq (N cfg) d)%result.

(** Lines 138-181: one refresh. *)
Definition refresh {L : Np.Library} (cfg : config) (st : state) : result snapshot :=
  ('(fs, axis) <- rate_and_axis cfg st ;;
   let hann := Np.hanning (N cfg) in
   let xw := Np.multiply (x st) hann in
   X <- Np.rfft xw ;;
   freqs <- freq_axis cfg fs ;;
   mag <- Spectrum.magnitude (N cfg) hann X ;;
   Ok {| fs := Py.value fs; time_axis := axis; time_data := x st;
         freqs := freqs; mag := mag |})%result.

(** Lines 118-181: one iteration of the main loop on the decoded text
    of one [readline].  The result is the new state and the snapshot
    drawn in this iteration, if any. *)
Definition step {py : Py.Interpreter} {L : Np.Library} (cfg : config)
    (st : state) (raw : string)
    : result (state * option snapshot) :=
  ('(t_s, adc) <- parse_line raw ;;
   match adc with
   | None => Ok (st, None)
   | Some adc =>
       let x1 := Window.shift_left (x st) in
       v <- adc_to_volts cfg adc ;;
       x2 <- Window.set_last x1 v ;;
       st1 <-
         match t_s with
         | Some t_s =>
             t2 <- Window.set_last (Window.shift_left (t st)) t_s ;;
             Ok {| x := x2; t := t2; have_timestamps := true;
                   sample_count := sample_count st;
                   new_samples := new_samples st |}
         | None =>
             Ok {| x := x2; t := t st; have_timestamps := have_timestamps st;
                   sample_count := sample_count st + 1;
                   new_samples := new_samples st |}
         end ;;
       let new_samples1 := (new_samples st1 + 1)%nat in
       if (HOP cfg <=? new_samples1)%nat then
         let st2 := {| x := x st1; t := t st1;
                       have_timestamps := have_timestamps st1;
                       sample_count := sample_count st1;
                       new_samples := 0 |} in
         snap <- refresh cfg st2 ;;
         Ok (st2, Some snap)
       else
         Ok ({| x := x st1; t := t st1;
                have_timestamps := have_timestamps st1;
                sample_count := sample_count st1;
                new_samples := new_samples1 |}, None)
   end)%result.

(** The loop over the successive lines; the snapshots in drawing order. *)
Fixpoint run {py : Py.Interpreter} {L : Np.Library} (cfg : config)
    (st : state) (lines : list string)
    : result (state * list snapshot) :=
  match lines with
  | [] => Ok (st, [])
  | raw :: lines' =>
      ('(st1, out) <- step cfg st raw ;;
       '(st2, outs) <- run cfg st1 lines' ;;
       Ok (st2, match out with Some s => s :: outs | None => outs end))%result
  end.

End Fft.

(** ** fft2.py *)

Module Fft2.

Record config : Type := {
  FS : float;
  N : nat;
  HOP : nat
}.

(** The constants of [fft2.py]. *)
Definition defaults : config := {|
  FS := 1000%float;
  N := 2048;
  HOP := 256
|}.

Record state : Type := {
  buf : list float;
  pending : list byte;
  new : nat
}.

Definition init (cfg : config) : state := {|
  buf := Np.zeros (N cfg);
  pending := [];
  new := 0
|}.

(** What one refresh hands to the plot. *)
Record snapshot : Type := {
  time_data : list float;
  mag : list float
}.

(** Lines 41-52: the samples completed by one [read] and the bytes kept
    for the next one. *)
Definition frame (pending chunk : list byte) : result (list Z * list byte) :=
  match chunk with
  | [] => Ok ([], pending)
  | _ :: _ =>
      let pending := pending ++ chunk in
      let n_samples := (length pending / 2)%nat in
      if (n_samples =? 0)%nat then Ok ([], pending)
      else
        (data <- Np.frombuffer_uint16 (firstn (n_samples * 2) pending) ;;
         Ok (data, skipn (n_samples * 2) pending))%result
  end.

(** Lines 68-72: one refresh. *)
Definition refresh {L : Np.Library} (cfg : config) (buf : list float) : result snapshot :=
  (let hann := Np.hanning (N cfg) in
   let xw := Np.multiply (Np.subtract_scalar buf (Np.mean buf)) hann in
   X <- Np.rfft xw ;;
   mag <- Spectrum.magnitude (N cfg) hann X ;;
   Ok {| time_data := buf; mag := mag |})%result.

(** Lines 54-80: the loop over the samples of one read. *)
Fixpoint consume {L : Np.Library} (cfg : config) (buf : list float) (new : nat)
    (data : list Z) : result (list float * nat * list snapshot) :=
  match data with
  | [] => Ok (buf, new, [])
  | s :: data' =>
      (buf1 <- Window.push buf (Py.Z2float s) ;;
       let new1 := (new + 1)%nat in
       if (HOP cfg <=? new1)%nat then
         snap <- refresh cfg buf1 ;;
         '(buf2, new2, snaps) <- consume cfg buf1 0 data' ;;
         Ok (buf2, new2, snap :: snaps)
       else consume cfg buf1 new1 data')%result
  end.

(** Lines 41-80: one iteration of the main loop on the bytes of one
    [read]: the new state, the samples decoded and the snapshots drawn. *)
Definition step {L : Np.Library} (cfg : config) (st : state) (chunk : list byte)
    : result (state * list Z * list snapshot) :=
  ('(data, pending1) <- frame (pending st) chunk ;;
   '(buf1, new1, snaps) <- consume cfg (buf st) (new st) data ;;
   Ok ({| buf := buf1; pending := pending1; new := new1 |}, data, snaps))%result.

Fixpoint run {L : Np.Library} (cfg : config) (st : state) (chunks : list (list byte))
    : result (state * list Z * list snapshot) :=
  match chunks with
  | [] => Ok (st, [], [])
  | chunk :: chunks' =>
      ('(st1, data1, snaps1) <- step cfg st chunk ;;
       '(st2, data2, snaps2) <- run cfg st1 chunks' ;;
       Ok (st2, data1 ++ data2, snaps1 ++ snaps2))%result
  end.

(** Line 21: the time axis fixed at start-up, [np.arange(N) / FS]. *)
Definition t_axis (cfg : config) : list float :=
  map (fun i => (i / FS cfg)%float) (Np.arange (N cfg)).

(** Line 28: the frequency axis fixed at start-up,
    [np.fft.rfftfreq(N, d=1/FS)]. *)
Definition f_axis (cfg : config) : result (list float) :=
  (d <- Py.reciprocal (Py.PyFloat (FS cfg)) ;; Np.rfftfreq (N cfg) d)%result.

End Fft2.

(** ** Reference definitions used in the statements *)

Module Ref.

(** The text record format: after removal of the surrounding
    whitespace a line is blank, or its comma-separated fields are one
    integer (a bare sample), or two integers (milliseconds and sample);
    anything else is malformed. *)
Inductive line_class : Type :=
| Blank
| Bare (a : Z)
| Timestamped (t_ms a : Z)
| Malformed.

(** A string that is empty or starts with a character outside [sp]. *)
Definition left_clean (sp : ascii -> bool) (s : string) : Prop :=
  match s with
  | EmptyString => True
  | String c _ => sp c = false
  end.

(** The comma-separated fields of a line. *)
Fixpoint fields (s : string) : list string :=
  match s with
  | EmptyString => [EmptyString]
  | String c s' =>
      if Ascii.eqb c ","%char then EmptyString :: fields s'
      else match fields s' with
           | f :: rest => String c f :: rest
           | [] => []
           end
  end.

(** An integer field, whitespace around it allowed. *)
Definition integer_field {py : Py.Interpreter} (f : string) : option Z :=
  match Py.int (Py.strip f) with
  | Ok z => Some z
  | Raise _ => None
  end.

Definition classify {py : Py.Interpreter} (line : string) : line_class :=
  let line := Py.strip line in
  if String.eqb line EmptyString then Blank
  else
    match fields line with
    | [a] =>
        match integer_field a with
        | Some z => Bare z
        | None => Malformed
        end
    | [a; b] =>
        match integer_field a, integer_field b with
        | Some t_ms, Some z => Timestamped t_ms z
        | _, _ => Malformed
        end
    | _ => Malformed
    end.

(** A well-formed timestamped line whose timestamp has 310 digits:
    [1], then 309 zeros, a comma and the sample [5]. *)
Definition long_timestamp_line : string :=
  String "1" (string_of_list_ascii (repeat "0"%char 309) ++ ",5").

(** The consecutive differences of a timestamp buffer:
    [ts[i+1] - ts[i]]. *)
Definition deltas (ts : list float) : list float :=
  map (fun i => (nth (S i) ts 0 - nth i ts 0)%float) (seq 0 (length ts - 1)).

(** A delta is kept when it is positive and below one second. *)
Definition valid_delta (d : float) : bool :=
  ((0 <? d) && (d <? 1))%float.

(** The rate the estimator is to return: the fallback with fewer than
    11 valid deltas, else the inverse of their median. *)
Definition rate (fallback : float) (ts : list float) : Py.scalar :=
  let valid := filter valid_delta (deltas ts) in
  if length valid <? 11 then Py.PyFloat fallback
  else Py.Float64 (1 / Np.median valid).

(** The configuration got [fft.py] through its start-up: the frequency
    axis of line 103 is defined, that is, neither [FS_FALLBACK] nor
    [N * (1.0 / FS_FALLBACK)] is zero. *)
Definition started (cfg : Fft.config) : Prop :=
  exists freqs,
    Fft.freq_axis cfg (Py.PyFloat (Fft.FS_FALLBACK cfg)) = Ok freqs.

(** The buffers of [fft.py] have the configured, positive length, and
    the program got through its start-up. *)
Definition well_formed (cfg : Fft.config) (st : Fft.state) : Prop :=
  length (Fft.x st) = Fft.N cfg
  /\ length (Fft.t st) = Fft.N cfg
  /\ 0 < Fft.N cfg
  /\ started cfg.

(** The sample a line contributes in [fft.py]: nothing, or the voltage
    with the timestamp in seconds when the line has one. *)
Definition decode {py : Py.Interpreter} (cfg : Fft.config) (raw : string)
    : result (option (option float * float)) :=
  ('(t_s, adc) <- Fft.parse_line raw ;;
   match adc with
   | None => Ok None
   | Some adc => v <- Fft.adc_to_volts cfg adc ;; Ok (Some (t_s, v))
   end)%result.

(** The samples of a sequence of lines, in arrival order. *)
Fixpoint samples {py : Py.Interpreter} (cfg : Fft.config) (lines : list string)
    : result (list (option float * float)) :=
  match lines with
  | [] => Ok []
  | raw :: lines' =>
      (s <- decode cfg raw ;;
       rest <- samples cfg lines' ;;
       Ok (match s with Some p => p :: rest | None => rest end))%result
  end.

(** The state of [fft.py] after one more sample. *)
Definition accept (cfg : Fft.config) (st : Fft.state)
    (s : option float * float) : Fft.state :=
  let n1 := Fft.new_samples st + 1 in
  {| Fft.x := tl (Fft.x st) ++ [snd s];
     Fft.t := match fst s with
              | Some ts => tl (Fft.t st) ++ [ts]
              | None => Fft.t st
              end;
     Fft.have_timestamps := match fst s with
                            | Some _ => true
                            | None => Fft.have_timestamps st
                            end;
     Fft.sample_count := match fst s with
                         | Some _ => Fft.sample_count st
                         | None => Fft.sample_count st + 1
                         end;
     Fft.new_samples := if Fft.HOP cfg <=? n1 then 0 else n1 |}.

(** A small configuration of [fft.py]: a window of two cells and a
    refresh after every [hop] samples. *)
Definition small (hop : nat) : Fft.config := {|
  Fft.FS_FALLBACK := 1000%float;
  Fft.N := 2;
  Fft.HOP := hop;
  Fft.VREF := 5%float;
  Fft.ADC_BITS := 10
|}.

(** A small configuration of [fft2.py]. *)
Definition small2 (hop : nat) : Fft2.config := {|
  Fft2.FS := 1000%float;
  Fft2.N := 2;
  Fft2.HOP := hop
|}.

(** The timestamps among some samples, in order. *)
Fixpoint stamps (ss : list (option float * float)) : list float :=
  match ss with
  | [] => []
  | (Some ts, _) :: ss' => ts :: stamps ss'
  | (None, _) :: ss' => stamps ss'
  end.

(** Index alignment of the two buffers of [fft.py] after the samples
    [ss]: counting from the newest, sample [j] sits in cell [n - 1 - j]
    of the value buffer, and when it has a timestamp the same cell of
    the timestamp buffer holds it. *)
Definition aligned (ss : list (option float * float)) (x t : list float) : Prop :=
  length t = length x
  /\ forall j ts v,
       j < length x ->
       nth_error (rev ss) j = Some (ts, v) ->
       nth_error x (length x - 1 - j) = Some v
       /\ (forall s, ts = Some s -> nth_error t (length x - 1 - j) = Some s).

(** The value of two bytes read as an unsigned 16-bit little-endian
    integer. *)
Definition u16le (lo hi : byte) : Z :=
  (Z.of_N (Byte.to_N lo) + 256 * Z.of_N (Byte.to_N hi))%Z.

(** The complete 2-byte groups of a byte stream, in stream order; a
    trailing odd byte belongs to no group. *)
Fixpoint words (b : list byte) : list Z :=
  match b with
  | lo :: hi :: b' => u16le lo hi :: words b'
  | _ => []
  end.

(** The bytes of a stream after its last complete 2-byte group. *)
Definition tail_bytes (b : list byte) : list byte :=
  skipn (length b / 2 * 2) b.

(** [|X[k]| / (N * coherent_gain) * 2.0], where the coherent gain is the
    mean of the window coefficients. *)
Definition scaled {L : Np.Library} (N : nat) (Xk : Np.complex) : float :=
  (Np.absolute Xk / (Py.Z2float (Z.of_nat N) * Np.mean (Np.hanning N)) * 2)%float.

(** [mag] is the scaled one-sided spectrum of the [N/2 + 1] bins [X],
    with the DC bin halved after the scaling. *)
Definition scaled_spectrum {L : Np.Library} (N : nat) (X : list Np.complex)
    (mag : list float) : Prop :=
  length X = N / 2 + 1
  /\ length mag = N / 2 + 1
  /\ nth 0 mag nan = (scaled N (nth 0 X (nan, nan)) * 0.5)%float
  /\ (forall k, 1 <= k <= N / 2 ->
        nth k mag nan = scaled N (nth k X (nan, nan))).

(** One iteration of the loop of [fft2.py] that receives [bytes] in a
    single read. *)
Definition read_at_once {L : Np.Library} (cfg : Fft2.config) (st : Fft2.state)
    (bytes : list byte) : result (Fft2.state * list Z * list Fft2.snapshot) :=
  let acc := Fft2.pending st ++ bytes in
  ('(buf1, new1, snaps) <-
     Fft2.consume cfg (Fft2.buf st) (Fft2.new st) (words acc) ;;
   Ok ({| Fft2.buf := buf1; Fft2.pending := tail_bytes acc; Fft2.new := new1 |},
       words acc, snaps))%result.

(** The window [x] after the first [p] of the values [vs] have been
    pushed into it. *)
Definition window_after {A : Type} (x vs : list A) (p : nat) : list A :=
  skipn p (x ++ firstn p vs).

(** A line that carries a sample: a bare or a timestamped record. *)
Definition is_record {py : Py.Interpreter} (line : string) : bool :=
  match classify line with
  | Bare _ | Timestamped _ _ => true
  | Blank | Malformed => false
  end.

(** A string of whitespace only, the empty string included. *)
Fixpoint only_space (s : string) : bool :=
  match s with
  | EmptyString => true
  | String c s' => Py.isspace c && only_space s'
  end.

(** A voltage within the range of the converter, [0 .. VREF]. *)
Definition in_volts (cfg : Fft.config) (v : float) : bool :=
  ((0 <=? v) && (v <=? Fft.VREF cfg))%float.

(** A line as the sketch sends it: no record, or a record with a
    sample in the range of the converter, [0 .. 2^ADC_BITS - 1], and a
    millisecond count below [2^53] in magnitude. *)
Definition plausible {py : Py.Interpreter} (cfg : Fft.config) (line : string)
    : bool :=
  let top := (2 ^ Z.of_nat (Fft.ADC_BITS cfg) - 1)%Z in
  match classify line with
  | Bare a => ((0 <=? a) && (a <=? top))%Z
  | Timestamped t_ms a =>
      ((Z.abs t_ms <? 2 ^ 53) && ((0 <=? a) && (a <=? top)))%Z
  | Blank | Malformed => true
  end.

(** The variables of [fft.py] other than [sample_count]. *)
Definition live (st : Fft.state) : list float * list float * bool * nat :=
  (Fft.x st, Fft.t st, Fft.have_timestamps st, Fft.new_samples st).

(** What a run of [fft.py] leaves behind: the exception that ended it,
    or the snapshots drawn and the variables other than
    [sample_count]. *)
Definition shown (r : result (Fft.state * list Fft.snapshot))
    : result (list float * list float * bool * nat * list Fft.snapshot) :=
  match r with
  | Ok (st, snaps) => Ok (live st, snaps)
  | Raise e => Raise e
  end.

(** A value that [fft2.py] can store: the [float] of an unsigned
    16-bit count. *)
Definition is_count (v : float) : Prop :=
  exists k : Z, (0 <= k < 65536)%Z /\ v = Py.Z2float k.

(** The order of two [float]s. *)
Definition fle (a b : float) : Prop := (a <=? b)%float = true.

(** [m] is the median of the numbers [a] as [np.median] defines it:
    with the values of [a] arranged in ascending order, the middle one,
    or the mean of the two middle ones when their number is even. *)
Definition is_median (a : list float) (m : float) : Prop :=
  exists s,
    Permutation s a
    /\ StronglySorted fle s
    /\ m = (if Nat.odd (length a) then nth (length a / 2) s nan
            else (nth (length a / 2 - 1) s nan
                  + nth (length a / 2) s nan) / 2)%float.

(** A configuration of [fft.py] with a window of twelve cells that is
    refreshed once it has been filled. *)
Definition window12 : Fft.config := {|
  Fft.FS_FALLBACK := 1000%float;
  Fft.N := 12;
  Fft.HOP := 12;
  Fft.VREF := 5%float;
  Fft.ADC_BITS := 10
|}.

(** Twelve records one millisecond apart, from 1000 ms to 1011 ms. *)
Definition millisecond_lines : list string :=
  ["1000,0"; "1001,0"; "1002,0"; "1003,0"; "1004,0"; "1005,0";
   "1006,0"; "1007,0"; "1008,0"; "1009,0"; "1010,0"; "1011,0"]%string.

End Ref.

(** * Properties *)

(** ** The sliding window *)

Section WindowFacts.
Context {A : Type}.
Implicit Types (x vs : list A) (v : A).

Lemma shift_left_length x : length (Window.shift_left x) = length x.
Proof.
  unfold Window.shift_left, Window.set_init, Window.from1.
  rewrite length_app, length_skipn.
  destruct x as [|a x']; cbn [length tl]; lia.
Qed.

Lemma shift_left_cons a x :
  exists z, Window.shift_left (a :: x) = x ++ [z].
Proof.
  unfold Window.shift_left, Window.set_init, Window.from1.
  cbn [length tl]. rewrite Nat.sub_succ, Nat.sub_0_r.
  assert (H : length (skipn (length x) (a :: x)) = 1)
    by (rewrite length_skipn; cbn [length]; lia).
  destruct (skipn (length x) (a :: x)) as [|z [|z' r]]; simpl in H; try lia.
  now exists z.
Qed.

Lemma set_last_snoc x z v : Window.set_last (x ++ [z]) v = Ok (x ++ [v]).
Proof.
  unfold Window.set_last.
  destruct (x ++ [z]) eqn:E.
  - now destruct x.
  - now rewrite <- E, removelast_last.
Qed.

Lemma push_cons a x v : Window.push (a :: x) v = Ok (x ++ [v]).
Proof.
  unfold Window.push.
  destruct (shift_left_cons a x) as [z ->].
  apply set_last_snoc.
Qed.

Lemma push_nonempty x v : x <> [] -> Window.push x v = Ok (tl x ++ [v]).
Proof. destruct x; [congruence | intros _; apply push_cons]. Qed.

Lemma push_empty v : Window.push (@nil A) v = Raise IndexError.
Proof. reflexivity. Qed.

Lemma push_all_nonempty vs : forall x,
  x <> [] -> Window.push_all x vs = Ok (skipn (length vs) (x ++ vs)).
Proof.
  induction vs as [|v vs IH]; intros x Hx; simpl.
  - now rewrite app_nil_r.
  - rewrite push_nonempty by assumption. simpl.
    rewrite IH by (destruct (tl x); discriminate).
    destruct x as [|a x']; [congruence|]. simpl.
    now rewrite <- app_assoc.
Qed.

Lemma skipn_window_length x vs :
  length (skipn (length vs) (x ++ vs)) = length x.
Proof. rewrite length_skipn, length_app. lia. Qed.

Lemma skipn_window_full x vs :
  length x <= length vs ->
  skipn (length vs) (x ++ vs) = skipn (length vs - length x) vs.
Proof.
  intros H. rewrite skipn_app.
  rewrite (skipn_all2 x) by lia. reflexivity.
Qed.

Lemma push_stores_nonempty x v :
  x <> [] -> Window.push_stores x v = Ok (tl x ++ [v], length x).
Proof.
  intros Hx. unfold Window.push_stores, Window.shift_left_stores,
    Window.set_last_stores.
  fold (Window.push x v). rewrite push_nonempty by assumption. simpl.
  unfold Window.from1. destruct x; [congruence|]. simpl.
  now rewrite Nat.add_1_r.
Qed.

Lemma push_all_stores_nonempty vs : forall x,
  x <> [] ->
  Window.push_all_stores x vs
  = Ok (skipn (length vs) (x ++ vs), length vs * length x).
Proof.
  induction vs as [|v vs IH]; intros x Hx; simpl.
  - now rewrite app_nil_r.
  - rewrite push_stores_nonempty by assumption. simpl.
    rewrite IH by (destruct (tl x); discriminate). simpl.
    destruct x as [|a x']; [congruence|]. simpl.
    rewrite <- app_assoc, length_app. simpl.
    do 2 f_equal. lia.
Qed.

End WindowFacts.

(** The contents of a window of [N > 0] cells after any pushes. *)
Lemma push_all_window (A : Type) (N : nat) (x ss : list A) :
  length x = N -> 0 < N ->
  (exists x',
      Window.push_all x ss = Ok x'
      /\ length x' = N
      /\ x' = skipn (length ss) (x ++ ss)
      /\ (N <= length ss -> x' = skipn (length ss - N) ss))
  /\ (forall v, Window.push x v = Ok (tl x ++ [v])).
Proof.
  intros HN Hpos.
  assert (Hx : x <> []) by (destruct x; simpl in *; [lia | discriminate]).
  split.
  - exists (skipn (length ss) (x ++ ss)). repeat split.
    + now apply push_all_nonempty.
    + now rewrite skipn_window_length.
    + intros Hk. rewrite <- HN. apply skipn_window_full. lia.
  - intros v. now apply push_nonempty.
Qed.

(** C8, as stated, fails: no constant bounds the element stores of a
    push independently of the window, since one push of a window of
    [c + 1] cells already performs [c + 1] stores. *)
Lemma push_stores_not_constant :
  ~ (exists c : nat,
        forall (x vs : list float) (x' : list float) (n : nat),
          x <> [] ->
          Window.push_all_stores x vs = Ok (x', n) ->
          n <= c * length vs).
Proof.
  intros [c H].
  assert (Hx : Np.zeros (S c) <> []) by discriminate.
  specialize (H (Np.zeros (S c)) [0%float] _ _ Hx
                (push_all_stores_nonempty [0%float] Hx)).
  unfold Np.zeros in H. rewrite repeat_length in H. simpl in H. lia.
Qed.

(** C8, amended. Every push of a window of [N > 0] cells performs exactly
    [N] element stores, so [k] pushes perform [k * N]: the cost per
    sample is linear in the window length and does not depend on the
    number of samples pushed before. *)
Theorem push_all_store_count (A : Type) (N : nat) (x vs : list A) :
  length x = N -> 0 < N ->
  exists x',
    Window.push_all_stores x vs = Ok (x', length vs * N)
    /\ Window.push_all x vs = Ok x'
    /\ (forall v, Window.push_stores x v = Ok (tl x ++ [v], N)).
Proof.
  intros HN Hpos.
  assert (Hx : x <> []) by (destruct x; simpl in *; [lia | discriminate]).
  exists (skipn (length vs) (x ++ vs)). subst N. repeat split.
  - now apply push_all_stores_nonempty.
  - now apply push_all_nonempty.
  - intros v. now apply push_stores_nonempty.
Qed.

Lemma push_all_store_count_witness :
  Window.push_all_stores [10; 20; 30; 40] [1; 2; 3] = Ok ([40; 1; 2; 3], 12).
Proof.
  destruct (@push_all_store_count nat 4 [10; 20; 30; 40] [1; 2; 3]
              eq_refl (Nat.lt_0_succ 3)) as [x' [Hcost [Hrun _]]].
  rewrite Hcost. f_equal. f_equal.
  simpl in Hrun. now injection Hrun as <-.
Defined.

(** ** Binary framing *)

Lemma list_pair_ind (A : Type) (P : list A -> Prop) :
  P [] -> (forall a, P [a]) ->
  (forall a b l, P l -> P (a :: b :: l)) ->
  forall l, P l.
Proof.
  intros H0 H1 H2 l.
  enough (P l /\ forall a, P (a :: l)) by tauto.
  induction l as [|b l [IHl IHbl]]; split; auto.
Qed.

Lemma half_SS n : S (S n) / 2 = S (n / 2).
Proof.
  change (S (S n)) with (1 * 2 + n) at 1.
  rewrite Nat.add_comm, Nat.div_add by lia. lia.
Qed.

Lemma words_length b : length (Ref.words b) = length b / 2.
Proof.
  induction b as [| a | a c l IH] using list_pair_ind; try reflexivity.
  cbn [Ref.words length]. now rewrite half_SS, IH.
Qed.

Lemma tail_bytes_length b : length (Ref.tail_bytes b) = length b mod 2.
Proof.
  unfold Ref.tail_bytes. rewrite length_skipn.
  pose proof (Nat.div_mod_eq (length b) 2). lia.
Qed.

Lemma tail_bytes_short b : length (Ref.tail_bytes b) <= 1.
Proof.
  rewrite tail_bytes_length.
  pose proof (Nat.mod_upper_bound (length b) 2). lia.
Qed.

Lemma words_nth b : forall i,
  i < length b / 2 ->
  nth i (Ref.words b) 0%Z
  = Ref.u16le (nth (2 * i) b "000"%byte) (nth (2 * i + 1) b "000"%byte).
Proof.
  induction b as [| a | a c l IH] using list_pair_ind; intros i Hi.
  - simpl in Hi. lia.
  - simpl in Hi. lia.
  - cbn [length] in Hi. rewrite half_SS in Hi.
    destruct i as [|i]; [reflexivity|].
    replace (2 * S i) with (S (S (2 * i))) by lia.
    cbn [Ref.words nth Nat.add]. apply IH. lia.
Qed.

Lemma u16le_range lo hi : (0 <= Ref.u16le lo hi < 65536)%Z.
Proof.
  unfold Ref.u16le.
  pose proof (Byte.to_N_bounded lo). pose proof (Byte.to_N_bounded hi). lia.
Qed.

Lemma words_range b : Forall (fun s => (0 <= s < 65536)%Z) (Ref.words b).
Proof.
  induction b as [| a | a c l IH] using list_pair_ind; simpl; auto.
  constructor; [apply u16le_range | exact IH].
Qed.

Lemma frombuffer_words b :
  Nat.even (length b) = true -> Np.frombuffer_uint16 b = Ok (Ref.words b).
Proof.
  induction b as [| a | a c l IH] using list_pair_ind; intros He.
  - reflexivity.
  - discriminate.
  - cbn [length Nat.even] in He. cbn [Np.frombuffer_uint16 Ref.words].
    now rewrite IH.
Qed.

Lemma frombuffer_odd b :
  Nat.even (length b) = false -> Np.frombuffer_uint16 b = Raise ValueError.
Proof.
  induction b as [| a | a c l IH] using list_pair_ind; intros He.
  - discriminate.
  - reflexivity.
  - cbn [length Nat.even] in He. cbn [Np.frombuffer_uint16].
    now rewrite IH.
Qed.

Lemma words_app a : forall b,
  Nat.even (length a) = true -> Ref.words (a ++ b) = Ref.words a ++ Ref.words b.
Proof.
  induction a as [| a0 | a0 a1 l IH] using list_pair_ind; intros b He.
  - reflexivity.
  - discriminate.
  - cbn [length Nat.even] in He. cbn [app Ref.words]. now rewrite IH.
Qed.

Lemma even_double n : Nat.even (n * 2) = true.
Proof. rewrite Nat.even_mul. apply orb_true_r. Qed.

Lemma length_firstn_groups (b : list byte) :
  length (firstn (length b / 2 * 2) b) = length b / 2 * 2.
Proof.
  rewrite length_firstn.
  pose proof (Nat.div_mod_eq (length b) 2). lia.
Qed.

Lemma words_firstn_groups b :
  Ref.words (firstn (length b / 2 * 2) b) = Ref.words b.
Proof.
  rewrite <- (firstn_skipn (length b / 2 * 2) b) at 3.
  rewrite words_app
    by (rewrite length_firstn_groups; apply even_double).
  fold (Ref.tail_bytes b).
  pose proof (tail_bytes_short b) as Hs.
  destruct (Ref.tail_bytes b) as [|t0 [|t1 r]]; simpl in *;
    [now rewrite app_nil_r | now rewrite app_nil_r | lia].
Qed.

Lemma words_short b : length b <= 1 -> Ref.words b = [].
Proof. destruct b as [|a [|c l]]; simpl; auto; lia. Qed.

Lemma tail_bytes_short_id b : length b <= 1 -> Ref.tail_bytes b = b.
Proof. destruct b as [|a [|c l]]; simpl; auto; lia. Qed.

(** The framing of one read, in closed form. *)
Lemma frame_spec pending chunk :
  length pending <= 1 ->
  Fft2.frame pending chunk
  = Ok (Ref.words (pending ++ chunk), Ref.tail_bytes (pending ++ chunk)).
Proof.
  intros Hp. unfold Fft2.frame.
  destruct chunk as [|c chunk].
  - rewrite app_nil_r, words_short, tail_bytes_short_id by assumption.
    reflexivity.
  - set (acc := pending ++ c :: chunk).
    destruct (Nat.eqb_spec (length acc / 2) 0) as [E|E].
    + assert (Hs : length acc <= 1).
      { pose proof (Nat.div_mod_eq (length acc) 2).
        pose proof (Nat.mod_upper_bound (length acc) 2). lia. }
      now rewrite words_short, tail_bytes_short_id.
    + rewrite frombuffer_words
        by (rewrite length_firstn_groups; apply even_double).
      cbn [bind]. now rewrite words_firstn_groups.
Qed.

(** C5. With at most one byte carried over, one read decodes the
    accumulated bytes as unsigned 16-bit little-endian values, one per
    complete 2-byte group and in stream order, and keeps the trailing odd
    byte, if any, for the next read.  The decoded values are bare
    integers: no timestamp is attached. *)
Theorem binary_framing (pending chunk : list byte) :
  length pending <= 1 ->
  let acc := pending ++ chunk in
  exists (data : list Z) (pending' : list byte),
    Fft2.frame pending chunk = Ok (data, pending')
    /\ length data = length acc / 2
    /\ (forall i, i < length data ->
          nth i data 0%Z
          = (Z.of_N (Byte.to_N (nth (2 * i) acc "000"%byte))
             + 256 * Z.of_N (Byte.to_N (nth (2 * i + 1) acc "000"%byte)))%Z)
    /\ Forall (fun s => (0 <= s < 65536)%Z) data
    /\ pending' = skipn (2 * length data) acc
    /\ length pending' = length acc mod 2
    /\ length pending' <= 1.
Proof.
  intros Hp acc.
  exists (Ref.words acc), (Ref.tail_bytes acc).
  split; [now apply frame_spec|].
  split; [apply words_length|].
  split; [intros i Hi; rewrite words_length in Hi; now apply words_nth|].
  split; [apply words_range|].
  split; [unfold Ref.tail_bytes; now rewrite words_length, Nat.mul_comm|].
  split; [apply tail_bytes_length | apply tail_bytes_short].
Qed.

Lemma binary_framing_witness :
  Fft2.frame ["003"%byte] ["001"%byte; "255"%byte; "003"%byte; "007"%byte]
  = Ok ([259; 1023]%Z, ["007"%byte]).
Proof.
  destruct (@binary_framing ["003"%byte]
              ["001"%byte; "255"%byte; "003"%byte; "007"%byte]
              (le_n 1)) as [data [pending' [Hf _]]].
  rewrite Hf. vm_compute in Hf. now symmetry.
Defined.

(** ** The magnitude spectrum *)

Section SpectrumFacts.
Context {L : Np.Library}.

Lemma multiply_length a b :
  length (Np.multiply a b) = Nat.min (length a) (length b).
Proof. unfold Np.multiply. now rewrite length_map, length_combine. Qed.

Lemma subtract_scalar_length a c : length (Np.subtract_scalar a c) = length a.
Proof. apply length_map. Qed.

Lemma nonempty_length (A : Type) (l : list A) : 0 < length l -> l <> [].
Proof. destruct l; simpl; [lia | discriminate]. Qed.

(** The transform of a window of [n > 0] samples has [n/2 + 1] bins. *)
Lemma rfft_windowed a n :
  length a = n -> 0 < n ->
  exists X,
    Np.rfft (Np.multiply a (Np.hanning n)) = Ok X /\ length X = n / 2 + 1.
Proof.
  intros Ha Hn.
  assert (Hl : length (Np.multiply a (Np.hanning n)) = n)
    by (rewrite multiply_length, Np.hanning_length, Ha; apply Nat.min_id).
  destruct (Np.rfft_length (a := Np.multiply a (Np.hanning n))) as [X [HX HlX]].
  - apply nonempty_length. lia.
  - exists X. split; [assumption | now rewrite HlX, Hl].
Qed.

Lemma magnitude_spec N hann X :
  X <> [] ->
  exists mag,
    Spectrum.magnitude N hann X = Ok mag
    /\ length mag = length X
    /\ nth 0 mag nan
       = (((Np.absolute (nth 0 X (nan, nan))
            / (Py.Z2float (Z.of_nat N) * Np.mean hann)) * 2) * 0.5)%float
    /\ (forall k, 0 < k < length X ->
          nth k mag nan
          = ((Np.absolute (nth k X (nan, nan))
              / (Py.Z2float (Z.of_nat N) * Np.mean hann)) * 2)%float).
Proof.
  intros HX. destruct X as [|X0 X']; [congruence|].
  unfold Spectrum.magnitude. cbn [map Spectrum.halve_first].
  eexists. split; [reflexivity|]. split; [|split].
  - cbn [length]. now rewrite length_map.
  - reflexivity.
  - intros [|k] [Hk0 Hk]; [lia|]. cbn [nth length] in *.
    set (f := fun Xk => _).
    rewrite (nth_indep _ nan (f (nan, nan)))
      by (rewrite length_map; lia).
    apply map_nth.
Qed.

End SpectrumFacts.

(** ** The loop of fft2.py *)

Section BinaryLoop.
Context {L : Np.Library}.
Variable cfg : Fft2.config.

Lemma refresh2_ok buf :
  length buf = Fft2.N cfg -> 0 < Fft2.N cfg ->
  exists snap, Fft2.refresh cfg buf = Ok snap.
Proof.
  intros Hb Hn. unfold Fft2.refresh.
  destruct (@rfft_windowed L (Np.subtract_scalar buf (Np.mean buf)) (Fft2.N cfg))
    as [X [-> HlX]]; [now rewrite subtract_scalar_length | assumption |].
  cbn [bind].
  destruct (@magnitude_spec L (Fft2.N cfg) (Np.hanning (Fft2.N cfg)) X)
    as [m [-> _]]; [apply nonempty_length; lia|].
  cbn [bind]. now eexists.
Qed.

Lemma push_length (A : Type) (x x' : list A) v :
  Window.push x v = Ok x' -> length x' = length x.
Proof.
  destruct x as [|a x]; [discriminate|].
  rewrite push_cons. intros [= <-]. rewrite length_app. simpl. lia.
Qed.

(** On a window of [N > 0] cells the inner loop never raises and pushes
    every sample. *)
Lemma consume_ok data : forall buf new,
  length buf = Fft2.N cfg -> 0 < Fft2.N cfg ->
  exists new' snaps,
    Fft2.consume cfg buf new data
    = Ok (skipn (length data) (buf ++ map Py.Z2float data), new', snaps).
Proof.
  induction data as [|s data IH]; intros buf new Hb Hn.
  - exists new, []. simpl. now rewrite app_nil_r.
  - cbn [Fft2.consume].
    assert (Hx : buf <> []) by (apply nonempty_length; lia).
    rewrite (push_nonempty (Py.Z2float s) Hx). cbn [bind].
    assert (Hb1 : length (tl buf ++ [Py.Z2float s]) = Fft2.N cfg).
    { rewrite <- Hb. apply (@push_length _ buf _ (Py.Z2float s)).
      now apply push_nonempty. }
    assert (Hskip : skipn (length (s :: data)) (buf ++ map Py.Z2float (s :: data))
                    = skipn (length data)
                        ((tl buf ++ [Py.Z2float s]) ++ map Py.Z2float data)).
    { destruct buf as [|b0 buf']; [congruence|]. cbn [length map tl app skipn].
      now rewrite <- app_assoc. }
    rewrite Hskip.
    destruct (Fft2.HOP cfg <=? new + 1).
    + destruct (refresh2_ok _ Hb1 Hn) as [snap ->]. cbn [bind].
      destruct (IH _ 0 Hb1 Hn) as [new' [snaps ->]]. cbn [bind].
      now eexists _, _.
    + apply IH; assumption.
Qed.

Lemma consume_app d1 : forall d2 buf new,
  Fft2.consume cfg buf new (d1 ++ d2)
  = ('(b1, n1, s1) <- Fft2.consume cfg buf new d1 ;;
     '(b2, n2, s2) <- Fft2.consume cfg b1 n1 d2 ;;
     Ok (b2, n2, s1 ++ s2))%result.
Proof.
  induction d1 as [|s d1 IH]; intros d2 buf new.
  - cbn [app Fft2.consume bind].
    destruct (Fft2.consume cfg buf new d2) as [[[b2 n2] s2]|e]; reflexivity.
  - cbn [app Fft2.consume].
    destruct (Window.push buf (Py.Z2float s)) as [buf1|e]; [|reflexivity].
    cbn [bind].
    destruct (Fft2.HOP cfg <=? new + 1).
    + destruct (Fft2.refresh cfg buf1) as [snap|e]; [|reflexivity].
      cbn [bind]. rewrite IH.
      destruct (Fft2.consume cfg buf1 0 d1) as [[[b1 n1] s1]|e]; [|reflexivity].
      cbn [bind].
      destruct (Fft2.consume cfg b1 n1 d2) as [[[b2 n2] s2]|e]; reflexivity.
    + apply IH.
Qed.

Lemma tail_bytes_app_even a : forall b,
  Nat.even (length a) = true -> Ref.tail_bytes (a ++ b) = Ref.tail_bytes b.
Proof.
  induction a as [| a0 | a0 a1 l IH] using list_pair_ind; intros b He.
  - reflexivity.
  - discriminate.
  - cbn [length Nat.even] in He. rewrite <- (IH b He).
    unfold Ref.tail_bytes. cbn [app length].
    rewrite half_SS. reflexivity.
Qed.

Lemma split_groups (a : list byte) :
  a = firstn (length a / 2 * 2) a ++ Ref.tail_bytes a.
Proof. unfold Ref.tail_bytes. now rewrite firstn_skipn. Qed.

Lemma words_carry a b :
  Ref.words (a ++ b) = Ref.words a ++ Ref.words (Ref.tail_bytes a ++ b).
Proof.
  rewrite (split_groups a) at 1. rewrite <- app_assoc.
  rewrite words_app by (rewrite length_firstn_groups; apply even_double).
  now rewrite words_firstn_groups.
Qed.

Lemma tail_bytes_carry a b :
  Ref.tail_bytes (a ++ b) = Ref.tail_bytes (Ref.tail_bytes a ++ b).
Proof.
  rewrite (split_groups a) at 1. rewrite <- app_assoc.
  now rewrite tail_bytes_app_even
    by (rewrite length_firstn_groups; apply even_double).
Qed.

Lemma step_at_once st chunk :
  length (Fft2.pending st) <= 1 ->
  Fft2.step cfg st chunk = Ref.read_at_once cfg st chunk.
Proof.
  intros Hp. unfold Fft2.step, Ref.read_at_once.
  rewrite frame_spec by assumption. reflexivity.
Qed.

Lemma read_at_once_pending st bytes st' data snaps :
  Ref.read_at_once cfg st bytes = Ok (st', data, snaps) ->
  length (Fft2.pending st') <= 1.
Proof.
  unfold Ref.read_at_once.
  destruct (Fft2.consume _ _ _ _) as [[[b n] s]|e]; [|discriminate].
  cbn [bind]. intros [= <- _ _]. apply tail_bytes_short.
Qed.

Lemma run_at_once chunks : forall st,
  length (Fft2.pending st) <= 1 ->
  Fft2.run cfg st chunks = Ref.read_at_once cfg st (concat chunks).
Proof.
  induction chunks as [|c chunks IH]; intros st Hp.
  - unfold Ref.read_at_once. cbn [Fft2.run concat].
    rewrite app_nil_r, words_short, tail_bytes_short_id by assumption.
    cbn [Fft2.consume bind]. now destruct st.
  - cbn [Fft2.run concat]. rewrite step_at_once by assumption.
    set (acc1 := Fft2.pending st ++ c).
    assert (Hw : Ref.read_at_once cfg st (c ++ concat chunks)
                 = ('(b1, n1, s1) <-
                      Fft2.consume cfg (Fft2.buf st) (Fft2.new st) (Ref.words acc1) ;;
                    '(b2, n2, s2) <-
                      Fft2.consume cfg b1 n1
                        (Ref.words (Ref.tail_bytes acc1 ++ concat chunks)) ;;
                    Ok ({| Fft2.buf := b2;
                           Fft2.pending :=
                             Ref.tail_bytes (Ref.tail_bytes acc1 ++ concat chunks);
                           Fft2.new := n2 |},
                        Ref.words acc1
                        ++ Ref.words (Ref.tail_bytes acc1 ++ concat chunks),
                        s1 ++ s2))%result).
    { unfold Ref.read_at_once. rewrite app_assoc. fold acc1.
      rewrite (words_carry acc1), (tail_bytes_carry acc1), consume_app.
      destruct (Fft2.consume cfg (Fft2.buf st) (Fft2.new st) (Ref.words acc1))
        as [[[b1 n1] s1]|e]; [|reflexivity].
      cbn [bind].
      destruct (Fft2.consume cfg b1 n1 _) as [[[b2 n2] s2]|e]; reflexivity. }
    rewrite Hw. unfold Ref.read_at_once at 1. fold acc1.
    destruct (Fft2.consume cfg (Fft2.buf st) (Fft2.new st) (Ref.words acc1))
      as [[[b1 n1] s1]|e]; [|reflexivity].
    cbn [bind].
    rewrite IH by (cbn [Fft2.pending]; apply tail_bytes_short).
    unfold Ref.read_at_once. cbn [Fft2.buf Fft2.new Fft2.pending].
    destruct (Fft2.consume cfg b1 n1 _) as [[[b2 n2] s2]|e]; reflexivity.
Qed.

Lemma read_at_once_ok st bytes :
  length (Fft2.buf st) = Fft2.N cfg -> 0 < Fft2.N cfg ->
  exists st' snaps,
    Ref.read_at_once cfg st bytes
    = Ok (st', Ref.words (Fft2.pending st ++ bytes), snaps)
    /\ Fft2.buf st'
       = skipn (length (Ref.words (Fft2.pending st ++ bytes)))
           (Fft2.buf st
            ++ map Py.Z2float (Ref.words (Fft2.pending st ++ bytes)))
    /\ Fft2.pending st' = Ref.tail_bytes (Fft2.pending st ++ bytes).
Proof.
  intros Hb Hn. unfold Ref.read_at_once.
  destruct (consume_ok (Ref.words (Fft2.pending st ++ bytes)) _ (Fft2.new st) Hb Hn)
    as [new' [snaps ->]].
  cbn [bind]. eexists _, _. repeat split.
Qed.

End BinaryLoop.

(** C10. From a state with at most one byte carried over and a window
    of [N > 0] cells, reading a byte stream in any sequence of chunks
    decodes the same samples, reaches the same state and draws the same
    snapshots as reading it in one piece; the samples are the 2-byte
    little-endian groups of the carried byte followed by the stream; and
    at most one byte is carried over at the start of every iteration. *)
Theorem chunking_invariance (L : Np.Library) (cfg : Fft2.config)
    (st : Fft2.state) (chunks : list (list byte)) :
  length (Fft2.pending st) <= 1 ->
  length (Fft2.buf st) = Fft2.N cfg -> 0 < Fft2.N cfg ->
  (exists st' snaps,
      Fft2.run cfg st chunks
      = Ok (st', Ref.words (Fft2.pending st ++ concat chunks), snaps)
      /\ Fft2.run cfg st [concat chunks]
         = Ok (st', Ref.words (Fft2.pending st ++ concat chunks), snaps))
  /\ (forall before after, chunks = before ++ after ->
        exists st1 data1 snaps1,
          Fft2.run cfg st before = Ok (st1, data1, snaps1)
          /\ length (Fft2.pending st1) <= 1).
Proof.
  intros Hp Hb Hn. split.
  - destruct (read_at_once_ok cfg st (concat chunks) Hb Hn)
      as [st' [snaps [Hrun _]]].
    exists st', snaps. rewrite !run_at_once by assumption.
    cbn [concat]. rewrite app_nil_r. now split.
  - intros before after _.
    destruct (read_at_once_ok cfg st (concat before) Hb Hn)
      as [st1 [snaps1 [Hrun [_ Hpend]]]].
    exists st1, (Ref.words (Fft2.pending st ++ concat before)), snaps1.
    rewrite run_at_once by assumption.
    split; [exact Hrun|]. rewrite Hpend. apply tail_bytes_short.
Qed.

Lemma chunking_invariance_witness :
  exists st' snaps,
    Fft2.run (L := Np.flat) {| Fft2.FS := 1000; Fft2.N := 2; Fft2.HOP := 2 |}
      (Fft2.init {| Fft2.FS := 1000; Fft2.N := 2; Fft2.HOP := 2 |})
      [["001"%byte]; ["002"%byte; "003"%byte]; []; ["004"%byte; "005"%byte]]
    = Ok (st', [513; 1027]%Z, snaps)
    /\ Fft2.pending st' = ["005"%byte].
Proof.
  destruct (@chunking_invariance Np.flat
              {| Fft2.FS := 1000; Fft2.N := 2; Fft2.HOP := 2 |}
              (Fft2.init {| Fft2.FS := 1000; Fft2.N := 2; Fft2.HOP := 2 |})
              [["001"%byte]; ["002"%byte; "003"%byte]; []; ["004"%byte; "005"%byte]]
              (Nat.le_0_l 1) eq_refl (Nat.lt_0_succ 1))
    as [[st' [snaps [Hrun _]]] _].
  exists st', snaps. split; [exact Hrun|].
  vm_compute in Hrun. now injection Hrun as <- _.
Defined.

(** ** The refresh of both programs *)

Section Refresh.
Context {L : Np.Library}.

Lemma getitem_last_ok (A : Type) (a : list A) :
  a <> [] -> exists v, Py.getitem_last a = Ok v.
Proof.
  intros Ha. unfold Py.getitem_last.
  destruct (rev a) as [|v r] eqn:E.
  - apply (f_equal (@rev A)) in E. rewrite rev_involutive in E. now subst.
  - now exists v.
Qed.

(** The rate is the configured [float] or an estimated [float64]. *)
Lemma estimate_fs_kind cfg t :
  Fft.estimate_fs cfg t = Py.PyFloat (Fft.FS_FALLBACK cfg)
  \/ exists f, Fft.estimate_fs cfg t = Py.Float64 f.
Proof.
  unfold Fft.estimate_fs. destruct (10 <? _); [right | left]; eauto.
Qed.

Lemma rate_and_axis_ok cfg st :
  Fft.t st <> [] ->
  exists fs axis,
    Fft.rate_and_axis cfg st = Ok (fs, axis)
    /\ (fs = Py.PyFloat (Fft.FS_FALLBACK cfg) \/ exists f, fs = Py.Float64 f).
Proof.
  intros Ht. unfold Fft.rate_and_axis.
  destruct (Fft.have_timestamps st).
  - destruct (getitem_last_ok Ht) as [v ->]. cbn [bind].
    eexists _, _. split; [reflexivity | apply estimate_fs_kind].
  - eexists _, _. split; [reflexivity | now left].
Qed.

(** A [float64] rate always gives a frequency axis. *)
Lemma freq_axis_float64 cfg f :
  exists freqs, Fft.freq_axis cfg (Py.Float64 f) = Ok freqs.
Proof. unfold Fft.freq_axis. cbn. now eexists. Qed.

Lemma magnitude_scaled N X :
  0 < N -> length X = N / 2 + 1 ->
  exists mag,
    Spectrum.magnitude N (Np.hanning N) X = Ok mag
    /\ Ref.scaled_spectrum N X mag.
Proof.
  intros HN HX.
  destruct (@magnitude_spec L N (Np.hanning N) X) as [mag [Hm [Hl [H0 Hk]]]];
    [apply nonempty_length; lia|].
  exists mag. split; [assumption|].
  unfold Ref.scaled_spectrum, Ref.scaled.
  repeat split; try assumption; try congruence.
  intros k Hk'. apply Hk. lia.
Qed.

Lemma refresh_scaled (cfg : Fft.config) (st : Fft.state) :
  length (Fft.x st) = Fft.N cfg -> length (Fft.t st) = Fft.N cfg ->
  0 < Fft.N cfg -> Ref.started cfg ->
  exists X snap,
    Np.rfft (Np.multiply (Fft.x st) (Np.hanning (Fft.N cfg))) = Ok X
    /\ Fft.refresh cfg st = Ok snap
    /\ Ref.scaled_spectrum (Fft.N cfg) X (Fft.mag snap).
Proof.
  intros Hx Ht Hn Hst.
  destruct (@rfft_windowed L (Fft.x st) (Fft.N cfg) Hx Hn) as [X [HX HlX]].
  destruct (magnitude_scaled X Hn HlX) as [mag [Hmag Hs]].
  destruct (@rate_and_axis_ok cfg st) as [fs [axis [Hr Hk]]];
    [apply nonempty_length; lia|].
  assert (Hf : exists freqs, Fft.freq_axis cfg fs = Ok freqs).
  { destruct Hk as [-> | [f ->]]; [exact Hst | apply freq_axis_float64]. }
  destruct Hf as [freqs Hf].
  exists X. eexists. split; [exact HX|].
  unfold Fft.refresh. rewrite Hr. cbn [bind]. rewrite HX. cbn [bind].
  rewrite Hf. cbn [bind].
  rewrite Hmag. cbn [bind]. split; [reflexivity | exact Hs].
Qed.

Lemma refresh2_scaled (cfg : Fft2.config) (buf : list float) :
  length buf = Fft2.N cfg -> 0 < Fft2.N cfg ->
  exists X snap,
    Np.rfft (Np.multiply (Np.subtract_scalar buf (Np.mean buf))
               (Np.hanning (Fft2.N cfg))) = Ok X
    /\ Fft2.refresh cfg buf = Ok snap
    /\ Ref.scaled_spectrum (Fft2.N cfg) X (Fft2.mag snap).
Proof.
  intros Hb Hn.
  destruct (@rfft_windowed L (Np.subtract_scalar buf (Np.mean buf))
              (Fft2.N cfg)) as [X [HX HlX]];
    [now rewrite subtract_scalar_length | assumption |].
  destruct (magnitude_scaled X Hn HlX) as [mag [Hmag Hs]].
  exists X. eexists. split; [exact HX|].
  unfold Fft2.refresh. rewrite HX. cbn [bind].
  rewrite Hmag. cbn [bind]. split; [reflexivity | exact Hs].
Qed.

End Refresh.

(** C2. In both programs a refresh on a window of [N > 0] samples
    succeeds (in [fft.py], with a fallback rate that got the program
    through its start-up), and the magnitudes it draws are those of the
    [N/2 + 1] bins
    [X] of the transform of the Hann-weighted window (after removal of
    the mean in [fft2.py]): bin [k] holds
    [|X[k]| / (N * coherent_gain) * 2.0], the coherent gain being the
    mean of the Hann coefficients, and the DC bin holds that value
    multiplied by [0.5]. *)
Theorem magnitude_scaling (L : Np.Library) :
  (forall (cfg : Fft.config) (st : Fft.state),
      length (Fft.x st) = Fft.N cfg -> length (Fft.t st) = Fft.N cfg ->
      0 < Fft.N cfg -> Ref.started cfg ->
      exists X snap,
        Np.rfft (Np.multiply (Fft.x st) (Np.hanning (Fft.N cfg))) = Ok X
        /\ Fft.refresh cfg st = Ok snap
        /\ Ref.scaled_spectrum (Fft.N cfg) X (Fft.mag snap))
  /\ (forall (cfg : Fft2.config) (buf : list float),
        length buf = Fft2.N cfg -> 0 < Fft2.N cfg ->
        exists X snap,
          Np.rfft (Np.multiply (Np.subtract_scalar buf (Np.mean buf))
                     (Np.hanning (Fft2.N cfg))) = Ok X
          /\ Fft2.refresh cfg buf = Ok snap
          /\ Ref.scaled_spectrum (Fft2.N cfg) X (Fft2.mag snap)).
Proof.
  split; [apply refresh_scaled | apply refresh2_scaled].
Qed.

Lemma magnitude_scaling_witness :
  (exists snap,
      Fft.refresh (L := Np.flat) (Ref.small 1)
        {| Fft.x := [1; 3]%float; Fft.t := [0; 0]%float;
           Fft.have_timestamps := false; Fft.sample_count := 0;
           Fft.new_samples := 0 |} = Ok snap
      /\ Fft.mag snap = [0.5; 3]%float)
  /\ (exists snap,
        Fft2.refresh (L := Np.flat) (Ref.small2 2) [1; 3]%float = Ok snap
        /\ Fft2.mag snap = [0.5; 1]%float).
Proof.
  destruct (magnitude_scaling Np.flat) as [Htext Hbin].
  split.
  - destruct (Htext (Ref.small 1)
                {| Fft.x := [1; 3]%float; Fft.t := [0; 0]%float;
                   Fft.have_timestamps := false; Fft.sample_count := 0;
                   Fft.new_samples := 0 |}
                eq_refl eq_refl (Nat.lt_0_succ 1)
                (ex_intro _ _ eq_refl))
      as [X [snap [_ [Href _]]]].
    exists snap. split; [exact Href|].
    vm_compute in Href.
    exact (f_equal (fun r => match r with
                             | Ok sn => Fft.mag sn
                             | Raise _ => []
                             end) (eq_sym Href)).
  - destruct (Hbin (Ref.small2 2) [1; 3]%float eq_refl (Nat.lt_0_succ 1))
      as [X [snap [_ [Href _]]]].
    exists snap. split; [exact Href|].
    vm_compute in Href.
    exact (f_equal (fun r => match r with
                             | Ok sn => Fft2.mag sn
                             | Raise _ => []
                             end) (eq_sym Href)).
Defined.

(** ** Text lines *)

Section StripBy.
Variable sp : ascii -> bool.
Hypothesis sp_comma : sp ","%char = false.

Lemma sp_not_comma c : sp c = true -> Ascii.eqb c ","%char = false.
Proof.
  destruct (Ascii.eqb_spec c ","%char) as [->|]; [congruence | reflexivity].
Qed.

Lemma contains_lstrip_by s :
  Py.contains "," (Py.lstrip_by sp s) = Py.contains "," s.
Proof.
  induction s as [|c s IH]; [reflexivity|].
  cbn [Py.lstrip_by]. destruct (sp c) eqn:E; [|reflexivity].
  cbn [Py.contains]. now rewrite (sp_not_comma E).
Qed.

Lemma contains_rstrip_by s :
  Py.contains "," (Py.rstrip_by sp s) = Py.contains "," s.
Proof.
  induction s as [|c s IH]; [reflexivity|].
  cbn [Py.rstrip_by Py.contains].
  destruct (Py.rstrip_by sp s) as [|c' r] eqn:Er.
  - cbn [Py.contains] in IH. rewrite <- IH.
    destruct (sp c) eqn:E.
    + now rewrite (sp_not_comma E).
    + reflexivity.
  - cbn [Py.contains]. cbn [Py.contains] in IH. now rewrite IH.
Qed.

Lemma contains_strip_by s :
  Py.contains "," (Py.strip_by sp s) = Py.contains "," s.
Proof.
  unfold Py.strip_by. now rewrite contains_rstrip_by, contains_lstrip_by.
Qed.

Lemma lstrip_clean s : Ref.left_clean sp (Py.lstrip_by sp s).
Proof.
  induction s as [|c s IH]; [exact I|].
  cbn [Py.lstrip_by]. destruct (sp c) eqn:E; [exact IH | exact E].
Qed.

Lemma lstrip_of_clean s : Ref.left_clean sp s -> Py.lstrip_by sp s = s.
Proof.
  destruct s as [|c s]; [reflexivity|]. cbn [Ref.left_clean Py.lstrip_by].
  now intros ->.
Qed.

Lemma rstrip_clean s :
  Ref.left_clean sp s -> Ref.left_clean sp (Py.rstrip_by sp s).
Proof.
  destruct s as [|c s]; [trivial|]. cbn [Ref.left_clean Py.rstrip_by].
  intros E. destruct (Py.rstrip_by sp s); [rewrite E|]; exact E.
Qed.

Lemma rstrip_idempotent s :
  Py.rstrip_by sp (Py.rstrip_by sp s) = Py.rstrip_by sp s.
Proof.
  induction s as [|c s IH]; [reflexivity|].
  cbn [Py.rstrip_by].
  destruct (Py.rstrip_by sp s) as [|c' r] eqn:Er.
  - destruct (sp c) eqn:E; [reflexivity|].
    cbn [Py.rstrip_by]. now rewrite E.
  - cbn [Py.rstrip_by]. cbn [Py.rstrip_by] in IH. now rewrite IH.
Qed.

Lemma strip_by_idempotent s :
  Py.strip_by sp (Py.strip_by sp s) = Py.strip_by sp s.
Proof.
  unfold Py.strip_by.
  rewrite (lstrip_of_clean _ (rstrip_clean _ (lstrip_clean s))).
  apply rstrip_idempotent.
Qed.

End StripBy.

Section Strings.
Context {py : Py.Interpreter}.
Local Open Scope string_scope.

Lemma contains_strip s : Py.contains "," (Py.strip s) = Py.contains "," s.
Proof. now apply contains_strip_by. Qed.

Lemma strip_idempotent s : Py.strip (Py.strip s) = Py.strip s.
Proof. apply strip_by_idempotent. Qed.

Lemma fields_nonempty s : Ref.fields s <> [].
Proof.
  induction s as [|c s IH]; [discriminate|].
  cbn [Ref.fields]. destruct (Ascii.eqb c ","); [discriminate|].
  destruct (Ref.fields s); [congruence | discriminate].
Qed.

Lemma split1_no_comma s :
  Py.contains "," s = false ->
  Py.split1 "," s = [s] /\ Ref.fields s = [s].
Proof.
  induction s as [|c s IH]; [now split|].
  cbn [Py.contains Py.split1 Ref.fields].
  destruct (Ascii.eqb c ","); [discriminate|].
  intros H. destruct (IH H) as [-> ->]. now split.
Qed.

Lemma split1_comma s :
  Py.contains "," s = true ->
  exists a b,
    Py.split1 "," s = [a; b]
    /\ Ref.fields s = a :: Ref.fields b
    /\ Py.contains "," a = false.
Proof.
  induction s as [|c s IH]; [discriminate|].
  cbn [Py.contains Py.split1 Ref.fields].
  destruct (Ascii.eqb c ",") eqn:E.
  - intros _. exists "", s. now repeat split.
  - intros H. destruct (IH H) as [a [b [-> [-> Ha]]]].
    exists (String c a), b. repeat split.
    cbn [Py.contains]. now rewrite E.
Qed.

Lemma fields_comma s :
  Py.contains "," s = true ->
  exists f1 f2 rest, Ref.fields s = f1 :: f2 :: rest.
Proof.
  intros H. destruct (split1_comma _ H) as [a [b [_ [-> _]]]].
  destruct (Ref.fields b) as [|f2 rest] eqn:E.
  - now apply fields_nonempty in E.
  - now exists a, f2, rest.
Qed.

Lemma digit_value_comma : Py.digit_value "," = None.
Proof. reflexivity. Qed.

Lemma int_digits_comma s : forall acc after_digit,
  Py.contains "," s = true -> Py.int_digits acc after_digit s = None.
Proof.
  induction s as [|c s IH]; intros acc f; [discriminate|].
  cbn [Py.contains Py.int_digits].
  destruct (Ascii.eqb_spec c ","%char) as [->|Hc].
  - reflexivity.
  - intros H. destruct (Py.digit_value c); [now apply IH|].
    destruct (Ascii.eqb c "_" && f); [now apply IH | reflexivity].
Qed.

Lemma int_literal_comma s :
  Py.contains "," s = true -> Py.int_literal s = None.
Proof.
  intros H. unfold Py.int_literal.
  destruct s as [|c s]; [discriminate|].
  destruct (Ascii.eqb_spec c "-"%char) as [->|_];
    [now rewrite int_digits_comma|].
  destruct (Ascii.eqb_spec c "+"%char) as [->|_];
    now rewrite int_digits_comma.
Qed.

Lemma int_comma s : Py.contains "," s = true -> Py.int s = Raise ValueError.
Proof.
  intros H. unfold Py.int.
  now rewrite int_literal_comma by (now rewrite contains_strip_by).
Qed.

End Strings.

Section ParseLine.
Context {py : Py.Interpreter}.
Local Open Scope string_scope.

Lemma int_raises s e : Py.int s = Raise e -> e = ValueError.
Proof.
  unfold Py.int. destruct (Py.int_literal _).
  - destruct (_ && _); [now intros [= <-] | discriminate].
  - now intros [= <-].
Qed.

(** A literal of at most 640 digits is below every cap. *)
Lemma int_within_cap s z :
  Py.int_literal (Py.strip_by Py.int_isspace s) = Some z ->
  Py.count_digits (Py.strip_by Py.int_isspace s) <= 640 ->
  Py.int s = Ok z.
Proof.
  intros Hl Hc. unfold Py.int. rewrite Hl.
  destruct (Nat.ltb_spec 0 Py.max_str_digits) as [H0|H0]; [|reflexivity].
  destruct (Nat.ltb_spec Py.max_str_digits
              (Py.count_digits (Py.strip_by Py.int_isspace s)))
    as [H1|H1]; [|reflexivity].
  destruct Py.max_str_digits_range; lia.
Qed.

Lemma int_cases s :
  (exists z, Py.int s = Ok z) \/ Py.int s = Raise ValueError.
Proof.
  destruct (Py.int s) as [z|e] eqn:E; [left; now exists z|].
  right. now rewrite (int_raises _ E).
Qed.

Lemma int_truediv_float_raises a b e :
  Py.int_truediv_float a b = Raise e -> e <> ValueError.
Proof.
  unfold Py.int_truediv_float, Py.float_of_int, Py.float_truediv.
  destruct (is_infinity (Py.Z2float a)); cbn [bind].
  - now intros [= <-].
  - destruct (PrimFloat.eqb b 0); [now intros [= <-] | discriminate].
Qed.

Lemma try_except_other (A : Type) (body handler : result A) e :
  body = Raise e -> e <> ValueError ->
  try_except_ValueError body handler = Raise e.
Proof. intros -> He. destruct e; try reflexivity. congruence. Qed.

(** [parse_line] against the record format: blank and malformed lines
    give [(None, None)], a bare integer gives [(None, a)], and a
    timestamped line gives [(t_ms / 1000.0, a)], raising what the
    division raises. *)
Lemma parse_line_classify line :
  Fft.parse_line line
  = match Ref.classify line with
    | Ref.Blank | Ref.Malformed => Ok (None, None)
    | Ref.Bare a => Ok (None, Some a)
    | Ref.Timestamped t_ms a =>
        (t_s <- Py.int_truediv_float t_ms 1000 ;; Ok (Some t_s, Some a))%result
    end.
Proof.
  unfold Fft.parse_line, Ref.classify.
  set (l := Py.strip line).
  destruct (String.eqb l "") eqn:El; [reflexivity|].
  destruct (Py.contains "," l) eqn:Ec.
  - destruct (split1_comma _ Ec) as [a [b [-> [-> Ha]]]].
    unfold Ref.integer_field.
    destruct (Py.contains "," b) eqn:Eb.
    + destruct (fields_comma _ Eb) as [f1 [f2 [rest ->]]].
      rewrite (int_comma (Py.strip b)) by (now rewrite contains_strip).
      destruct (int_cases (Py.strip a)) as [[t ->]| ->]; reflexivity.
    + destruct (split1_no_comma _ Eb) as [_ ->].
      destruct (int_cases (Py.strip a)) as [[t ->]| ->]; [|reflexivity].
      destruct (int_cases (Py.strip b)) as [[v ->]| ->]; [|reflexivity].
      cbn [bind].
      destruct (Py.int_truediv_float t 1000) as [t_s|e] eqn:Ed;
        [reflexivity|].
      cbn [bind]. apply try_except_other; [reflexivity|].
      eapply int_truediv_float_raises; eassumption.
  - destruct (split1_no_comma _ Ec) as [_ ->]. unfold Ref.integer_field.
    unfold l at 2. rewrite strip_idempotent. fold l.
    destruct (int_cases l) as [[v ->]| ->]; reflexivity.
Qed.

(** The conversion of the timestamp is the only step of [parse_line]
    that can raise. *)
Lemma parse_line_raises line e :
  Fft.parse_line line = Raise e ->
  exists t_ms a,
    Ref.classify line = Ref.Timestamped t_ms a
    /\ Py.int_truediv_float t_ms 1000 = Raise e.
Proof.
  rewrite parse_line_classify.
  destruct (Ref.classify line) as [|a|t_ms a|]; try discriminate.
  destruct (Py.int_truediv_float t_ms 1000) as [t_s|e'] eqn:E; [discriminate|].
  cbn [bind]. intros [= ->]. now exists t_ms, a.
Qed.

Lemma classify_two_fields line a b t_ms v :
  Py.strip line <> "" ->
  Ref.fields (Py.strip line) = [a; b] ->
  Py.int (Py.strip a) = Ok t_ms -> Py.int (Py.strip b) = Ok v ->
  Ref.classify line = Ref.Timestamped t_ms v.
Proof.
  intros Hne Hf Ha Hb. unfold Ref.classify.
  destruct (String.eqb_spec (Py.strip line) ""); [contradiction|].
  rewrite Hf. unfold Ref.integer_field. now rewrite Ha, Hb.
Qed.

End ParseLine.

(** C3. The timestamped line made of [1], 309 zeros, a comma and [5] is
    well formed, with timestamp [10^309] and sample [5], and
    [parse_line] does not return on it: the division by [1000.0] raises
    [OverflowError], which the [except ValueError] clause lets through.
    Its 310 digits are below any cap the interpreter may have. *)
Theorem parse_line_overflow (py : Py.Interpreter) :
  Ref.classify Ref.long_timestamp_line = Ref.Timestamped (10 ^ 309) 5
  /\ Fft.parse_line Ref.long_timestamp_line = Raise OverflowError.
Proof.
  assert (Hc : Ref.classify Ref.long_timestamp_line
               = Ref.Timestamped (10 ^ 309) 5).
  { eapply classify_two_fields.
    - vm_compute. discriminate.
    - vm_compute. reflexivity.
    - apply int_within_cap; [vm_compute; reflexivity|].
      apply Nat.leb_le. vm_compute. reflexivity.
    - apply int_within_cap; [vm_compute; reflexivity|].
      apply Nat.leb_le. vm_compute. reflexivity. }
  split; [exact Hc|].
  rewrite parse_line_classify, Hc. vm_compute. reflexivity.
Qed.

(** ** The sample-rate estimator *)

Section RateFacts.
Local Open Scope float_scope.

Lemma diff_cons2 a b l : Np.diff (a :: b :: l) = (b - a) :: Np.diff (b :: l).
Proof. reflexivity. Qed.

Lemma diff_deltas ts : Np.diff ts = Ref.deltas ts.
Proof.
  unfold Ref.deltas.
  induction ts as [|a [|b l] IH]; try reflexivity.
  rewrite diff_cons2, IH.
  cbn [length Nat.sub]. rewrite Nat.sub_0_r.
  cbn [seq map nth]. f_equal.
  rewrite <- seq_shift, map_map. reflexivity.
Qed.

Lemma diff_length ts : length (Np.diff ts) = (length ts - 1)%nat.
Proof. rewrite diff_deltas. unfold Ref.deltas. now rewrite length_map, length_seq. Qed.

Lemma select_valid a :
  Np.select (Np.logical_and (Np.greater a 0) (Np.less a 1)) a
  = filter Ref.valid_delta a.
Proof.
  induction a as [|d a IH]; [reflexivity|].
  unfold Np.logical_and, Np.greater, Np.less in *.
  cbn [map combine Np.select filter fst snd].
  fold (Ref.valid_delta d). now rewrite IH.
Qed.

Lemma estimate_fs_rate cfg ts :
  Fft.estimate_fs cfg ts = Ref.rate (Fft.FS_FALLBACK cfg) ts.
Proof.
  unfold Fft.estimate_fs, Ref.rate.
  rewrite select_valid, diff_deltas.
  set (valid := filter Ref.valid_delta (Ref.deltas ts)).
  destruct (Nat.ltb_spec 10 (length valid)) as [H|H];
    destruct (Nat.ltb_spec (length valid) 11) as [H'|H']; try reflexivity; lia.
Qed.

Lemma insert_sorted_repeat d n :
  Np.insert_sorted d (repeat d n) = repeat d (S n).
Proof.
  induction n as [|n IH]; [reflexivity|].
  cbn [repeat Np.insert_sorted].
  destruct (d <=? d); [reflexivity|]. now rewrite IH.
Qed.

Lemma sort_repeat d n : Np.sort (repeat d n) = repeat d n.
Proof.
  induction n as [|n IH]; [reflexivity|].
  unfold Np.sort in *. cbn [repeat fold_right].
  rewrite IH. apply insert_sorted_repeat.
Qed.

Lemma nth_repeat_lt (d e : float) n i : (i < n)%nat -> nth i (repeat d n) e = d.
Proof.
  revert i. induction n as [|n IH]; intros [|i] H; simpl; try lia; auto.
  apply IH. lia.
Qed.

Lemma median_repeat d n :
  (0 < n)%nat ->
  Np.median (repeat d n) = if Nat.odd n then d else (d + d) / 2.
Proof.
  intros Hn. unfold Np.median. rewrite sort_repeat, repeat_length.
  destruct (Nat.eqb_spec n 0) as [->|_]; [lia|].
  assert (Hhalf : (n / 2 < n)%nat) by (apply Nat.div_lt; lia).
  destruct (Nat.odd n); rewrite !nth_repeat_lt by lia; reflexivity.
Qed.

Lemma filter_repeat_valid d n :
  Ref.valid_delta d = true -> filter Ref.valid_delta (repeat d n) = repeat d n.
Proof.
  intros Hd. induction n as [|n IH]; [reflexivity|].
  cbn [repeat filter]. now rewrite Hd, IH.
Qed.

End RateFacts.

(** ** IEEE comparisons *)

Section FloatOrder.
Local Open Scope float_scope.

Lemma SFcompare_antisym x y :
  SFcompare y x = option_map CompOpp (SFcompare x y).
Proof.
  destruct x as [sx|sx| |sx mx ex], y as [sy|sy| |sy my ey];
    try destruct sx; try destruct sy; try reflexivity;
    cbn [SFcompare option_map];
    rewrite (Z.compare_antisym ex ey);
    destruct (ex ?= ey)%Z; cbn [CompOpp]; try reflexivity;
    f_equal; rewrite ?CompOpp_involutive;
    now rewrite Pos.compare_cont_antisym.
Qed.

Lemma SFcompare_none x y :
  SFcompare x y = None <-> x = S754_nan \/ y = S754_nan.
Proof.
  split.
  - destruct x as [sx|sx| |sx mx ex], y as [sy|sy| |sy my ey];
      try destruct sx; try destruct sy; cbn [SFcompare];
      try discriminate; auto.
  - intros [-> | ->]; [reflexivity|]. now destruct x.
Qed.

Lemma SFcompare_refl x : x <> S754_nan -> SFcompare x x = Some Eq.
Proof.
  destruct x as [sx|sx| |sx mx ex]; try destruct sx; try reflexivity;
    try congruence; intros _; cbn [SFcompare];
    now rewrite Z.compare_refl, Pos.compare_cont_refl.
Qed.

Lemma is_nan_spec d : is_nan d = true <-> Prim2SF d = S754_nan.
Proof.
  unfold is_nan. rewrite eqb_spec. unfold SFeqb. split.
  - intros H. destruct (Prim2SF d) eqn:E; try reflexivity;
      rewrite SFcompare_refl in H by discriminate; discriminate.
  - now intros ->.
Qed.

(** [x < y] holds exactly when [y <= x] fails and both are numbers. *)
Lemma ltb_leb x y :
  is_nan x = false -> is_nan y = false -> (x <? y) = negb (y <=? x).
Proof.
  intros Hx Hy. rewrite ltb_spec, leb_spec. unfold SFltb, SFleb.
  rewrite (SFcompare_antisym (Prim2SF x) (Prim2SF y)).
  destruct (SFcompare (Prim2SF x) (Prim2SF y)) as [[| |]|] eqn:E;
    try reflexivity.
  apply SFcompare_none in E.
  destruct E as [E|E]; apply is_nan_spec in E; congruence.
Qed.

Lemma ltb_nan_l x y : is_nan x = true -> (x <? y) = false.
Proof.
  intros Hx. apply is_nan_spec in Hx. rewrite ltb_spec. unfold SFltb.
  now rewrite Hx.
Qed.

Lemma ltb_nan_r x y : is_nan y = true -> (x <? y) = false.
Proof.
  intros Hy. apply is_nan_spec in Hy. rewrite ltb_spec. unfold SFltb.
  rewrite Hy. now destruct (Prim2SF x).
Qed.

(** The deltas the estimator keeps are those that are neither
    non-positive nor at least one second; NaN is not kept. *)
Lemma valid_delta_spec d :
  Ref.valid_delta d
  = negb (is_nan d) && negb (d <=? 0) && negb (1 <=? d).
Proof.
  unfold Ref.valid_delta.
  destruct (is_nan d) eqn:En.
  - now rewrite (ltb_nan_r 0 d En).
  - now rewrite (ltb_leb 0 d eq_refl En), (ltb_leb d 1 En eq_refl).
Qed.

End FloatOrder.

(** ** Exact halving in binary64 *)

Section FloatHalving.
Local Open Scope Z_scope.

Lemma fexp64 z : fexp prec emax z = Z.max (z - 53) (-1074).
Proof. reflexivity. Qed.

Lemma round_exact_fits sx mx ex :
  fexp prec emax (Zpos (digits2_pos mx) + ex) <= ex -> ex <= 971 ->
  binary_round_aux prec emax sx (Zpos mx) ex loc_Exact = S754_finite sx mx ex.
Proof.
  intros Hf He. unfold binary_round_aux, shr_fexp, shr.
  cbn [Zdigits2 shr_record_of_loc].
  destruct (fexp prec emax (Zpos (digits2_pos mx) + ex) - ex) as [|p|p] eqn:E;
    try lia;
    cbn [shr_m loc_of_shr_record round_nearest_even Zdigits2 shr_record_of_loc];
    rewrite E; cbn [shr_m];
    replace (ex <=? emax - prec) with true
      by (symmetry; apply Z.leb_le; unfold emax, prec; lia);
    reflexivity.
Qed.

Lemma round_exact_even sx m ex :
  fexp prec emax (Zpos (digits2_pos m~0) + ex) - ex = 1 -> ex + 1 <= 971 ->
  binary_round_aux prec emax sx (Zpos m~0) ex loc_Exact
  = S754_finite sx m (ex + 1).
Proof.
  intros Hf He. unfold binary_round_aux, shr_fexp, shr.
  cbn [Zdigits2 shr_record_of_loc]. rewrite Hf.
  cbn [iter_pos shr_1 orb shr_m loc_of_shr_record round_nearest_even
       Zdigits2 shr_record_of_loc].
  replace (fexp prec emax (Zpos (digits2_pos m) + (ex + 1)) - (ex + 1)) with 0.
  - cbn [shr_m].
    replace (ex + 1 <=? emax - prec) with true
      by (symmetry; apply Z.leb_le; unfold emax, prec; lia).
    reflexivity.
  - cbn [digits2_pos] in Hf. rewrite Pos2Z.inj_succ in Hf.
    replace (Zpos (digits2_pos m) + (ex + 1))
      with (Z.succ (Zpos (digits2_pos m)) + ex) by lia. lia.
Qed.

Lemma div_eucl_exact a b : 0 < b -> Z.div_eucl (a * b) b = (a, 0).
Proof.
  intros Hb.
  pose proof (Z.div_mul a b ltac:(lia)) as Hq.
  pose proof (Z.mod_mul a b ltac:(lia)) as Hr.
  unfold Z.div, Z.modulo in *.
  destruct (Z.div_eucl (a * b) b) as [q r]. simpl in *. congruence.
Qed.

(** Doubling a positive number below the overflow range. *)
Lemma SFadd_self m e :
  bounded prec emax m e = true -> e <= 970 ->
  SF64add (S754_finite false m e) (S754_finite false m e)
  = if fexp prec emax (Zpos (digits2_pos m~0) + e) =? e
    then S754_finite false m~0 e
    else S754_finite false m (e + 1).
Proof.
  intros Hb He. unfold bounded, canonical_mantissa in Hb.
  apply andb_prop in Hb. destruct Hb as [Hc _]. apply Z.eqb_eq in Hc.
  unfold SF64add, SFadd. rewrite Z.min_id.
  unfold shl_align at 1 2. rewrite Z.sub_diag. cbn [fst cond_Zopp].
  change (Zpos m + Zpos m) with (Zpos (m + m)). rewrite Pos.add_diag.
  cbn [binary_normalize]. unfold binary_round.
  assert (Hd : Zpos (digits2_pos m~0) = Zpos (digits2_pos m) + 1)
    by (cbn [digits2_pos]; lia).
  rewrite fexp64 in *.
  destruct (Z.eqb_spec (Z.max (Zpos (digits2_pos m~0) + e - 53) (-1074)) e)
    as [E|E].
  - unfold shl_align. rewrite ?fexp64, E, Z.sub_diag.
    apply round_exact_fits; rewrite ?fexp64; lia.
  - assert (E1 : Z.max (Zpos (digits2_pos m~0) + e - 53) (-1074) - e = 1)
      by lia.
    unfold shl_align. rewrite ?fexp64, E1.
    apply round_exact_even; rewrite ?fexp64; lia.
Qed.

Lemma shiftl_pos p s : 0 <= s -> Z.shiftl (Zpos p) s = Zpos p * 2 ^ s.
Proof. intros. now rewrite Z.shiftl_mul_pow2. Qed.

(** The division core on a divisor [2^52 * 2^(-51)], i.e. two. *)
Lemma SFdiv_core_two my ey s q :
  Z.min (fexp prec emax (Zpos (digits2_pos my) + ey - 2)) (ey + 51) = ey + 51 - s ->
  0 < s -> Zpos my * 2 ^ s = Zpos q * 4503599627370496 ->
  SFdiv_core_binary prec emax (Zpos my) ey 4503599627370496 (-51)
  = (Zpos q, ey + 51 - s, loc_Exact).
Proof.
  intros He' Hs Hq. unfold SFdiv_core_binary.
  change (Zdigits2 4503599627370496) with 53. cbn [Zdigits2].
  replace (Zpos (digits2_pos my) + ey - (53 + -51))
    with (Zpos (digits2_pos my) + ey - 2) by lia.
  replace (ey - -51) with (ey + 51) by lia.
  rewrite He'.
  replace (ey + 51 - (ey + 51 - s)) with s by lia.
  destruct s as [|sp|sp]; try lia.
  rewrite shiftl_pos by lia. rewrite Hq.
  rewrite div_eucl_exact by reflexivity. reflexivity.
Qed.

Lemma SFdiv_by_two my ey s q r :
  Z.min (fexp prec emax (Zpos (digits2_pos my) + ey - 2)) (ey + 51) = ey + 51 - s ->
  0 < s -> Zpos my * 2 ^ s = Zpos q * 4503599627370496 ->
  binary_round_aux prec emax false (Zpos q) (ey + 51 - s) loc_Exact = r ->
  SF64div (S754_finite false my ey) (S754_finite false 4503599627370496 (-51)) = r.
Proof.
  intros He' Hs Hq Hr. unfold SF64div, SFdiv.
  rewrite (@SFdiv_core_two my ey s q He' Hs Hq). exact Hr.
Qed.

Lemma halve_double_SF m e :
  bounded prec emax m e = true -> e <= -52 ->
  SF64div (SF64add (S754_finite false m e) (S754_finite false m e))
    (S754_finite false 4503599627370496 (-51))
  = S754_finite false m e.
Proof.
  intros Hb He. rewrite SFadd_self by (assumption || lia).
  unfold bounded, canonical_mantissa in Hb.
  apply andb_prop in Hb. destruct Hb as [Hc _]. apply Z.eqb_eq in Hc.
  assert (Hd : Zpos (digits2_pos m~0) = Zpos (digits2_pos m) + 1)
    by (cbn [digits2_pos]; lia).
  rewrite fexp64 in *.
  destruct (Z.eqb_spec (Z.max (Zpos (digits2_pos m~0) + e - 53) (-1074)) e)
    as [E|E].
  - (* subnormal: the sum is [(2m, e)] *)
    assert (e = -1074) by lia. subst e.
    apply (@SFdiv_by_two (m~0) (-1074) 51 m).
    + rewrite fexp64. lia.
    + lia.
    + change (2 ^ 51) with 2251799813685248. lia.
    + apply round_exact_fits; rewrite ?fexp64; lia.
  - (* normal: the sum is [(m, e + 1)] *)
    assert (Hdm : Zpos (digits2_pos m) = 53) by lia.
    destruct (Z.eq_dec e (-1074)) as [->|Hne].
    + apply (@SFdiv_by_two m (-1074 + 1) 52 m).
      * rewrite fexp64. lia.
      * lia.
      * reflexivity.
      * apply round_exact_fits; rewrite ?fexp64; lia.
    + apply (@SFdiv_by_two m (e + 1) 53 (m~0)).
      * rewrite fexp64. lia.
      * lia.
      * change (2 ^ 53) with 9007199254740992. lia.
      * replace (S754_finite false m e)
          with (S754_finite false m (e + 1 + 51 - 53 + 1)) by (f_equal; lia).
        apply round_exact_even; rewrite ?fexp64; lia.
Qed.

(** Halving the double of a number between zero and one is exact. *)
Lemma halve_double d :
  (0 <? d)%float = true -> (d <? 1)%float = true ->
  ((d + d) / 2)%float = d.
Proof.
  intros Hpos Hlt. apply Prim2SF_inj.
  rewrite div_spec, add_spec.
  rewrite ltb_spec in Hpos, Hlt. unfold SFltb in *.
  pose proof (Prim2SF_valid d) as Hv.
  change (Prim2SF 0) with (S754_zero false) in Hpos.
  change (Prim2SF 1) with (S754_finite false 4503599627370496 (-52)) in Hlt.
  change (Prim2SF 2) with (S754_finite false 4503599627370496 (-51)).
  destruct (Prim2SF d) as [s|s| |s m e]; try discriminate.
  - destruct s; discriminate.
  - destruct s; [discriminate|].
    apply halve_double_SF; [exact Hv|].
    cbn [SFcompare] in Hlt.
    destruct (Z.compare_spec e (-52)) as [->| |]; try lia; discriminate.
Qed.

End FloatHalving.

(** ** The median of the valid deltas *)

Section MedianOrder.
Local Open Scope float_scope.

(** A valid delta is a positive finite number. *)
Lemma valid_delta_finite d :
  Ref.valid_delta d = true -> exists m e, Prim2SF d = S754_finite false m e.
Proof.
  unfold Ref.valid_delta. intros H. apply andb_prop in H.
  destruct H as [H0 H1]. rewrite ltb_spec in H0, H1. unfold SFltb in *.
  change (Prim2SF 0) with (S754_zero false) in H0.
  change (Prim2SF 1) with (S754_finite false 4503599627370496 (-52)) in H1.
  destruct (Prim2SF d) as [s|s| |s m e]; cbn [SFcompare] in H0, H1;
    try discriminate.
  - destruct s; discriminate.
  - destruct s; [discriminate|]. now exists m, e.
Qed.

(** On positive finite numbers the order is that of the exponents, then
    of the mantissas. *)
Lemma fle_finite a b ma ea mb eb :
  Prim2SF a = S754_finite false ma ea ->
  Prim2SF b = S754_finite false mb eb ->
  Ref.fle a b <-> (ea < eb)%Z \/ (ea = eb /\ (ma <= mb)%positive).
Proof.
  intros Ha Hb. unfold Ref.fle. rewrite leb_spec, Ha, Hb.
  unfold SFleb. cbn [SFcompare].
  destruct (Z.compare_spec ea eb) as [E|E|E].
  - change (Pos.compare_cont Eq ma mb) with (ma ?= mb)%positive.
    destruct (Pos.compare_spec ma mb) as [Em|Em|Em];
      split; intros H; try reflexivity; try discriminate; try lia.
  - split; intros H; [lia | reflexivity].
  - split; intros H; [discriminate | lia].
Qed.

Lemma fle_finite_refl a : Ref.valid_delta a = true -> Ref.fle a a.
Proof.
  intros Ha. destruct (valid_delta_finite a Ha) as [ma [ea Ea]].
  apply (fle_finite a a Ea Ea). right. split; [reflexivity | lia].
Qed.

Lemma fle_total a b :
  Ref.valid_delta a = true -> Ref.valid_delta b = true ->
  (a <=? b) = false -> Ref.fle b a.
Proof.
  intros Ha Hb H.
  destruct (valid_delta_finite a Ha) as [ma [ea Ea]].
  destruct (valid_delta_finite b Hb) as [mb [eb Eb]].
  apply (fle_finite b a Eb Ea).
  assert (Hn : ~ Ref.fle a b) by (unfold Ref.fle; congruence).
  rewrite (fle_finite a b Ea Eb) in Hn. lia.
Qed.

Lemma fle_trans a b c :
  Ref.valid_delta a = true -> Ref.valid_delta b = true ->
  Ref.valid_delta c = true ->
  Ref.fle a b -> Ref.fle b c -> Ref.fle a c.
Proof.
  intros Ha Hb Hc.
  destruct (valid_delta_finite a Ha) as [ma [ea Ea]].
  destruct (valid_delta_finite b Hb) as [mb [eb Eb]].
  destruct (valid_delta_finite c Hc) as [mc [ec Ec]].
  rewrite (fle_finite a b Ea Eb), (fle_finite b c Eb Ec),
    (fle_finite a c Ea Ec). lia.
Qed.

Lemma fle_antisym a b :
  Ref.valid_delta a = true -> Ref.valid_delta b = true ->
  Ref.fle a b -> Ref.fle b a -> a = b.
Proof.
  intros Ha Hb.
  destruct (valid_delta_finite a Ha) as [ma [ea Ea]].
  destruct (valid_delta_finite b Hb) as [mb [eb Eb]].
  rewrite (fle_finite a b Ea Eb), (fle_finite b a Eb Ea).
  intros H1 H2. apply Prim2SF_inj. rewrite Ea, Eb.
  assert (ea = eb) by lia. assert (ma = mb) by lia. now subst.
Qed.

Lemma insert_sorted_perm v a : Permutation (Np.insert_sorted v a) (v :: a).
Proof.
  induction a as [|w a IH]; [reflexivity|]. cbn [Np.insert_sorted].
  destruct (v <=? w); [reflexivity|].
  rewrite IH. apply perm_swap.
Qed.

Lemma sort_perm a : Permutation (Np.sort a) a.
Proof.
  induction a as [|v a IH]; [reflexivity|].
  unfold Np.sort in *. cbn [fold_right].
  rewrite insert_sorted_perm. now apply perm_skip.
Qed.

Lemma insert_sorted_ascending v a :
  Ref.valid_delta v = true ->
  Forall (fun d => Ref.valid_delta d = true) a ->
  StronglySorted Ref.fle a ->
  StronglySorted Ref.fle (Np.insert_sorted v a).
Proof.
  intros Hv Ha Hs. induction Hs as [|w a Hs IH Hw].
  - repeat constructor.
  - inversion Ha as [|? ? Hvw Ha']; subst. cbn [Np.insert_sorted].
    destruct (v <=? w) eqn:E.
    + constructor; [now constructor|].
      constructor; [exact E|].
      rewrite Forall_forall in *. intros x Hx.
      apply (fle_trans Hv Hvw (Ha' x Hx) E (Hw x Hx)).
    + constructor; [now apply IH|].
      apply (Permutation_Forall (Permutation_sym (insert_sorted_perm v a))).
      constructor; [|exact Hw]. now apply fle_total.
Qed.

Lemma sort_ascending a :
  Forall (fun d => Ref.valid_delta d = true) a ->
  StronglySorted Ref.fle (Np.sort a).
Proof.
  induction 1 as [|v a Hv Ha IH]; [constructor|].
  unfold Np.sort in *. cbn [fold_right].
  apply insert_sorted_ascending; [exact Hv | | exact IH].
  exact (Permutation_Forall (Permutation_sym (sort_perm a)) Ha).
Qed.

(** Two ascending arrangements of the same valid deltas are equal. *)
Lemma ascending_unique s : forall s',
  Forall (fun d => Ref.valid_delta d = true) s ->
  Permutation s s' ->
  StronglySorted Ref.fle s -> StronglySorted Ref.fle s' -> s = s'.
Proof.
  induction s as [|a s IH]; intros s' Hv Hp Hs Hs'.
  - apply Permutation_nil in Hp. now subst.
  - destruct s' as [|b s'];
      [apply Permutation_sym, Permutation_nil in Hp; discriminate|].
    inversion Hs as [|? ? Hs1 Ha]; subst.
    inversion Hs' as [|? ? Hs1' Hb]; subst.
    inversion Hv as [|? ? Hva Hv1]; subst.
    assert (Hvb : Ref.valid_delta b = true).
    { apply (Permutation_Forall Hp) in Hv.
      now inversion Hv. }
    assert (Hab : Ref.fle a b).
    { assert (Hin : In b (a :: s))
        by (apply (Permutation_in b (Permutation_sym Hp)); now left).
      destruct Hin as [->|Hin].
      - apply (fle_finite_refl b Hvb).
      - rewrite Forall_forall in Ha. now apply Ha. }
    assert (Hba : Ref.fle b a).
    { assert (Hin : In a (b :: s'))
        by (apply (Permutation_in a Hp); now left).
      destruct Hin as [->|Hin].
      - apply (fle_finite_refl a Hva).
      - rewrite Forall_forall in Hb. now apply Hb. }
    pose proof (fle_antisym Hva Hvb Hab Hba) as E. subst b.
    f_equal. apply IH; try assumption.
    now apply Permutation_cons_inv in Hp.
Qed.

Lemma filter_valid l :
  Forall (fun d => Ref.valid_delta d = true) (filter Ref.valid_delta l).
Proof. apply Forall_forall. intros d Hd. now apply filter_In in Hd. Qed.

(** The model's median is the median. *)
Lemma median_is_median a :
  a <> [] ->
  Forall (fun d => Ref.valid_delta d = true) a ->
  Ref.is_median a (Np.median a).
Proof.
  intros Hne Hv. exists (Np.sort a).
  split; [apply sort_perm|]. split; [now apply sort_ascending|].
  unfold Np.median. rewrite (Permutation_length (sort_perm a)).
  destruct (Nat.eqb_spec (length a) 0) as [E|_]; [|reflexivity].
  destruct a; [congruence | discriminate].
Qed.

Lemma is_median_unique a m m' :
  Forall (fun d => Ref.valid_delta d = true) a ->
  Ref.is_median a m -> Ref.is_median a m' -> m = m'.
Proof.
  intros Hv [s [Hp [Hs ->]]] [s' [Hp' [Hs' ->]]].
  assert (E : s = s').
  { apply ascending_unique; try assumption.
    - exact (Permutation_Forall (Permutation_sym Hp) Hv).
    - now rewrite Hp, Hp'. }
  now subst s'.
Qed.

Lemma ascending_nth s : forall i j,
  StronglySorted Ref.fle s -> i < j < length s ->
  Ref.fle (nth i s nan) (nth j s nan).
Proof.
  induction s as [|a s IH]; intros i j Hs Hij; [cbn in Hij; lia|].
  inversion Hs as [|? ? Hs' Ha]; subst. cbn [length] in Hij.
  destruct j as [|j]; [lia|]. destruct i as [|i]; cbn [nth].
  - rewrite Forall_forall in Ha. apply Ha, nth_In. lia.
  - apply IH; [exact Hs' | lia].
Qed.

(** The median is one of the numbers, or the mean of two of them. *)
Lemma is_median_among a m :
  2 <= length a -> Ref.is_median a m ->
  if Nat.odd (length a) then In m a
  else exists u v, In u a /\ In v a /\ Ref.fle u v /\ m = (u + v) / 2.
Proof.
  intros Hn [s [Hp [Hs ->]]].
  pose proof (Permutation_length Hp) as Hl.
  assert (Hh : length a / 2 < length a) by (apply Nat.div_lt; lia).
  assert (Hh1 : 1 <= length a / 2)
    by (apply Nat.div_le_lower_bound; lia).
  destruct (Nat.odd (length a)).
  - apply (Permutation_in _ Hp), nth_In. lia.
  - exists (nth (length a / 2 - 1) s nan), (nth (length a / 2) s nan).
    split; [apply (Permutation_in _ Hp), nth_In; lia|].
    split; [apply (Permutation_in _ Hp), nth_In; lia|].
    split; [apply ascending_nth; [exact Hs | lia] | reflexivity].
Qed.

End MedianOrder.

(** C4, as stated, at twelve records one millisecond apart: the
    timestamps [float(t_ms) / 1000.0] for 1000 ms to 1011 ms fill a
    window of twelve cells and give eleven valid deltas, the constant
    spacing is [d = 1 / 1000.0] seconds, and the rate the refresh
    reports is above [1 / d]: the deltas of the rounded timestamps
    differ in their last bits, and the inverse of their median is not
    [1000.0]. *)
Lemma millisecond_spacing_not_exact :
  exists st' snap,
    Fft.run (py := Py.cpython) (L := Np.flat) Ref.window12
      (Fft.init Ref.window12) Ref.millisecond_lines = Ok (st', [snap])
    /\ Fft.t st'
       = map (fun i => (Py.Z2float (1000 + Z.of_nat i) / 1000)%float)
           (seq 0 12)
    /\ length (filter Ref.valid_delta (Ref.deltas (Fft.t st'))) = 11
    /\ Fft.estimate_fs Ref.window12 (Fft.t st') = Py.Float64 (Fft.fs snap)
    /\ (1 / (Py.Z2float 1 / 1000) <? Fft.fs snap)%float = true.
Proof.
  vm_compute. eexists _, _. repeat split; reflexivity.
Qed.

(** C4, amended. The estimator takes the consecutive differences of
    the timestamp buffer and keeps those that are neither non-positive
    nor at least one second (a NaN is not kept either).  With fewer than
    11 valid deltas it returns the configured fallback itself.  With 11
    or more it returns the [float64] number [1 / m], where [m] is the
    median of the valid deltas: the middle one of their ascending
    arrangement, or the mean of the two middle ones; the valid deltas
    determine [m], which is one of them when their number is odd and
    the mean of two of them otherwise.  The result is [1 / d] when all
    the deltas of the buffer are the same [float] [d], [0 < d < 1]; the
    deltas of timestamps that were rounded from an evenly spaced
    sequence need not be. *)
Theorem sample_rate_estimate (cfg : Fft.config) :
  (forall ts,
      let valid := filter Ref.valid_delta (Ref.deltas ts) in
      (length valid < 11 ->
       Fft.estimate_fs cfg ts = Py.PyFloat (Fft.FS_FALLBACK cfg))
      /\ (11 <= length valid ->
          exists m,
            Ref.is_median valid m
            /\ Fft.estimate_fs cfg ts = Py.Float64 (1 / m)%float
            /\ (forall m', Ref.is_median valid m' -> m' = m)
            /\ if Nat.odd (length valid) then In m valid
               else exists u v,
                   In u valid /\ In v valid /\ Ref.fle u v
                   /\ m = ((u + v) / 2)%float))
  /\ (forall d,
        Ref.valid_delta d
        = negb (is_nan d) && negb (d <=? 0)%float && negb (1 <=? d)%float)
  /\ (forall ts d,
        Ref.deltas ts = repeat d (length ts - 1) ->
        (0 <? d)%float = true -> (d <? 1)%float = true ->
        11 <= length ts - 1 ->
        Fft.estimate_fs cfg ts = Py.Float64 (1 / d)%float).
Proof.
  split; [|split].
  - intros ts valid. split.
    + intros H. rewrite estimate_fs_rate. unfold Ref.rate. fold valid.
      now apply Nat.ltb_lt in H as ->.
    + intros H. exists (Np.median valid).
      assert (Hv : Forall (fun d => Ref.valid_delta d = true) valid)
        by apply filter_valid.
      assert (Hne : valid <> []) by (apply nonempty_length; lia).
      pose proof (median_is_median Hne Hv) as Hm.
      split; [exact Hm|]. split.
      * rewrite estimate_fs_rate. unfold Ref.rate. fold valid.
        destruct (Nat.ltb_spec (length valid) 11) as [H'|_];
          [lia | reflexivity].
      * split; [intros m' Hm'; exact (is_median_unique Hv Hm' Hm)|].
        apply is_median_among; [lia | exact Hm].
  - apply valid_delta_spec.
  - intros ts d Hd Hpos Hlt Hn.
    rewrite estimate_fs_rate. unfold Ref.rate.
    rewrite Hd, filter_repeat_valid
      by (unfold Ref.valid_delta; now rewrite Hpos, Hlt).
    rewrite repeat_length.
    destruct (Nat.ltb_spec (length ts - 1) 11) as [H|_]; [lia|].
    rewrite median_repeat by lia.
    destruct (Nat.odd (length ts - 1)); [reflexivity|].
    now rewrite halve_double.
Qed.

(** Eleven deltas out of order, six of them [0.5] and five [0.125]: the
    median is [0.5] and the rate [2], where the sixth delta as it
    stands in the buffer is [0.125].  Twelve and thirteen timestamps a
    quarter of a second apart: the rate is [4].  Two valid deltas: the
    fallback. *)
Lemma sample_rate_estimate_witness :
  (exists m,
      Ref.is_median
        (filter Ref.valid_delta
           (Ref.deltas [0; 0.5; 1; 1.5; 2; 2.5; 2.625; 3.125; 3.25; 3.375;
                        3.5; 3.625]%float)) m
      /\ Fft.estimate_fs Fft.defaults
           [0; 0.5; 1; 1.5; 2; 2.5; 2.625; 3.125; 3.25; 3.375; 3.5;
            3.625]%float
         = Py.Float64 (1 / m)%float
      /\ (1 / m)%float = 2%float
      /\ nth 5 (Ref.deltas [0; 0.5; 1; 1.5; 2; 2.5; 2.625; 3.125; 3.25;
                            3.375; 3.5; 3.625]%float) 0%float
         = 0.125%float)
  /\ Fft.estimate_fs Fft.defaults
       (map (fun i => Py.Z2float (Z.of_nat i) / 4)%float (seq 0 12))
     = Py.Float64 4
  /\ Fft.estimate_fs Fft.defaults
       (map (fun i => Py.Z2float (Z.of_nat i) / 4)%float (seq 0 13))
     = Py.Float64 4
  /\ Fft.estimate_fs Fft.defaults [0; 0.25; 0.5; 0.5; 2]%float
     = Py.PyFloat 1000.
Proof.
  destruct (sample_rate_estimate Fft.defaults) as [Hgen [_ Hconst]].
  split; [|split; [|split]].
  - destruct (Hgen [0; 0.5; 1; 1.5; 2; 2.5; 2.625; 3.125; 3.25; 3.375;
                    3.5; 3.625]%float) as [_ Hmany].
    destruct Hmany as [m [Hm [He _]]]; [vm_compute; lia|].
    exists m. split; [exact Hm|]. split; [exact He|].
    split; [|vm_compute; reflexivity].
    assert (E : Fft.estimate_fs Fft.defaults
                  [0; 0.5; 1; 1.5; 2; 2.5; 2.625; 3.125; 3.25; 3.375; 3.5;
                   3.625]%float = Py.Float64 2)
      by (vm_compute; reflexivity).
    rewrite He in E. exact (f_equal Py.value E).
  - apply (Hconst _ 0.25%float);
      [reflexivity | reflexivity | reflexivity | vm_compute; lia].
  - apply (Hconst _ 0.25%float);
      [reflexivity | reflexivity | reflexivity | vm_compute; lia].
  - destruct (Hgen [0; 0.25; 0.5; 0.5; 2]%float) as [Hfew _].
    apply Hfew. vm_compute. lia.
Defined.

(** ** The loop of fft.py *)

Section TextLoop.
Context {py : Py.Interpreter} {L : Np.Library}.
Variable cfg : Fft.config.

Lemma accept_well_formed st s :
  Ref.well_formed cfg st -> Ref.well_formed cfg (Ref.accept cfg st s).
Proof.
  intros [Hx [Ht [Hn Hst]]]. unfold Ref.well_formed, Ref.accept. cbn.
  assert (Hl : forall (l : list float) v,
             length l = Fft.N cfg -> length (tl l ++ [v]) = Fft.N cfg).
  { intros l v Hlen. destruct l; simpl in *; [lia|].
    rewrite length_app. simpl. lia. }
  split; [auto|]. split; [destruct (fst s); auto|]. now split.
Qed.

Lemma refresh_ok st :
  Ref.well_formed cfg st -> exists snap, Fft.refresh cfg st = Ok snap.
Proof.
  intros [Hx [Ht [Hn Hst]]].
  destruct (@refresh_scaled L cfg st Hx Ht Hn Hst) as [X [snap [_ [H _]]]].
  now exists snap.
Qed.

(** A line without a sample leaves every variable as it is. *)
Lemma step_reject st raw :
  Ref.decode cfg raw = Ok None -> Fft.step cfg st raw = Ok (st, None).
Proof.
  unfold Ref.decode, Fft.step.
  destruct (Fft.parse_line raw) as [[t_s [adc|]]|e]; cbn [bind].
  - destruct (Fft.adc_to_volts cfg adc); discriminate.
  - reflexivity.
  - discriminate.
Qed.

(** A line with a sample pushes it and counts it; the snapshot, when one
    is drawn, is the refresh of the new state. *)
Lemma step_accept st raw s :
  Ref.well_formed cfg st ->
  Ref.decode cfg raw = Ok (Some s) ->
  exists out,
    Fft.step cfg st raw = Ok (Ref.accept cfg st s, out)
    /\ (forall snap, out = Some snap ->
          Fft.refresh cfg (Ref.accept cfg st s) = Ok snap).
Proof.
  intros Hwf Hd.
  pose proof (accept_well_formed s Hwf) as Hwf'.
  destruct Hwf as [Hx [Ht [Hn _]]].
  assert (Hxn : Fft.x st <> []) by (apply nonempty_length; lia).
  assert (Htn : Fft.t st <> []) by (apply nonempty_length; lia).
  revert Hd Hwf'. unfold Ref.decode, Fft.step, Ref.accept.
  destruct (Fft.parse_line raw) as [[t_s [adc|]]|e]; cbn [bind];
    try discriminate.
  destruct (Fft.adc_to_volts cfg adc) as [v|e]; cbn [bind]; try discriminate.
  intros [= <-]. cbn [fst snd].
  fold (Window.push (Fft.x st) v). rewrite (push_nonempty v Hxn). cbn [bind].
  destruct t_s as [ts|].
  - fold (Window.push (Fft.t st) ts). rewrite (push_nonempty ts Htn).
    cbn [bind Fft.x Fft.t Fft.have_timestamps Fft.sample_count Fft.new_samples].
    destruct (Fft.HOP cfg <=? Fft.new_samples st + 1); intros Hwf'.
    + destruct (refresh_ok Hwf') as [snap Hs]. rewrite Hs. cbn [bind].
      exists (Some snap). split; [reflexivity|]. now intros ? [= <-].
    + exists None. split; [reflexivity | discriminate].
  - cbn [bind Fft.x Fft.t Fft.have_timestamps Fft.sample_count Fft.new_samples].
    destruct (Fft.HOP cfg <=? Fft.new_samples st + 1); intros Hwf'.
    + destruct (refresh_ok Hwf') as [snap Hs]. rewrite Hs. cbn [bind].
      exists (Some snap). split; [reflexivity|]. now intros ? [= <-].
    + exists None. split; [reflexivity | discriminate].
Qed.

(** When the lines decode, the loop runs through them and ends in the
    state reached by accepting their samples in order. *)
Lemma run_samples lines : forall st ss,
  Ref.well_formed cfg st ->
  Ref.samples cfg lines = Ok ss ->
  exists snaps,
    Fft.run cfg st lines = Ok (fold_left (Ref.accept cfg) ss st, snaps).
Proof.
  induction lines as [|raw lines IH]; intros st ss Hwf Hs.
  - injection Hs as <-. now exists [].
  - cbn [Ref.samples] in Hs. cbn [Fft.run].
    destruct (Ref.decode cfg raw) as [[s|]|e] eqn:Ed; cbn [bind] in Hs;
      try discriminate;
      destruct (Ref.samples cfg lines) as [rest|e] eqn:Er; cbn [bind] in Hs;
      try discriminate; injection Hs as <-.
    + destruct (step_accept raw Hwf Ed) as [out [-> _]]. cbn [bind].
      destruct (IH _ rest (accept_well_formed s Hwf) eq_refl) as [snaps ->].
      cbn [bind fold_left]. now eexists.
    + rewrite (step_reject st raw Ed). cbn [bind].
      destruct (IH _ rest Hwf eq_refl) as [snaps ->].
      cbn [bind]. now eexists.
Qed.

Lemma skipn_shift (A : Type) (x l : list A) v n :
  x <> [] -> skipn (S n) (x ++ v :: l) = skipn n ((tl x ++ [v]) ++ l).
Proof.
  destruct x as [|a x]; [congruence|]. intros _. simpl.
  now rewrite <- app_assoc.
Qed.

Lemma tl_snoc_nonempty (A : Type) (x : list A) v : tl x ++ [v] <> [].
Proof. destruct (tl x); discriminate. Qed.

Lemma accept_all_x ss : forall st,
  Fft.x st <> [] ->
  Fft.x (fold_left (Ref.accept cfg) ss st)
  = skipn (length ss) (Fft.x st ++ map snd ss).
Proof.
  induction ss as [|s ss IH]; intros st Hx.
  - simpl. now rewrite app_nil_r.
  - cbn [fold_left length map]. rewrite IH by apply tl_snoc_nonempty.
    cbn [Ref.accept Fft.x]. now rewrite skipn_shift.
Qed.

Lemma accept_all_t ss : forall st,
  Fft.t st <> [] ->
  Fft.t (fold_left (Ref.accept cfg) ss st)
  = skipn (length (Ref.stamps ss)) (Fft.t st ++ Ref.stamps ss).
Proof.
  induction ss as [|[[ts|] v] ss IH]; intros st Ht.
  - simpl. now rewrite app_nil_r.
  - cbn [fold_left Ref.stamps length]. rewrite IH by apply tl_snoc_nonempty.
    cbn [Ref.accept Fft.t fst]. now rewrite skipn_shift.
  - cbn [fold_left Ref.stamps]. now rewrite IH.
Qed.

Lemma accept_all_flag ss : forall st,
  Fft.have_timestamps st = true ->
  Fft.have_timestamps (fold_left (Ref.accept cfg) ss st) = true.
Proof.
  induction ss as [|s ss IH]; intros st H; [exact H|].
  cbn [fold_left]. apply IH. cbn. now destruct (fst s).
Qed.

Lemma accept_all_well_formed ss : forall st,
  Ref.well_formed cfg st ->
  Ref.well_formed cfg (fold_left (Ref.accept cfg) ss st).
Proof.
  induction ss as [|s ss IH]; intros st H; [exact H|].
  cbn [fold_left]. apply IH. now apply accept_well_formed.
Qed.

End TextLoop.

(** The small configuration starts well formed. *)
Lemma small_well_formed hop :
  Ref.well_formed (Ref.small hop) (Fft.init (Ref.small hop)).
Proof.
  split; [reflexivity|]. split; [reflexivity|]. split; [apply Nat.lt_0_succ|].
  eexists. vm_compute. reflexivity.
Qed.

Section TextLoopInversion.
Context {py : Py.Interpreter} {L : Np.Library}.
Variable cfg : Fft.config.

Lemma push_inv (A : Type) (x x' : list A) v :
  Window.push x v = Ok x' -> x' = tl x ++ [v].
Proof.
  destruct x as [|a x]; [discriminate|]. rewrite push_cons. now intros [= <-].
Qed.

(** What a successful iteration has done. *)
Lemma step_inv st raw st' out :
  Fft.step cfg st raw = Ok (st', out) ->
  (Ref.decode cfg raw = Ok None /\ st' = st /\ out = None)
  \/ (exists s,
        Ref.decode cfg raw = Ok (Some s)
        /\ st' = Ref.accept cfg st s
        /\ (forall snap, out = Some snap -> Fft.refresh cfg st' = Ok snap)).
Proof.
  unfold Fft.step, Ref.decode.
  destruct (Fft.parse_line raw) as [[t_s [adc|]]|e]; cbn [bind];
    [| intros [= <- <-]; now left | discriminate].
  destruct (Fft.adc_to_volts cfg adc) as [v|e]; cbn [bind]; [|discriminate].
  fold (Window.push (Fft.x st) v).
  destruct (Window.push (Fft.x st) v) as [x2|e] eqn:Ex; cbn [bind];
    [|discriminate].
  apply push_inv in Ex. subst x2.
  intros H. right. exists (t_s, v). split; [reflexivity|].
  unfold Ref.accept. cbn [fst snd].
  destruct t_s as [ts|].
  - fold (Window.push (Fft.t st) ts) in H.
    destruct (Window.push (Fft.t st) ts) as [t2|e] eqn:Et; cbn [bind] in H;
      [|discriminate].
    apply push_inv in Et. subst t2.
    cbn [Fft.x Fft.t Fft.have_timestamps Fft.sample_count Fft.new_samples] in H.
    destruct (Fft.HOP cfg <=? Fft.new_samples st + 1).
    + destruct (Fft.refresh cfg _) as [snap|e] eqn:Er; cbn [bind] in H;
        [|discriminate].
      injection H as <- <-. split; [reflexivity|]. now intros ? [= <-].
    + injection H as <- <-. split; [reflexivity | discriminate].
  - cbn [bind Fft.x Fft.t Fft.have_timestamps Fft.sample_count
           Fft.new_samples] in H.
    destruct (Fft.HOP cfg <=? Fft.new_samples st + 1).
    + destruct (Fft.refresh cfg _) as [snap|e] eqn:Er; cbn [bind] in H;
        [|discriminate].
      injection H as <- <-. split; [reflexivity|]. now intros ? [= <-].
    + injection H as <- <-. split; [reflexivity | discriminate].
Qed.

Lemma step_flag st raw st' out :
  Fft.step cfg st raw = Ok (st', out) ->
  Fft.have_timestamps st = true -> Fft.have_timestamps st' = true.
Proof.
  intros H Hf. destruct (step_inv _ _ H) as [[_ [-> _]]|[s [_ [-> _]]]].
  - exact Hf.
  - cbn. now destruct (fst s).
Qed.

Lemma run_flag lines : forall st st' snaps,
  Fft.run cfg st lines = Ok (st', snaps) ->
  Fft.have_timestamps st = true -> Fft.have_timestamps st' = true.
Proof.
  induction lines as [|raw lines IH]; intros st st' snaps H Hf.
  - now injection H as <- _.
  - cbn [Fft.run] in H.
    destruct (Fft.step cfg st raw) as [[st1 out]|e] eqn:Es; cbn [bind] in H;
      [|discriminate].
    destruct (Fft.run cfg st1 lines) as [[st2 outs]|e] eqn:Er; cbn [bind] in H;
      [|discriminate].
    injection H as <- _.
    eapply IH; [eassumption|]. eapply step_flag; eassumption.
Qed.

(** A timestamped line that the loop gets through sets the flag. *)
Lemma step_timestamped st raw st' out t_ms a :
  Ref.classify raw = Ref.Timestamped t_ms a ->
  Fft.step cfg st raw = Ok (st', out) ->
  Fft.have_timestamps st' = true.
Proof.
  intros Hc H. destruct (step_inv _ _ H) as [[Hd _]|[s [Hd [-> _]]]];
    revert Hd; unfold Ref.decode; rewrite parse_line_classify, Hc;
    destruct (Py.int_truediv_float t_ms 1000) as [t_s|e]; cbn [bind];
    try discriminate;
    destruct (Fft.adc_to_volts cfg a) as [v|e]; cbn [bind];
    try discriminate.
  now intros [= <-].
Qed.

(** With the flag set, a refresh takes the rate and the time axis from
    the timestamp buffer. *)
Lemma refresh_uses_timestamps st snap :
  Fft.have_timestamps st = true ->
  Fft.refresh cfg st = Ok snap ->
  Fft.fs snap = Py.value (Fft.estimate_fs cfg (Fft.t st))
  /\ exists t_last,
       Py.getitem_last (Fft.t st) = Ok t_last
       /\ Fft.time_axis snap = Np.subtract_scalar (Fft.t st) t_last.
Proof.
  intros Hf. unfold Fft.refresh, Fft.rate_and_axis. rewrite Hf.
  destruct (Py.getitem_last (Fft.t st)) as [t_last|e]; cbn [bind];
    [|discriminate].
  destruct (Np.rfft _) as [X|e]; cbn [bind]; [|discriminate].
  destruct (Fft.freq_axis _ _) as [fr|e]; cbn [bind]; [|discriminate].
  destruct (Spectrum.magnitude _ _ X) as [m|e]; cbn [bind]; [|discriminate].
  intros [= <-]. cbn. split; [reflexivity|]. now exists t_last.
Qed.

End TextLoopInversion.

(** C9. The iteration that decodes a line with a timestamp sets
    [have_timestamps] before its own analysis cycle, so a refresh drawn
    in that very iteration already takes its rate and its time axis from
    the timestamp buffer.  The flag then stays set over any further
    lines, bare or not, and every later refresh does the same: the
    fallback branch is not entered again. *)
Theorem have_timestamps_latches (py : Py.Interpreter) (L : Np.Library)
    (cfg : Fft.config)
    (st : Fft.state) (raw : string) (st1 : Fft.state)
    (out : option Fft.snapshot) :
  (exists t_ms a, Ref.classify raw = Ref.Timestamped t_ms a) ->
  Fft.step cfg st raw = Ok (st1, out) ->
  Fft.have_timestamps st1 = true
  /\ (forall snap,
        out = Some snap ->
        Fft.fs snap = Py.value (Fft.estimate_fs cfg (Fft.t st1))
        /\ exists t_last,
             Py.getitem_last (Fft.t st1) = Ok t_last
             /\ Fft.time_axis snap = Np.subtract_scalar (Fft.t st1) t_last)
  /\ (forall lines st2 snaps,
        Fft.run cfg st1 lines = Ok (st2, snaps) ->
        Fft.have_timestamps st2 = true
        /\ (forall line st3 snap,
              Fft.step cfg st2 line = Ok (st3, Some snap) ->
              Fft.have_timestamps st3 = true
              /\ Fft.fs snap = Py.value (Fft.estimate_fs cfg (Fft.t st3))
              /\ exists t_last,
                   Py.getitem_last (Fft.t st3) = Ok t_last
                   /\ Fft.time_axis snap
                      = Np.subtract_scalar (Fft.t st3) t_last)).
Proof.
  intros [t_ms [a Hc]] Hstep.
  assert (H1 : Fft.have_timestamps st1 = true)
    by (eapply step_timestamped; eassumption).
  split; [exact H1|]. split.
  - intros snap ->. apply refresh_uses_timestamps; [exact H1|].
    destruct (step_inv _ _ _ Hstep) as [[_ [_ Hout]]|[s [_ [_ Hsnap]]]];
      [discriminate | now apply Hsnap].
  - intros lines st2 snaps Hrun.
    assert (H2 : Fft.have_timestamps st2 = true)
      by (eapply run_flag; eassumption).
    split; [exact H2|].
    intros line st3 snap Hs.
    assert (H3 : Fft.have_timestamps st3 = true)
      by (eapply step_flag; eassumption).
    split; [exact H3|].
    apply refresh_uses_timestamps; [exact H3|].
    destruct (step_inv _ _ _ Hs) as [[_ [_ Hout]]|[s [_ [_ Hsnap]]]];
      [discriminate | now apply Hsnap].
Qed.

(** With a refresh after every sample and a window of two cells: the
    line ["1000,1"] is drawn on the axis [t - t[-1] = [-1; 0]] in its own
    iteration, and after two bare lines a third bare line is still drawn
    on that axis, which starts below the fallback axis
    [arange(N) / FS_FALLBACK]. *)
Lemma have_timestamps_latches_witness :
  exists st1 snap0 st2 snaps st3 snap,
    Fft.step (py := Py.cpython) (L := Np.flat) (Ref.small 1)
      (Fft.init (Ref.small 1)) "1000,1" = Ok (st1, Some snap0)
    /\ Fft.have_timestamps st1 = true
    /\ Fft.time_axis snap0 = [-1; 0]%float
    /\ Fft.run (py := Py.cpython) (L := Np.flat) (Ref.small 1) st1
         ["2"; "3"]%string = Ok (st2, snaps)
    /\ Fft.have_timestamps st2 = true
    /\ Fft.step (py := Py.cpython) (L := Np.flat) (Ref.small 1) st2 "4"
       = Ok (st3, Some snap)
    /\ Fft.have_timestamps st3 = true
    /\ Fft.time_axis snap = [-1; 0]%float
    /\ (nth 0 (Fft.time_axis snap) 0
        <? nth 0 (map (fun i => i / Fft.FS_FALLBACK (Ref.small 1))
                    (Np.arange (Fft.N (Ref.small 1)))) 0)%float = true.
Proof.
  assert (Hs : exists st1 snap0 st2 snaps st3 snap,
             Fft.step (py := Py.cpython) (L := Np.flat) (Ref.small 1)
               (Fft.init (Ref.small 1)) "1000,1" = Ok (st1, Some snap0)
             /\ Fft.t st1 = [0; 1]%float
             /\ Fft.run (py := Py.cpython) (L := Np.flat) (Ref.small 1) st1
                  ["2"; "3"]%string = Ok (st2, snaps)
             /\ Fft.step (py := Py.cpython) (L := Np.flat) (Ref.small 1)
                  st2 "4" = Ok (st3, Some snap)
             /\ Fft.t st3 = [0; 1]%float)
    by (vm_compute; eexists _, _, _, _, _, _; repeat split; reflexivity).
  destruct Hs as [st1 [snap0 [st2 [snaps [st3 [snap [Hs1 [Ht1 [Hr [Hs3 Ht3]]]]]]]]]].
  destruct (@have_timestamps_latches Py.cpython Np.flat (Ref.small 1)
              (Fft.init (Ref.small 1)) "1000,1" st1 (Some snap0))
    as [H1 [H0 Hlater]];
    [exists 1000%Z, 1%Z; vm_compute; reflexivity | exact Hs1 |].
  destruct (H0 snap0 eq_refl) as [_ [tl0 [Hl0 Ha0]]].
  destruct (Hlater _ _ _ Hr) as [H2 Hnext].
  destruct (Hnext _ _ _ Hs3) as [H3 [_ [tl3 [Hl3 Ha3]]]].
  exists st1, snap0, st2, snaps, st3, snap.
  split; [exact Hs1|]. split; [exact H1|]. rewrite Ht1 in Hl0, Ha0.
  rewrite Ht3 in Hl3, Ha3.
  assert (E0 : tl0 = 1%float).
  { symmetry.
    exact (f_equal (fun r => match r with
                             | Ok v => v
                             | Raise _ => 0%float
                             end) Hl0). }
  assert (E3 : tl3 = 1%float).
  { symmetry.
    exact (f_equal (fun r => match r with
                             | Ok v => v
                             | Raise _ => 0%float
                             end) Hl3). }
  rewrite E0 in Ha0. rewrite E3 in Ha3.
  split; [exact Ha0|]. split; [exact Hr|]. split; [exact H2|].
  split; [exact Hs3|]. split; [exact H3|]. split; [exact Ha3|].
  rewrite Ha3. vm_compute. reflexivity.
Defined.

(** ** Alignment of the two buffers of fft.py *)

Section Alignment.
Context {py : Py.Interpreter}.

Lemma window_nth (A : Type) (x vs : list A) j :
  j < length x -> j < length vs ->
  nth_error (skipn (length vs) (x ++ vs)) (length x - 1 - j)
  = nth_error vs (length vs - S j).
Proof.
  intros Hx Hv. rewrite nth_error_skipn, nth_error_app2 by lia.
  f_equal. lia.
Qed.

Lemma stamps_all ss :
  Forall (fun s : option float * float => fst s <> None) ss ->
  length (Ref.stamps ss) = length ss
  /\ forall i ts v,
       nth_error ss i = Some (Some ts, v) ->
       nth_error (Ref.stamps ss) i = Some ts.
Proof.
  induction 1 as [|[[ts0|] v0] ss Hs Hall [IHl IHn]].
  - split; [reflexivity|]. intros [|i]; discriminate.
  - cbn [Ref.stamps length]. split; [now rewrite IHl|].
    intros [|i] ts v; cbn [nth_error].
    + now intros [= -> _].
    + apply IHn.
  - now cbn in Hs.
Qed.

Lemma accept_all_aligned (cfg : Fft.config) st ss :
  Ref.well_formed cfg st ->
  Forall (fun s : option float * float => fst s <> None) ss ->
  Ref.aligned ss (Fft.x (fold_left (Ref.accept cfg) ss st))
    (Fft.t (fold_left (Ref.accept cfg) ss st)).
Proof.
  intros Hwf Hall.
  destruct (accept_all_well_formed ss Hwf) as [Hx' [Ht' _]].
  destruct Hwf as [Hx [Ht [Hn _]]].
  destruct (stamps_all Hall) as [Hlen Hnth].
  split; [congruence|].
  intros j ts v Hj Hrev. rewrite Hx' in *.
  rewrite nth_error_rev in Hrev.
  destruct (Nat.ltb_spec j (length ss)) as [Hjs|]; [|discriminate].
  rewrite accept_all_x, accept_all_t by (apply nonempty_length; lia).
  split.
  - rewrite <- Hx, <- (length_map snd ss).
    rewrite window_nth by (rewrite ?length_map; lia).
    now rewrite length_map, nth_error_map, Hrev.
  - intros s ->. rewrite <- Ht.
    rewrite window_nth by lia.
    rewrite Hlen. now apply (Hnth _ s v).
Qed.

End Alignment.

(** C6, as stated, fails: after the timestamped line ["1000,1"] and the
    bare line ["2"] the sample of the first line sits in cell 0 of the
    value buffer, while cell 0 of the timestamp buffer still holds the
    initial zero and its timestamp sits in cell 1. *)
Lemma bare_line_breaks_alignment :
  exists ss st' snaps,
    Ref.samples (py := Py.cpython) (Ref.small 128) ["1000,1"; "2"]%string = Ok ss
    /\ Fft.run (py := Py.cpython) (L := Np.flat) (Ref.small 128) (Fft.init (Ref.small 128))
         ["1000,1"; "2"]%string = Ok (st', snaps)
    /\ ~ Ref.aligned ss (Fft.x st') (Fft.t st').
Proof.
  eexists _, _, _. split; [vm_compute; reflexivity|].
  split; [vm_compute; reflexivity|].
  intros [_ H]. cbn [Fft.x Fft.t] in H.
  specialize (H 1 (Some 1%float) _ (Nat.lt_succ_diag_r 1) eq_refl).
  destruct H as [_ H]. specialize (H _ eq_refl).
  apply (f_equal (fun o => match o with
                           | Some f => PrimFloat.eqb f 1
                           | None => false
                           end)) in H.
  vm_compute in H. discriminate.
Qed.

(** C6, amended. From buffers of the configured length [N > 0], after
    a start-up that went through, over lines that decode, the loop runs
    through and both buffers keep the
    length [N] for every interleaving of timestamped and bare lines; when
    every sample came with a timestamp, cell [i] of the timestamp buffer
    holds the timestamp of the sample in cell [i] of the value buffer. *)
Theorem timestamp_alignment (py : Py.Interpreter) (L : Np.Library)
    (cfg : Fft.config)
    (st : Fft.state) (lines : list string)
    (ss : list (option float * float)) :
  Ref.well_formed cfg st ->
  Ref.samples cfg lines = Ok ss ->
  exists st' snaps,
    Fft.run cfg st lines = Ok (st', snaps)
    /\ length (Fft.x st') = Fft.N cfg
    /\ length (Fft.t st') = Fft.N cfg
    /\ (Forall (fun s => fst s <> None) ss ->
        Ref.aligned ss (Fft.x st') (Fft.t st')).
Proof.
  intros Hwf Hs.
  destruct (run_samples lines Hwf Hs) as [snaps Hrun].
  exists (fold_left (Ref.accept cfg) ss st), snaps.
  destruct (accept_all_well_formed ss Hwf) as [Hx [Ht _]].
  split; [exact Hrun|]. split; [exact Hx|]. split; [exact Ht|].
  intros Hall. now apply accept_all_aligned.
Qed.

Lemma timestamp_alignment_witness :
  exists st' snaps,
    Fft.run (py := Py.cpython) (L := Np.flat) (Ref.small 128) (Fft.init (Ref.small 128))
      ["1000,1"; "1001,2"; "x"; "1002,3"]%string = Ok (st', snaps)
    /\ length (Fft.x st') = 2.
Proof.
  assert (Hs : exists ss,
             Ref.samples (py := Py.cpython) (Ref.small 128)
               ["1000,1"; "1001,2"; "x"; "1002,3"]%string = Ok ss)
    by (vm_compute; eexists; reflexivity).
  destruct Hs as [ss Hs].
  pose proof (small_well_formed 128) as Hwf.
  destruct (@timestamp_alignment Py.cpython Np.flat _ _ _ _ Hwf Hs)
    as [st' [snaps [Hrun [Hx _]]]].
  exists st', snaps. split; [exact Hrun | exact Hx].
Defined.

(** ** The window in the two programs *)

(** C1. A window of [N > 0] cells keeps its length under any number of
    pushes; after the pushes of [ss] it holds the last [N] elements of
    the old contents (the zeros of the start) followed by [ss], oldest
    first, which are the last [N] elements of [ss] once [ss] has at
    least [N] of them; and one push drops exactly the oldest cell and
    appends the new value.  In [fft.py], from a well-formed state and
    over lines that decode, the value buffer after a run is the window
    after the pushes of the decoded voltages; in [fft2.py] the buffer is
    the window after the pushes of the decoded 16-bit values. *)
Theorem window_holds_last_N (py : Py.Interpreter) (L : Np.Library) :
  (forall (A : Type) (N : nat) (x ss : list A),
      length x = N -> 0 < N ->
      (exists x',
          Window.push_all x ss = Ok x'
          /\ length x' = N
          /\ x' = skipn (length ss) (x ++ ss)
          /\ (N <= length ss -> x' = skipn (length ss - N) ss))
      /\ (forall v, Window.push x v = Ok (tl x ++ [v])))
  /\ (forall (cfg : Fft.config) (st : Fft.state) (lines : list string)
             (ss : list (option float * float)),
        Ref.well_formed cfg st ->
        Ref.samples cfg lines = Ok ss ->
        exists st' snaps,
          Fft.run cfg st lines = Ok (st', snaps)
          /\ Window.push_all (Fft.x st) (map snd ss) = Ok (Fft.x st'))
  /\ (forall (cfg : Fft2.config) (st : Fft2.state) (chunks : list (list byte)),
        length (Fft2.pending st) <= 1 ->
        length (Fft2.buf st) = Fft2.N cfg -> 0 < Fft2.N cfg ->
        exists st' data snaps,
          Fft2.run cfg st chunks = Ok (st', data, snaps)
          /\ Window.push_all (Fft2.buf st) (map Py.Z2float data)
             = Ok (Fft2.buf st')).
Proof.
  split; [apply push_all_window|]. split.
  - intros cfg st lines ss Hwf Hs.
    destruct (run_samples lines Hwf Hs) as [snaps Hrun].
    exists (fold_left (Ref.accept cfg) ss st), snaps.
    split; [exact Hrun|].
    destruct Hwf as [Hx [_ [Hn _]]].
    assert (Hxn : Fft.x st <> []) by (apply nonempty_length; lia).
    rewrite push_all_nonempty, accept_all_x by assumption.
    now rewrite length_map.
  - intros cfg st chunks Hp Hb Hn.
    destruct (read_at_once_ok cfg st (concat chunks) Hb Hn)
      as [st' [snaps [Hrun [Hbuf _]]]].
    exists st', (Ref.words (Fft2.pending st ++ concat chunks)), snaps.
    rewrite run_at_once by assumption. split; [exact Hrun|].
    rewrite push_all_nonempty by (apply nonempty_length; lia).
    now rewrite Hbuf, length_map.
Qed.

Lemma window_holds_last_N_witness :
  Window.push_all (Np.zeros 3) [1; 2; 3; 4; 5]%float = Ok [3; 4; 5]%float
  /\ (exists st' snaps,
        Fft.run (py := Py.cpython) (L := Np.flat) (Ref.small 128)
          (Fft.init (Ref.small 128))
          ["1000,1"; "2"; "x"; "1002,3"]%string = Ok (st', snaps))
  /\ (exists st' data snaps,
        Fft2.run (L := Np.flat) (Ref.small2 256) (Fft2.init (Ref.small2 256))
          [["001"%byte]; ["002"%byte; "003"%byte]] = Ok (st', data, snaps)).
Proof.
  destruct (window_holds_last_N Py.cpython Np.flat) as [Hgen [Htext Hbin]].
  split; [|split].
  - destruct (Hgen float 3 (Np.zeros 3) [1; 2; 3; 4; 5]%float
                eq_refl (Nat.lt_0_succ 2)) as [[x' [Hrun [_ [_ Hlast]]]] _].
    rewrite Hrun. f_equal. apply Hlast. simpl. lia.
  - assert (Hs : exists ss,
               Ref.samples (py := Py.cpython) (Ref.small 128)
                 ["1000,1"; "2"; "x"; "1002,3"]%string = Ok ss)
      by (vm_compute; eexists; reflexivity).
    destruct Hs as [ss Hs].
    pose proof (small_well_formed 128) as Hwf.
    destruct (Htext _ _ _ _ Hwf Hs) as [st' [snaps [Hrun _]]].
    now exists st', snaps.
  - destruct (Hbin (Ref.small2 256) (Fft2.init (Ref.small2 256))
                [["001"%byte]; ["002"%byte; "003"%byte]]
                (Nat.le_0_l 1) eq_refl (Nat.lt_0_succ 1))
      as [st' [data [snaps [Hrun _]]]].
    now exists st', data, snaps.
Defined.

(** ** Units that carry no sample *)

Lemma classify_rejected (py : Py.Interpreter) cfg raw :
  Ref.classify raw = Ref.Blank \/ Ref.classify raw = Ref.Malformed ->
  Ref.decode cfg raw = Ok None.
Proof.
  unfold Ref.decode. rewrite parse_line_classify.
  now intros [-> | ->].
Qed.

Lemma step_short_read (L : Np.Library) cfg st chunk :
  length (Fft2.pending st ++ chunk) < 2 ->
  Fft2.step cfg st chunk
  = Ok ({| Fft2.buf := Fft2.buf st;
           Fft2.pending := Fft2.pending st ++ chunk;
           Fft2.new := Fft2.new st |}, [], []).
Proof.
  intros Hl. unfold Fft2.step, Fft2.frame.
  destruct chunk as [|c chunk].
  - rewrite app_nil_r. reflexivity.
  - replace (length (Fft2.pending st ++ c :: chunk) / 2) with 0
      by (symmetry; apply Nat.div_small; exact Hl).
    reflexivity.
Qed.

(** C7, as stated, fails in [fft2.py]: a read of one byte is an
    incomplete 2-byte group and gives no sample, but the state after it
    differs from the state before, since the byte is kept. *)
Lemma lone_byte_is_kept :
  exists st',
    Fft2.step (L := Np.flat) (Ref.small2 256) (Fft2.init (Ref.small2 256))
      ["007"%byte] = Ok (st', [], [])
    /\ st' <> Fft2.init (Ref.small2 256).
Proof.
  eexists. split; [vm_compute; reflexivity|].
  intros H. apply (f_equal Fft2.pending) in H. discriminate.
Qed.

(** C7, amended. A text line that is blank or malformed (a field that
    is not an integer, or other than one or two fields) gives no sample:
    the iteration ends normally with every variable unchanged.  A binary
    read that leaves fewer than two accumulated bytes gives no sample
    and ends normally with the window and the hop counter unchanged; its
    bytes are kept in [pending] for the next read. *)
Theorem malformed_units_skipped (py : Py.Interpreter) (L : Np.Library) :
  (forall (cfg : Fft.config) (st : Fft.state) (raw : string),
      Ref.classify raw = Ref.Blank \/ Ref.classify raw = Ref.Malformed ->
      Fft.parse_line raw = Ok (None, None)
      /\ Fft.step cfg st raw = Ok (st, None))
  /\ (forall (cfg : Fft2.config) (st : Fft2.state) (chunk : list byte),
        length (Fft2.pending st ++ chunk) < 2 ->
        Fft2.step cfg st chunk
        = Ok ({| Fft2.buf := Fft2.buf st;
                 Fft2.pending := Fft2.pending st ++ chunk;
                 Fft2.new := Fft2.new st |}, [], [])).
Proof.
  split.
  - intros cfg st raw Hc. split.
    + rewrite parse_line_classify. now destruct Hc as [-> | ->].
    + apply step_reject. now apply classify_rejected.
  - intros cfg st chunk. apply step_short_read.
Qed.

Lemma malformed_units_skipped_witness :
  Fft.step (py := Py.cpython) (L := Np.flat) (Ref.small 1) (Fft.init (Ref.small 1)) "12,x7"
  = Ok (Fft.init (Ref.small 1), None)
  /\ Fft.step (py := Py.cpython) (L := Np.flat) (Ref.small 1) (Fft.init (Ref.small 1)) "1,2,3"
     = Ok (Fft.init (Ref.small 1), None)
  /\ Fft2.step (L := Np.flat) (Ref.small2 1) (Fft2.init (Ref.small2 1))
       ["007"%byte]
     = Ok ({| Fft2.buf := Fft2.buf (Fft2.init (Ref.small2 1));
              Fft2.pending := ["007"%byte];
              Fft2.new := 0 |}, [], []).
Proof.
  destruct (malformed_units_skipped Py.cpython Np.flat) as [Htext Hbin].
  split; [|split].
  - apply Htext. right. vm_compute. reflexivity.
  - apply Htext. right. vm_compute. reflexivity.
  - apply (Hbin (Ref.small2 1) (Fft2.init (Ref.small2 1)) ["007"%byte]).
    simpl. lia.
Defined.

(** * Further properties *)

(** ** The update scheduler of fft2.py (lines 57-60) *)

Section Scheduler2.
Context {L : Np.Library}.
Variable cfg : Fft2.config.

Lemma window_after_0 (A : Type) (x vs : list A) : Ref.window_after x vs 0 = x.
Proof. unfold Ref.window_after. simpl. apply app_nil_r. Qed.

Lemma window_after_S (A : Type) (x vs : list A) v p :
  x <> [] ->
  Ref.window_after x (v :: vs) (S p) = Ref.window_after (tl x ++ [v]) vs p.
Proof.
  intros Hx. unfold Ref.window_after. cbn [firstn].
  now rewrite skipn_shift.
Qed.

Lemma refresh2_time_data buf snap :
  Fft2.refresh cfg buf = Ok snap -> Fft2.time_data snap = buf.
Proof.
  unfold Fft2.refresh.
  destruct (Np.rfft _) as [X|e]; cbn [bind]; [|discriminate].
  destruct (Spectrum.magnitude _ _ X) as [m|e]; cbn [bind]; [|discriminate].
  now intros [= <-].
Qed.

Lemma hop_div_reset k n : 0 < n -> (n + k) / n = S (k / n).
Proof.
  intros Hn. replace (n + k) with (k + 1 * n) by lia.
  rewrite Nat.div_add by lia. lia.
Qed.

Lemma hop_mod_reset k n : 0 < n -> (n + k) mod n = k mod n.
Proof.
  intros Hn. replace (n + k) with (k + 1 * n) by lia.
  now rewrite Nat.Div0.mod_add.
Qed.

(** The counter, the number of refreshes and the windows they draw. *)
Lemma consume_schedule data : forall buf new,
  length buf = Fft2.N cfg -> 0 < Fft2.N cfg ->
  0 < Fft2.HOP cfg -> new < Fft2.HOP cfg ->
  exists buf' snaps,
    Fft2.consume cfg buf new data
    = Ok (buf', (new + length data) mod Fft2.HOP cfg, snaps)
    /\ length snaps = (new + length data) / Fft2.HOP cfg
    /\ map Fft2.time_data snaps
       = map (fun i => Ref.window_after buf (map Py.Z2float data)
                         (Fft2.HOP cfg - new + i * Fft2.HOP cfg))
           (seq 0 ((new + length data) / Fft2.HOP cfg)).
Proof.
  induction data as [|s data IH]; intros buf new Hb Hn Hh Hnew.
  - exists buf, []. cbn [Fft2.consume length]. rewrite Nat.add_0_r.
    rewrite Nat.mod_small, Nat.div_small by assumption. now repeat split.
  - cbn [Fft2.consume].
    assert (Hx : buf <> []) by (apply nonempty_length; lia).
    rewrite (push_nonempty (Py.Z2float s) Hx). cbn [bind].
    assert (Hb1 : length (tl buf ++ [Py.Z2float s]) = Fft2.N cfg).
    { rewrite <- Hb. apply (@push_length _ buf _ (Py.Z2float s)).
      now apply push_nonempty. }
    cbn [length map].
    destruct (Nat.leb_spec (Fft2.HOP cfg) (new + 1)) as [Hge|Hlt].
    + assert (Hnew1 : new + 1 = Fft2.HOP cfg) by lia.
      destruct (refresh2_ok cfg _ Hb1 Hn) as [snap Hsnap].
      rewrite Hsnap. cbn [bind].
      destruct (IH _ 0 Hb1 Hn Hh Hh) as [buf' [snaps [Hc [Hl Hw]]]].
      rewrite Hc. cbn [bind].
      replace (new + S (length data)) with (Fft2.HOP cfg + length data) by lia.
      rewrite hop_div_reset, hop_mod_reset by assumption.
      exists buf', (snap :: snaps). cbn [Nat.add] in *.
      split; [reflexivity|]. split; [cbn [length]; now rewrite Hl|].
      cbn [map seq]. f_equal.
      * rewrite (refresh2_time_data _ Hsnap).
        replace (Fft2.HOP cfg - new + 0 * Fft2.HOP cfg) with 1 by lia.
        rewrite window_after_S by assumption. now rewrite window_after_0.
      * rewrite Hw, <- seq_shift, map_map. apply map_ext. intros i.
        replace (Fft2.HOP cfg - new + S i * Fft2.HOP cfg)
          with (S (Fft2.HOP cfg - 0 + i * Fft2.HOP cfg)) by lia.
        now rewrite window_after_S.
    + destruct (IH _ (new + 1) Hb1 Hn Hh Hlt) as [buf' [snaps [Hc [Hl Hw]]]].
      replace (new + S (length data)) with (new + 1 + length data) by lia.
      exists buf', snaps. split; [exact Hc|]. split; [exact Hl|].
      rewrite Hw. apply map_ext. intros i.
      replace (Fft2.HOP cfg - new + i * Fft2.HOP cfg)
        with (S (Fft2.HOP cfg - (new + 1) + i * Fft2.HOP cfg)) by lia.
      now rewrite window_after_S.
Qed.

(** With a hop of zero or one every sample is followed by a refresh. *)
Lemma consume_every_sample data : forall buf new,
  length buf = Fft2.N cfg -> 0 < Fft2.N cfg -> Fft2.HOP cfg <= 1 ->
  exists buf' snaps,
    Fft2.consume cfg buf new data
    = Ok (buf', match data with [] => new | _ :: _ => 0 end, snaps)
    /\ length snaps = length data.
Proof.
  induction data as [|s data IH]; intros buf new Hb Hn Hh.
  - now exists buf, [].
  - cbn [Fft2.consume].
    assert (Hx : buf <> []) by (apply nonempty_length; lia).
    rewrite (push_nonempty (Py.Z2float s) Hx). cbn [bind].
    assert (Hb1 : length (tl buf ++ [Py.Z2float s]) = Fft2.N cfg).
    { rewrite <- Hb. apply (@push_length _ buf _ (Py.Z2float s)).
      now apply push_nonempty. }
    destruct (Nat.leb_spec (Fft2.HOP cfg) (new + 1)) as [_|Hlt]; [|lia].
    destruct (refresh2_ok cfg _ Hb1 Hn) as [snap ->]. cbn [bind].
    destruct (IH _ 0 Hb1 Hn Hh) as [buf' [snaps [Hc Hl]]].
    rewrite Hc. cbn [bind]. exists buf', (snap :: snaps).
    split; [now destruct data|]. cbn [length]. now rewrite Hl.
Qed.

End Scheduler2.

(** X1. In [fft2.py], from a window of [N > 0] cells, at most one byte
    carried over and a counter below [HOP], reading any chunks decodes
    the 16-bit groups of the stream and refreshes the plot once every
    [HOP] samples: the number of refreshes is [(new + k) / HOP] for [k]
    decoded samples, and the counter ends at [(new + k) mod HOP], below
    [HOP] again.  With [HOP <= 1] every sample is followed by a
    refresh. *)
Theorem hop_cadence2 (L : Np.Library) (cfg : Fft2.config) (st : Fft2.state)
    (chunks : list (list byte)) :
  length (Fft2.pending st) <= 1 ->
  length (Fft2.buf st) = Fft2.N cfg -> 0 < Fft2.N cfg ->
  let data := Ref.words (Fft2.pending st ++ concat chunks) in
  (Fft2.new st < Fft2.HOP cfg ->
   exists st' snaps,
     Fft2.run cfg st chunks = Ok (st', data, snaps)
     /\ length snaps = (Fft2.new st + length data) / Fft2.HOP cfg
     /\ Fft2.new st' = (Fft2.new st + length data) mod Fft2.HOP cfg
     /\ Fft2.new st' < Fft2.HOP cfg)
  /\ (Fft2.HOP cfg <= 1 ->
      exists st' snaps,
        Fft2.run cfg st chunks = Ok (st', data, snaps)
        /\ length snaps = length data).
Proof.
  intros Hp Hb Hn data. split.
  - intros Hnew. assert (Hh : 0 < Fft2.HOP cfg) by lia.
    destruct (consume_schedule cfg data (Fft2.buf st) Hb Hn Hh Hnew)
      as [buf' [snaps [Hc [Hl _]]]].
    rewrite run_at_once by assumption. unfold Ref.read_at_once.
    fold data. rewrite Hc. cbn [bind]. eexists _, snaps.
    split; [reflexivity|]. split; [exact Hl|]. cbn [Fft2.new].
    split; [reflexivity|]. now apply Nat.mod_upper_bound, Nat.neq_0_lt_0.
  - intros Hh.
    destruct (consume_every_sample cfg data (Fft2.buf st) (Fft2.new st) Hb Hn Hh)
      as [buf' [snaps [Hc Hl]]].
    rewrite run_at_once by assumption. unfold Ref.read_at_once.
    fold data. rewrite Hc. cbn [bind]. eexists _, snaps.
    split; [reflexivity | exact Hl].
Qed.

Lemma hop_cadence2_witness :
  exists st' snaps,
    Fft2.run (L := Np.flat) (Ref.small2 2) (Fft2.init (Ref.small2 2))
      [["001"%byte; "000"%byte; "002"%byte];
       ["000"%byte; "003"%byte; "000"%byte; "004"%byte; "000"%byte;
        "005"%byte; "000"%byte]]
    = Ok (st', [1; 2; 3; 4; 5]%Z, snaps)
    /\ length snaps = 2 /\ Fft2.new st' = 1.
Proof.
  destruct (@hop_cadence2 Np.flat (Ref.small2 2) (Fft2.init (Ref.small2 2))
              [["001"%byte; "000"%byte; "002"%byte];
               ["000"%byte; "003"%byte; "000"%byte; "004"%byte; "000"%byte;
                "005"%byte; "000"%byte]]
              (Nat.le_0_l 1) eq_refl (Nat.lt_0_succ 1))
    as [H _].
  destruct (H (Nat.lt_0_succ 1)) as [st' [snaps [Hrun [Hl [Hnew _]]]]].
  exists st', snaps. split; [exact Hrun|]. split; [exact Hl | exact Hnew].
Defined.

(** X2. In [fft2.py] the curve drawn by the [i]-th refresh of a read is
    the window as it stands after [HOP - new + i * HOP] samples of that
    read: successive refreshes show windows [HOP] samples apart, each
    holding the samples received so far and nothing received later. *)
Theorem refresh_windows2 (L : Np.Library) (cfg : Fft2.config)
    (buf : list float) (new : nat) (data : list Z) :
  length buf = Fft2.N cfg -> 0 < Fft2.N cfg -> new < Fft2.HOP cfg ->
  exists buf' new' snaps,
    Fft2.consume cfg buf new data = Ok (buf', new', snaps)
    /\ forall i, i < length snaps ->
         option_map Fft2.time_data (nth_error snaps i)
         = Some (Ref.window_after buf (map Py.Z2float data)
                   (Fft2.HOP cfg - new + i * Fft2.HOP cfg))
         /\ Fft2.HOP cfg - new + i * Fft2.HOP cfg <= length data.
Proof.
  intros Hb Hn Hnew. assert (Hh : 0 < Fft2.HOP cfg) by lia.
  destruct (consume_schedule cfg data buf Hb Hn Hh Hnew)
    as [buf' [snaps [Hc [Hl Hw]]]].
  exists buf', ((new + length data) mod Fft2.HOP cfg), snaps.
  split; [exact Hc|].
  intros i Hi. split.
  - rewrite <- nth_error_map, Hw, nth_error_map.
    rewrite nth_error_seq.
    destruct (Nat.ltb_spec i ((new + length data) / Fft2.HOP cfg)) as [_|Hge];
      [reflexivity | lia].
  - rewrite Hl in Hi.
    assert (S i * Fft2.HOP cfg <= new + length data).
    { pose proof (Nat.Div0.mul_div_le (new + length data) (Fft2.HOP cfg))
        as Hm.
      nia. }
    cbn [Nat.mul] in H. lia.
Qed.

Lemma refresh_windows2_witness :
  exists buf' new' snaps,
    Fft2.consume (L := Np.flat) (Ref.small2 2) [0; 0]%float 1 [7; 8; 9; 10]%Z
    = Ok (buf', new', snaps)
    /\ map Fft2.time_data snaps = [[0; 7]; [8; 9]]%float.
Proof.
  destruct (@refresh_windows2 Np.flat (Ref.small2 2) [0; 0]%float 1
              [7; 8; 9; 10]%Z eq_refl (Nat.lt_0_succ 1) (Nat.lt_succ_diag_r 1))
    as [buf' [new' [snaps [Hc _]]]].
  exists buf', new', snaps. split; [exact Hc|].
  vm_compute in Hc.
  exact (f_equal (fun r => match r with
                           | Ok (_, _, sn) => map Fft2.time_data sn
                           | Raise _ => []
                           end) (eq_sym Hc)).
Defined.

(** ** The update scheduler of fft.py (lines 135-138) *)

Section Scheduler.
Context {py : Py.Interpreter} {L : Np.Library}.
Variable cfg : Fft.config.

Lemma refresh_time_data st snap :
  Fft.refresh cfg st = Ok snap -> Fft.time_data snap = Fft.x st.
Proof.
  unfold Fft.refresh.
  destruct (Fft.rate_and_axis cfg st) as [[fs axis]|e]; cbn [bind];
    [|discriminate].
  destruct (Np.rfft _) as [X|e]; cbn [bind]; [|discriminate].
  destruct (Fft.freq_axis cfg fs) as [fr|e]; cbn [bind]; [|discriminate].
  destruct (Spectrum.magnitude _ _ X) as [m|e]; cbn [bind]; [|discriminate].
  now intros [= <-].
Qed.

(** A line with a sample is followed by a refresh exactly when the
    counter reaches [HOP]. *)
Lemma step_accept_out st raw s :
  Ref.well_formed cfg st ->
  Ref.decode cfg raw = Ok (Some s) ->
  exists out,
    Fft.step cfg st raw = Ok (Ref.accept cfg st s, out)
    /\ if Fft.HOP cfg <=? Fft.new_samples st + 1
       then exists snap,
           out = Some snap /\ Fft.refresh cfg (Ref.accept cfg st s) = Ok snap
       else out = None.
Proof.
  intros Hwf Hd.
  destruct (step_accept raw Hwf Hd) as [out [Hstep Hout]].
  exists out. split; [exact Hstep|].
  pose proof (accept_well_formed s Hwf) as Hwf'.
  destruct Hwf as [Hx [Ht [Hn _]]].
  assert (Hxn : Fft.x st <> []) by (apply nonempty_length; lia).
  assert (Htn : Fft.t st <> []) by (apply nonempty_length; lia).
  revert Hd Hstep Hout. unfold Ref.decode, Fft.step.
  destruct (Fft.parse_line raw) as [[t_s [adc|]]|e]; cbn [bind];
    try discriminate.
  destruct (Fft.adc_to_volts cfg adc) as [v|e]; cbn [bind]; try discriminate.
  intros [= <-].
  fold (Window.push (Fft.x st) v). rewrite (push_nonempty v Hxn). cbn [bind].
  destruct t_s as [ts|].
  - fold (Window.push (Fft.t st) ts). rewrite (push_nonempty ts Htn).
    cbn [bind Fft.x Fft.t Fft.have_timestamps Fft.sample_count Fft.new_samples].
    destruct (Fft.HOP cfg <=? Fft.new_samples st + 1).
    + destruct (Fft.refresh cfg _) as [snap|e]; cbn [bind]; [|discriminate].
      intros [= _ <-] Hout. exists snap. split; [reflexivity|].
      now apply Hout.
    + now intros [= _ <-].
  - cbn [bind Fft.x Fft.t Fft.have_timestamps Fft.sample_count Fft.new_samples].
    destruct (Fft.HOP cfg <=? Fft.new_samples st + 1).
    + destruct (Fft.refresh cfg _) as [snap|e]; cbn [bind]; [|discriminate].
      intros [= _ <-] Hout. exists snap. split; [reflexivity|].
      now apply Hout.
    + now intros [= _ <-].
Qed.

(** The counter, the number of refreshes and the states they draw. *)
Lemma run_schedule lines : forall st ss,
  Ref.well_formed cfg st ->
  Ref.samples cfg lines = Ok ss ->
  0 < Fft.HOP cfg -> Fft.new_samples st < Fft.HOP cfg ->
  exists snaps,
    Fft.run cfg st lines = Ok (fold_left (Ref.accept cfg) ss st, snaps)
    /\ length snaps = (Fft.new_samples st + length ss) / Fft.HOP cfg
    /\ Fft.new_samples (fold_left (Ref.accept cfg) ss st)
       = (Fft.new_samples st + length ss) mod Fft.HOP cfg
    /\ map (@Ok Fft.snapshot) snaps
       = map (fun i =>
                Fft.refresh cfg
                  (fold_left (Ref.accept cfg)
                     (firstn (Fft.HOP cfg - Fft.new_samples st
                              + i * Fft.HOP cfg) ss) st))
           (seq 0 ((Fft.new_samples st + length ss) / Fft.HOP cfg)).
Proof.
  induction lines as [|raw lines IH]; intros st ss Hwf Hs Hh Hnew.
  - injection Hs as <-. exists []. cbn [Fft.run fold_left length].
    rewrite Nat.add_0_r, Nat.mod_small, Nat.div_small by assumption.
    now repeat split.
  - cbn [Ref.samples] in Hs. cbn [Fft.run].
    destruct (Ref.decode cfg raw) as [[s|]|e] eqn:Ed; cbn [bind] in Hs;
      try discriminate;
      destruct (Ref.samples cfg lines) as [rest|e] eqn:Er; cbn [bind] in Hs;
      try discriminate; injection Hs as <-.
    + destruct (step_accept_out raw Hwf Ed) as [out [-> Hout]]. cbn [bind].
      pose proof (accept_well_formed s Hwf) as Hwf1.
      cbn [fold_left length].
      destruct (Nat.leb_spec (Fft.HOP cfg) (Fft.new_samples st + 1))
        as [Hge|Hlt].
      * destruct Hout as [snap [-> Hsnap]].
        assert (Hn1 : Fft.new_samples (Ref.accept cfg st s) = 0).
        { cbn [Ref.accept Fft.new_samples].
          now destruct (Nat.leb_spec (Fft.HOP cfg) (Fft.new_samples st + 1));
            [|lia]. }
        assert (Hlt0 : Fft.new_samples (Ref.accept cfg st s) < Fft.HOP cfg)
          by lia.
        destruct (IH _ rest Hwf1 eq_refl Hh Hlt0)
          as [snaps [-> [Hl [Hc Hw]]]].
        cbn [bind]. exists (snap :: snaps).
        rewrite Hn1 in Hl, Hc, Hw. cbn [Nat.add] in Hl, Hc, Hw.
        replace (Fft.new_samples st + S (length rest))
          with (Fft.HOP cfg + length rest) by lia.
        rewrite hop_div_reset, hop_mod_reset by assumption.
        split; [reflexivity|]. split; [cbn [length]; now rewrite Hl|].
        split; [exact Hc|].
        cbn [map seq]. f_equal.
        -- replace (Fft.HOP cfg - Fft.new_samples st + 0 * Fft.HOP cfg)
             with 1 by lia.
           cbn [firstn fold_left]. now rewrite Hsnap.
        -- rewrite Hw, <- seq_shift, map_map. apply map_ext. intros i.
           replace (Fft.HOP cfg - Fft.new_samples st + S i * Fft.HOP cfg)
             with (S (Fft.HOP cfg - 0 + i * Fft.HOP cfg)) by lia.
           reflexivity.
      * subst out.
        assert (Hn1 : Fft.new_samples (Ref.accept cfg st s)
                      = Fft.new_samples st + 1).
        { cbn [Ref.accept Fft.new_samples].
          now destruct (Nat.leb_spec (Fft.HOP cfg) (Fft.new_samples st + 1));
            [lia|]. }
        assert (Hlt1 : Fft.new_samples (Ref.accept cfg st s) < Fft.HOP cfg)
          by lia.
        destruct (IH _ rest Hwf1 eq_refl Hh Hlt1)
          as [snaps [-> [Hl [Hc Hw]]]].
        cbn [bind]. exists snaps.
        rewrite Hn1 in Hl, Hc, Hw.
        replace (Fft.new_samples st + S (length rest))
          with (Fft.new_samples st + 1 + length rest) by lia.
        split; [reflexivity|]. split; [exact Hl|]. split; [exact Hc|].
        rewrite Hw. apply map_ext. intros i.
        replace (Fft.HOP cfg - Fft.new_samples st + i * Fft.HOP cfg)
          with (S (Fft.HOP cfg - (Fft.new_samples st + 1) + i * Fft.HOP cfg))
          by lia.
        reflexivity.
    + rewrite (@step_reject py L cfg st raw Ed). cbn [bind].
      destruct (IH _ rest Hwf eq_refl Hh Hnew) as [snaps [-> H]].
      cbn [bind]. now exists snaps.
Qed.

(** With a hop of zero or one every sample is followed by a refresh. *)
Lemma run_every_sample lines : forall st ss,
  Ref.well_formed cfg st ->
  Ref.samples cfg lines = Ok ss ->
  Fft.HOP cfg <= 1 ->
  exists snaps,
    Fft.run cfg st lines = Ok (fold_left (Ref.accept cfg) ss st, snaps)
    /\ length snaps = length ss.
Proof.
  induction lines as [|raw lines IH]; intros st ss Hwf Hs Hh.
  - injection Hs as <-. now exists [].
  - cbn [Ref.samples] in Hs. cbn [Fft.run].
    destruct (Ref.decode cfg raw) as [[s|]|e] eqn:Ed; cbn [bind] in Hs;
      try discriminate;
      destruct (Ref.samples cfg lines) as [rest|e] eqn:Er; cbn [bind] in Hs;
      try discriminate; injection Hs as <-.
    + destruct (step_accept_out raw Hwf Ed) as [out [-> Hout]]. cbn [bind].
      destruct (Nat.leb_spec (Fft.HOP cfg) (Fft.new_samples st + 1))
        as [_|Hlt]; [|lia].
      destruct Hout as [snap [-> _]].
      destruct (IH _ rest (accept_well_formed s Hwf) eq_refl Hh)
        as [snaps [-> Hl]].
      cbn [bind fold_left length]. exists (snap :: snaps).
      split; [reflexivity|]. cbn [length]. now rewrite Hl.
    + rewrite (@step_reject py L cfg st raw Ed). cbn [bind].
      destruct (IH _ rest Hwf eq_refl Hh) as [snaps [-> Hl]].
      cbn [bind]. now exists snaps.
Qed.

(** Lines without a sample can be dropped from the input. *)
Lemma run_skip lines : forall st,
  Fft.run cfg st (filter Ref.is_record lines) = Fft.run cfg st lines.
Proof.
  induction lines as [|raw lines IH]; intros st; [reflexivity|].
  cbn [filter]. unfold Ref.is_record at 1.
  destruct (Ref.classify raw) as [|a|t_ms a|] eqn:Ec.
  - cbn [Fft.run].
    rewrite (@step_reject py L cfg st raw (@classify_rejected py cfg raw (or_introl Ec))).
    cbn [bind]. rewrite IH.
    now destruct (Fft.run cfg st lines) as [[st2 outs]|e].
  - cbn [Fft.run]. destruct (Fft.step cfg st raw) as [[st1 out]|e];
      cbn [bind]; [|reflexivity]. now rewrite IH.
  - cbn [Fft.run]. destruct (Fft.step cfg st raw) as [[st1 out]|e];
      cbn [bind]; [|reflexivity]. now rewrite IH.
  - cbn [Fft.run].
    rewrite (@step_reject py L cfg st raw (@classify_rejected py cfg raw (or_intror Ec))).
    cbn [bind]. rewrite IH.
    now destruct (Fft.run cfg st lines) as [[st2 outs]|e].
Qed.

End Scheduler.

(** X3. In [fft.py], from a well-formed state with the counter below
    [HOP] and over lines that decode to the samples [ss], the loop
    refreshes the plot once every [HOP] samples, whatever blank or
    malformed lines lie in between: there are [(new_samples + k) / HOP]
    refreshes for the [k] samples, and the counter ends at
    [(new_samples + k) mod HOP], below [HOP] again.  With [HOP <= 1]
    every sample is followed by a refresh. *)
Theorem hop_cadence (py : Py.Interpreter) (L : Np.Library) (cfg : Fft.config)
    (st : Fft.state) (lines : list string)
    (ss : list (option float * float)) :
  Ref.well_formed cfg st ->
  Ref.samples cfg lines = Ok ss ->
  (Fft.new_samples st < Fft.HOP cfg ->
   exists st' snaps,
     Fft.run cfg st lines = Ok (st', snaps)
     /\ length snaps = (Fft.new_samples st + length ss) / Fft.HOP cfg
     /\ Fft.new_samples st' = (Fft.new_samples st + length ss) mod Fft.HOP cfg
     /\ Fft.new_samples st' < Fft.HOP cfg)
  /\ (Fft.HOP cfg <= 1 ->
      exists st' snaps,
        Fft.run cfg st lines = Ok (st', snaps) /\ length snaps = length ss).
Proof.
  intros Hwf Hs. split.
  - intros Hnew. assert (Hh : 0 < Fft.HOP cfg) by lia.
    destruct (run_schedule lines Hwf Hs Hh Hnew) as [snaps [Hr [Hl [Hc _]]]].
    eexists _, snaps. split; [exact Hr|]. split; [exact Hl|].
    split; [exact Hc|]. rewrite Hc.
    now apply Nat.mod_upper_bound, Nat.neq_0_lt_0.
  - intros Hh.
    destruct (run_every_sample lines Hwf Hs Hh) as [snaps [Hr Hl]].
    eexists _, snaps. split; [exact Hr | exact Hl].
Qed.

Lemma hop_cadence_witness :
  exists st' snaps,
    Fft.run (py := Py.cpython) (L := Np.flat) (Ref.small 2)
      (Fft.init (Ref.small 2))
      ["1"; ""; "10,2"; "x"; "3"; "20,4"; "5"]%string = Ok (st', snaps)
    /\ length snaps = 2 /\ Fft.new_samples st' = 1.
Proof.
  assert (Hs : exists ss,
             Ref.samples (py := Py.cpython) (Ref.small 2)
               ["1"; ""; "10,2"; "x"; "3"; "20,4"; "5"]%string = Ok ss
             /\ length ss = 5)
    by (vm_compute; eexists; split; reflexivity).
  destruct Hs as [ss [Hs Hk]].
  destruct (@hop_cadence Py.cpython Np.flat _ _ _ _ (small_well_formed 2) Hs)
    as [H _].
  destruct (H (Nat.lt_0_succ 1)) as [st' [snaps [Hrun [Hl [Hc _]]]]].
  rewrite Hk in Hl, Hc.
  exists st', snaps. split; [exact Hrun|]. split; [exact Hl | exact Hc].
Defined.

(** X4. In [fft.py] the [i]-th refresh of a run draws the state reached
    after the first [HOP - new_samples + i * HOP] samples of the run,
    that many samples having arrived by then; the time-domain curve it
    shows is the value window after exactly these samples, so
    successive refreshes show windows [HOP] samples apart. *)
Theorem refresh_states (py : Py.Interpreter) (L : Np.Library)
    (cfg : Fft.config) (st : Fft.state) (lines : list string)
    (ss : list (option float * float)) :
  Ref.well_formed cfg st ->
  Ref.samples cfg lines = Ok ss ->
  Fft.new_samples st < Fft.HOP cfg ->
  exists st' snaps,
    Fft.run cfg st lines = Ok (st', snaps)
    /\ forall i, i < length snaps ->
         let p := Fft.HOP cfg - Fft.new_samples st + i * Fft.HOP cfg in
         p <= length ss
         /\ exists snap,
             nth_error snaps i = Some snap
             /\ Fft.refresh cfg (fold_left (Ref.accept cfg) (firstn p ss) st)
                = Ok snap
             /\ Fft.time_data snap
                = Ref.window_after (Fft.x st) (map snd ss) p.
Proof.
  intros Hwf Hs Hnew. assert (Hh : 0 < Fft.HOP cfg) by lia.
  destruct (run_schedule lines Hwf Hs Hh Hnew) as [snaps [Hr [Hl [_ Hw]]]].
  eexists _, snaps. split; [exact Hr|].
  intros i Hi p.
  assert (Hp : p <= length ss).
  { rewrite Hl in Hi.
    pose proof (Nat.Div0.mul_div_le (Fft.new_samples st + length ss)
                  (Fft.HOP cfg)) as Hm.
    unfold p. nia. }
  split; [exact Hp|].
  destruct (nth_error snaps i) as [snap|] eqn:En;
    [|apply nth_error_None in En; lia].
  exists snap. split; [reflexivity|].
  assert (Hf : Fft.refresh cfg (fold_left (Ref.accept cfg) (firstn p ss) st)
               = Ok snap).
  { apply (f_equal (fun l => nth_error l i)) in Hw.
    rewrite !nth_error_map, En, nth_error_seq in Hw.
    rewrite <- Hl in Hw.
    destruct (Nat.ltb_spec i (length snaps)) as [_|Hge]; [|lia].
    cbn [option_map Nat.add] in Hw. injection Hw as Hw.
    symmetry. exact Hw. }
  split; [exact Hf|].
  rewrite (@refresh_time_data L cfg _ snap Hf).
  destruct Hwf as [Hx [_ [Hn _]]].
  rewrite accept_all_x by (apply nonempty_length; lia).
  unfold Ref.window_after.
  rewrite length_firstn, Nat.min_l by exact Hp.
  now rewrite firstn_map.
Qed.

Lemma refresh_states_witness :
  exists st' snaps,
    Fft.run (py := Py.cpython) (L := Np.flat) (Ref.small 2)
      (Fft.init (Ref.small 2))
      ["1023"; ""; "10,0"; "x"; "1023"; "20,1023"; "0"]%string
    = Ok (st', snaps)
    /\ map Fft.time_data snaps = [[5; 0]; [5; 5]]%float.
Proof.
  assert (Hs : exists ss,
             Ref.samples (py := Py.cpython) (Ref.small 2)
               ["1023"; ""; "10,0"; "x"; "1023"; "20,1023"; "0"]%string
             = Ok ss)
    by (vm_compute; eexists; reflexivity).
  destruct Hs as [ss Hs].
  destruct (@refresh_states Py.cpython Np.flat _ _ _ _ (small_well_formed 2)
              Hs (Nat.lt_0_succ 1))
    as [st' [snaps [Hrun _]]].
  exists st', snaps. split; [exact Hrun|].
  vm_compute in Hrun.
  exact (f_equal (fun r => match r with
                           | Ok (_, sn) => map Fft.time_data sn
                           | Raise _ => []
                           end) (eq_sym Hrun)).
Defined.

(** X5. In [fft.py] a blank or malformed line is skipped without a
    trace: the iteration leaves every variable as it was and draws
    nothing, so removing all such lines from the input changes neither
    the final state, nor the refreshes, nor an exception the run ends
    in. *)
Theorem rejected_lines_transparent (py : Py.Interpreter) (L : Np.Library)
    (cfg : Fft.config) :
  (forall st raw,
      Ref.is_record raw = false -> Fft.step cfg st raw = Ok (st, None))
  /\ (forall st lines,
        Fft.run cfg st (filter Ref.is_record lines) = Fft.run cfg st lines).
Proof.
  split.
  - intros st raw Hr. apply step_reject, classify_rejected.
    unfold Ref.is_record in Hr.
    destruct (Ref.classify raw); try discriminate; auto.
  - intros st lines. apply run_skip.
Qed.

(** ** Whitespace around a line (fft.py, line 50) *)

Section Whitespace.

Lemma lstrip_only_space s :
  Ref.only_space s = true -> Py.lstrip_by Py.isspace s = EmptyString.
Proof.
  induction s as [|c s IH]; [reflexivity|]. cbn [Ref.only_space Py.lstrip_by].
  intros H. apply andb_prop in H. destruct H as [-> H]. now apply IH.
Qed.

Lemma rstrip_only_space s :
  Ref.only_space s = true -> Py.rstrip_by Py.isspace s = EmptyString.
Proof.
  induction s as [|c s IH]; [reflexivity|]. cbn [Ref.only_space Py.rstrip_by].
  intros H. apply andb_prop in H. destruct H as [Hc H].
  now rewrite (IH H), Hc.
Qed.

Lemma lstrip_space_app pre s :
  Ref.only_space pre = true ->
  Py.lstrip_by Py.isspace (pre ++ s) = Py.lstrip_by Py.isspace s.
Proof.
  induction pre as [|c pre IH]; [reflexivity|].
  cbn [Ref.only_space append Py.lstrip_by].
  intros H. apply andb_prop in H. destruct H as [-> H]. now apply IH.
Qed.

Lemma rstrip_app_space s post :
  Ref.only_space post = true ->
  Py.rstrip_by Py.isspace (s ++ post) = Py.rstrip_by Py.isspace s.
Proof.
  intros H. induction s as [|c s IH].
  - now apply rstrip_only_space.
  - cbn [append Py.rstrip_by]. now rewrite IH.
Qed.

Lemma strip_app_space s post :
  Ref.only_space post = true -> Py.strip (s ++ post) = Py.strip s.
Proof.
  intros H. unfold Py.strip, Py.strip_by. induction s as [|c s IH].
  - cbn [append]. now rewrite (lstrip_only_space _ H).
  - cbn [append Py.lstrip_by]. destruct (Py.isspace c); [exact IH|].
    now apply (rstrip_app_space (String c s) post).
Qed.

Lemma strip_surround pre s post :
  Ref.only_space pre = true -> Ref.only_space post = true ->
  Py.strip (pre ++ s ++ post) = Py.strip s.
Proof.
  intros Hpre Hpost. rewrite <- (strip_app_space s post Hpost).
  unfold Py.strip, Py.strip_by. now rewrite lstrip_space_app.
Qed.

End Whitespace.

(** X6. In [fft.py] whitespace around a line makes no difference: with
    any run of whitespace before and after it (a line terminator, a
    carriage return, indentation) a line parses to the same result or
    the same exception, and the loop iteration on it ends in the same
    state with the same refresh. *)
Theorem surrounding_whitespace_ignored (py : Py.Interpreter) (L : Np.Library)
    (cfg : Fft.config) (st : Fft.state) (pre line post : string) :
  Ref.only_space pre = true -> Ref.only_space post = true ->
  Fft.parse_line (pre ++ line ++ post) = Fft.parse_line line
  /\ Fft.step cfg st (pre ++ line ++ post) = Fft.step cfg st line.
Proof.
  intros Hpre Hpost.
  assert (Hp : Fft.parse_line (pre ++ line ++ post) = Fft.parse_line line).
  { unfold Fft.parse_line. now rewrite strip_surround. }
  split; [exact Hp|]. unfold Fft.step. now rewrite Hp.
Qed.

Lemma surrounding_whitespace_ignored_witness :
  Fft.parse_line (py := Py.cpython) (" " ++ "1000,512" ++ String "013" (String "010" ""))
  = Fft.parse_line (py := Py.cpython) "1000,512".
Proof.
  exact (proj1 (@surrounding_whitespace_ignored Py.cpython Np.flat
                  (Ref.small 2) (Fft.init (Ref.small 2))
                  " " "1000,512" (String "013" (String "010" ""))
                  eq_refl eq_refl)).
Defined.

(** ** Conversion of the timestamp (fft.py, line 59) *)

Section Timestamp.
Local Open Scope Z_scope.

Lemma digits2_pos_iter m d :
  Zpos (digits2_pos (Pos.iter xO m d)) = Zpos (digits2_pos m) + Zpos d.
Proof.
  induction d as [|d IH] using Pos.peano_ind.
  - cbn [Pos.iter digits2_pos]. lia.
  - rewrite Pos.iter_succ. cbn [digits2_pos]. lia.
Qed.

Lemma digits2_pos_bound m : forall k,
  0 <= k -> Zpos m < 2 ^ k -> Zpos (digits2_pos m) <= k.
Proof.
  induction m as [m IH|m IH|]; intros k Hk Hm.
  - assert (k <> 0) by (intros ->; simpl in Hm; lia).
    replace k with (Z.succ (k - 1)) in Hm by lia.
    rewrite Z.pow_succ_r in Hm by lia.
    cbn [digits2_pos]. specialize (IH (k - 1)). lia.
  - assert (k <> 0) by (intros ->; simpl in Hm; lia).
    replace k with (Z.succ (k - 1)) in Hm by lia.
    rewrite Z.pow_succ_r in Hm by lia.
    cbn [digits2_pos]. specialize (IH (k - 1)). lia.
  - assert (k <> 0) by (intros ->; simpl in Hm; lia).
    cbn [digits2_pos]. lia.
Qed.

(** An integer below [2^53] in magnitude is a binary64 number. *)
Lemma binary_round_small sx m :
  Zpos m < 2 ^ 53 ->
  exists m' e',
    binary_round prec emax sx m 0 = S754_finite sx m' e'
    /\ bounded prec emax m' e' = true.
Proof.
  intros Hm. pose proof (@digits2_pos_bound m 53 ltac:(lia) Hm) as Hd.
  assert (Hd1 : 1 <= Zpos (digits2_pos m)) by lia.
  unfold binary_round, shl_align. rewrite fexp64, Z.add_0_r, Z.sub_0_r.
  replace (Z.max (Zpos (digits2_pos m) - 53) (-1074))
    with (Zpos (digits2_pos m) - 53) by lia.
  destruct (Zpos (digits2_pos m) - 53) as [|q|q] eqn:E; try lia.
  - exists m, 0. split.
    + apply round_exact_fits; rewrite ?fexp64; lia.
    + unfold bounded, canonical_mantissa. rewrite fexp64.
      apply andb_true_intro. split; [apply Z.eqb_eq; lia|].
      apply Z.leb_le. unfold emax, prec. lia.
  - exists (Pos.iter xO m q), (Zneg q).
    pose proof (digits2_pos_iter m q) as Hq. split.
    + apply round_exact_fits; rewrite ?fexp64; lia.
    + unfold bounded, canonical_mantissa. rewrite fexp64.
      apply andb_true_intro. split; [apply Z.eqb_eq; lia|].
      apply Z.leb_le. unfold emax, prec. lia.
Qed.

Lemma finite_not_infinity f s m e :
  Prim2SF f = S754_finite s m e -> is_infinity f = false.
Proof.
  intros H. unfold is_infinity. rewrite eqb_spec, abs_spec, H.
  reflexivity.
Qed.

Lemma Z2float_small z :
  Z.abs z < 2 ^ 53 -> is_infinity (Py.Z2float z) = false.
Proof.
  intros Hz. unfold Py.Z2float, binary_normalize.
  destruct z as [|m|m].
  - reflexivity.
  - destruct (@binary_round_small false m Hz) as [m' [e' [-> Hb]]].
    apply (@finite_not_infinity _ false m' e').
    now apply Prim2SF_SF2Prim.
  - destruct (@binary_round_small true m Hz) as [m' [e' [-> Hb]]].
    apply (@finite_not_infinity _ true m' e').
    now apply Prim2SF_SF2Prim.
Qed.

Lemma int_truediv_float_1000 z :
  Py.int_truediv_float z 1000
  = if is_infinity (Py.Z2float z) then Raise OverflowError
    else Ok (Py.Z2float z / 1000)%float.
Proof.
  unfold Py.int_truediv_float, Py.float_of_int.
  now destruct (is_infinity (Py.Z2float z)).
Qed.

End Timestamp.

(** X7. [parse_line] of [fft.py] can end in one exception only, an
    [OverflowError], and exactly on a timestamped record whose
    millisecond count is too large for a [float]: no input makes it
    raise [ValueError] (the unpacking of the split included),
    [ZeroDivisionError] or [IndexError], and blank, malformed and bare
    lines never raise. *)
Theorem parse_line_only_overflow (py : Py.Interpreter) (line : string)
    (e : exn) :
  Fft.parse_line line = Raise e
  <-> e = OverflowError
      /\ exists t_ms a,
           Ref.classify line = Ref.Timestamped t_ms a
           /\ is_infinity (Py.Z2float t_ms) = true.
Proof.
  rewrite parse_line_classify. split.
  - destruct (Ref.classify line) as [|a|t_ms a|]; try discriminate.
    rewrite int_truediv_float_1000.
    destruct (is_infinity (Py.Z2float t_ms)) eqn:Ei; cbn [bind];
      [|discriminate].
    intros [= <-]. split; [reflexivity|]. now exists t_ms, a.
  - intros [-> [t_ms [a [-> Hi]]]].
    now rewrite int_truediv_float_1000, Hi.
Qed.

(** X8. A timestamped record whose millisecond count is below [2^53]
    in magnitude (any 32-bit [millis()] value is) parses without an
    exception to the seconds [float(t_ms) / 1000.0] and the sample. *)
Theorem parse_line_safe_timestamp (py : Py.Interpreter) (line : string)
    (t_ms a : Z) :
  Ref.classify line = Ref.Timestamped t_ms a ->
  (Z.abs t_ms < 2 ^ 53)%Z ->
  Fft.parse_line line = Ok (Some (Py.Z2float t_ms / 1000)%float, Some a).
Proof.
  intros Hc Ht. rewrite parse_line_classify, Hc, int_truediv_float_1000.
  now rewrite (@Z2float_small t_ms Ht).
Qed.

Lemma parse_line_safe_timestamp_witness :
  Fft.parse_line (py := Py.cpython) "4294967295,512"
  = Ok (Some (Py.Z2float 4294967295 / 1000)%float, Some 512%Z).
Proof.
  apply (@parse_line_safe_timestamp Py.cpython "4294967295,512"
           4294967295 512).
  - vm_compute. reflexivity.
  - vm_compute. reflexivity.
Defined.

(** ** The voltage scale (fft.py, lines 40-41) *)

Section Volts.

(** Every code of the 10-bit converter, with its successor. *)
Lemma adc_table :
  forallb (fun a =>
             match Fft.adc_to_volts Fft.defaults a,
                   Fft.adc_to_volts Fft.defaults (a + 1) with
             | Ok v, Ok w => Ref.in_volts Fft.defaults v && (v <? w)%float
             | _, _ => false
             end)
    (map Z.of_nat (seq 0 1024)) = true.
Proof. vm_compute. reflexivity. Qed.

Lemma adc_code_ok adc :
  (0 <= adc <= 1023)%Z ->
  exists v w,
    Fft.adc_to_volts Fft.defaults adc = Ok v
    /\ Fft.adc_to_volts Fft.defaults (adc + 1) = Ok w
    /\ Ref.in_volts Fft.defaults v = true
    /\ (v <? w)%float = true.
Proof.
  intros Ha. pose proof adc_table as T.
  rewrite forallb_forall in T. specialize (T adc).
  assert (Hin : In adc (map Z.of_nat (seq 0 1024))).
  { rewrite <- (Z2Nat.id adc) by lia. apply in_map, in_seq. lia. }
  specialize (T Hin).
  destruct (Fft.adc_to_volts Fft.defaults adc) as [v|]; [|discriminate].
  destruct (Fft.adc_to_volts Fft.defaults (adc + 1)) as [w|]; [|discriminate].
  apply andb_prop in T. destruct T as [Hv Hw]. now exists v, w.
Qed.

Lemma Forall_skipn (A : Type) (P : A -> Prop) (l : list A) : forall n,
  Forall P l -> Forall P (skipn n l).
Proof.
  induction l as [|a l IH]; intros [|n] H; cbn [skipn]; auto.
  inversion H; subst. now apply IH.
Qed.

End Volts.

(** X9. With the constants of [fft.py] ([ADC_BITS = 10], [VREF = 5.0])
    [adc_to_volts] maps every code [0 .. 1023] of the converter to a
    voltage between [0.0] and [5.0] without an exception, the code [0]
    to [0.0] and the code [1023] to [5.0] exactly, and a code one higher
    to a strictly higher voltage. *)
Theorem adc_to_volts_range (adc : Z) :
  (0 <= adc <= 1023)%Z ->
  exists v w,
    Fft.adc_to_volts Fft.defaults adc = Ok v
    /\ (0 <=? v)%float = true /\ (v <=? 5)%float = true
    /\ Fft.adc_to_volts Fft.defaults (adc + 1) = Ok w
    /\ (v <? w)%float = true
    /\ Fft.adc_to_volts Fft.defaults 0 = Ok 0%float
    /\ Fft.adc_to_volts Fft.defaults 1023 = Ok 5%float.
Proof.
  intros Ha. destruct (adc_code_ok Ha) as [v [w [Hv [Hw [Hr Hlt]]]]].
  exists v, w. unfold Ref.in_volts in Hr. apply andb_prop in Hr.
  destruct Hr as [H0 H5].
  repeat split; try assumption; vm_compute; reflexivity.
Qed.

Lemma adc_to_volts_range_witness :
  exists v w,
    Fft.adc_to_volts Fft.defaults 512 = Ok v
    /\ (0 <=? v)%float = true /\ (v <=? 5)%float = true
    /\ Fft.adc_to_volts Fft.defaults 513 = Ok w
    /\ (v <? w)%float = true.
Proof.
  destruct (@adc_to_volts_range 512 ltac:(lia))
    as [v [w [Hv [H0 [H5 [Hw [Hlt _]]]]]]].
  exists v, w. repeat split; assumption.
Defined.

(** ** The program with its own constants *)

Section Shipped.
Context {py : Py.Interpreter} {L : Np.Library}.

Lemma defaults_well_formed :
  Ref.well_formed Fft.defaults (Fft.init Fft.defaults).
Proof.
  unfold Ref.well_formed, Fft.init, Np.zeros. cbn [Fft.x Fft.t].
  rewrite !repeat_length. repeat split; try (cbn; lia).
  unfold Ref.started. vm_compute. eexists. reflexivity.
Qed.

Lemma decode_plausible raw :
  Ref.plausible Fft.defaults raw = true ->
  if Ref.is_record raw
  then exists ts v,
      Ref.decode Fft.defaults raw = Ok (Some (ts, v))
      /\ Ref.in_volts Fft.defaults v = true
  else Ref.decode Fft.defaults raw = Ok None.
Proof.
  unfold Ref.plausible, Ref.is_record, Ref.decode.
  rewrite parse_line_classify.
  change (2 ^ Z.of_nat (Fft.ADC_BITS Fft.defaults) - 1)%Z with 1023%Z.
  destruct (Ref.classify raw) as [|a|t_ms a|]; cbn [bind]; try reflexivity.
  - intros H. apply andb_prop in H. destruct H as [H0 H1].
    apply Z.leb_le in H0, H1.
    destruct (@adc_code_ok a (conj H0 H1)) as [v [w [-> [_ [Hv _]]]]].
    cbn [bind]. now exists None, v.
  - intros H. apply andb_prop in H. destruct H as [Ht H].
    apply andb_prop in H. destruct H as [H0 H1].
    apply Z.ltb_lt in Ht. apply Z.leb_le in H0, H1.
    rewrite int_truediv_float_1000, (@Z2float_small t_ms Ht). cbn [bind].
    destruct (@adc_code_ok a (conj H0 H1)) as [v [w [-> [_ [Hv _]]]]].
    cbn [bind]. now eexists _, v.
Qed.

Lemma samples_plausible lines :
  forallb (Ref.plausible Fft.defaults) lines = true ->
  exists ss,
    Ref.samples Fft.defaults lines = Ok ss
    /\ length ss = length (filter Ref.is_record lines)
    /\ Forall (fun s => Ref.in_volts Fft.defaults (snd s) = true) ss.
Proof.
  induction lines as [|raw lines IH]; intros H.
  - exists []. now repeat split.
  - cbn [forallb] in H. apply andb_prop in H. destruct H as [Hr H].
    destruct (IH H) as [ss [Hs [Hl Hv]]].
    pose proof (decode_plausible raw Hr) as Hd.
    cbn [Ref.samples filter]. rewrite Hs.
    destruct (Ref.is_record raw).
    + destruct Hd as [ts [v [-> Hin]]]. cbn [bind].
      exists ((ts, v) :: ss). split; [reflexivity|].
      split; [cbn [length]; now rewrite Hl|]. now constructor.
    + rewrite Hd. cbn [bind]. now exists ss.
Qed.

End Shipped.

(** X10. With its own constants ([N = 2048], [HOP = 128], a 10-bit
    converter at 5 V, fallback rate 1000 Hz) the buffers and the
    frequency axis that [fft.py] sets up before its loop are well
    formed, and the loop then gets through any input whose records carry
    samples [0 .. 1023] and millisecond counts below [2^53] in
    magnitude, blank and malformed lines in any number between them: no
    exception ends it, the plot is refreshed once every 128 records, and
    the value window keeps its 2048 cells, each between [0.0] and
    [5.0]. *)
Theorem shipped_run_total (py : Py.Interpreter) (L : Np.Library)
    (lines : list string) :
  forallb (Ref.plausible Fft.defaults) lines = true ->
  Ref.well_formed Fft.defaults (Fft.init Fft.defaults)
  /\ exists st' snaps,
      Fft.run Fft.defaults (Fft.init Fft.defaults) lines = Ok (st', snaps)
      /\ length snaps = length (filter Ref.is_record lines) / 128
      /\ Fft.new_samples st' = length (filter Ref.is_record lines) mod 128
      /\ length (Fft.x st') = 2048
      /\ Forall (fun v => Ref.in_volts Fft.defaults v = true) (Fft.x st').
Proof.
  intros H. pose proof defaults_well_formed as Hwf. split; [exact Hwf|].
  destruct (samples_plausible lines H) as [ss [Hs [Hl Hv]]].
  assert (Hh : 0 < Fft.HOP Fft.defaults) by (cbn; lia).
  assert (Hnew : Fft.new_samples (Fft.init Fft.defaults)
                 < Fft.HOP Fft.defaults) by (cbn; lia).
  destruct (run_schedule lines Hwf Hs Hh Hnew) as [snaps [Hr [Hn [Hc _]]]].
  eexists _, snaps. split; [exact Hr|].
  rewrite Hl in Hn, Hc. split; [exact Hn|]. split; [exact Hc|].
  destruct (accept_all_well_formed ss Hwf) as [Hx _].
  split; [exact Hx|].
  rewrite accept_all_x by (cbn; discriminate).
  apply Forall_skipn, Forall_app. split.
  - cbn [Fft.init Fft.x]. unfold Np.zeros.
    apply Forall_forall. intros v Hin. apply repeat_spec in Hin.
    now subst v.
  - apply Forall_map. exact Hv.
Qed.

Lemma shipped_run_total_witness :
  exists st' snaps,
    Fft.run (py := Py.cpython) (L := Np.flat) Fft.defaults
      (Fft.init Fft.defaults)
      ["0,0"; ""; "1,1023"; "volts"; "512"]%string = Ok (st', snaps)
    /\ length snaps = 0
    /\ Fft.new_samples st' = 3.
Proof.
  destruct (@shipped_run_total Py.cpython Np.flat
              ["0,0"; ""; "1,1023"; "volts"; "512"]%string)
    as [_ [st' [snaps [Hr [Hn [Hc _]]]]]].
  - vm_compute. reflexivity.
  - exists st', snaps. split; [exact Hr|].
    split; [rewrite Hn | rewrite Hc]; vm_compute; reflexivity.
Defined.

(** ** A converter of zero bits *)

Section ZeroBits.
Context {py : Py.Interpreter} {L : Np.Library}.
Variable cfg : Fft.config.

Lemma full_scale_zero :
  (2 ^ Z.of_nat (Fft.ADC_BITS cfg) - 1 =? 0)%Z = true <-> Fft.ADC_BITS cfg = 0.
Proof.
  rewrite Z.eqb_eq. split.
  - intros H. destruct (Fft.ADC_BITS cfg) as [|n]; [reflexivity|].
    rewrite Nat2Z.inj_succ, Z.pow_succ_r in H by lia.
    pose proof (Z.pow_pos_nonneg 2 (Z.of_nat n) ltac:(lia) ltac:(lia)). lia.
  - now intros ->.
Qed.

Lemma int_truediv_zero_division a b :
  Py.int_truediv a b = Raise ZeroDivisionError <-> (b =? 0)%Z = true.
Proof.
  unfold Py.int_truediv. destruct (b =? 0)%Z; [tauto|].
  split; [|discriminate].
  destruct (a =? 0)%Z; [discriminate|].
  destruct (SFdiv_core_binary _ _ _ _ _ _) as [[q e] l].
  now destruct (is_infinity _).
Qed.

Lemma adc_to_volts_zero_division adc :
  Fft.adc_to_volts cfg adc = Raise ZeroDivisionError <-> Fft.ADC_BITS cfg = 0.
Proof.
  rewrite <- full_scale_zero,
    <- (int_truediv_zero_division adc (2 ^ Z.of_nat (Fft.ADC_BITS cfg) - 1)).
  unfold Fft.adc_to_volts.
  destruct (Py.int_truediv adc _) as [q|e]; cbn [bind]; [|tauto].
  split; discriminate.
Qed.

(** With no bits the iteration on a record ends in an exception. *)
Lemma step_record_raises st raw :
  Fft.ADC_BITS cfg = 0 -> Ref.is_record raw = true ->
  exists e, Fft.step cfg st raw = Raise e.
Proof.
  intros Hb Hr. unfold Fft.step. rewrite parse_line_classify.
  unfold Ref.is_record in Hr.
  destruct (Ref.classify raw) as [|a|t_ms a|]; try discriminate.
  - cbn [bind].
    rewrite (proj2 (adc_to_volts_zero_division a) Hb). cbn [bind].
    now eexists.
  - destruct (Py.int_truediv_float t_ms 1000) as [ts|e]; cbn [bind].
    + rewrite (proj2 (adc_to_volts_zero_division a) Hb). cbn [bind].
      now eexists.
    + now eexists.
Qed.

Lemma run_zero_bits lines : forall st st' snaps,
  Fft.ADC_BITS cfg = 0 ->
  Fft.run cfg st lines = Ok (st', snaps) ->
  filter Ref.is_record lines = [] /\ st' = st /\ snaps = [].
Proof.
  induction lines as [|raw lines IH]; intros st st' snaps Hb Hr.
  - cbn in Hr. now injection Hr as <- <-.
  - cbn [Fft.run filter] in *.
    destruct (Ref.is_record raw) eqn:Er.
    + destruct (step_record_raises st raw Hb Er) as [e He].
      rewrite He in Hr. discriminate.
    + assert (Hs : Fft.step cfg st raw = Ok (st, None)).
      { apply step_reject, classify_rejected. unfold Ref.is_record in Er.
        destruct (Ref.classify raw); try discriminate; auto. }
      rewrite Hs in Hr. cbn [bind] in Hr.
      destruct (Fft.run cfg st lines) as [[st2 outs]|e] eqn:E;
        cbn [bind] in Hr; [|discriminate].
      injection Hr as <- <-. now apply IH.
Qed.

End ZeroBits.

(** X11. [adc_to_volts] of [fft.py] divides by [2**ADC_BITS - 1], so it
    raises [ZeroDivisionError] exactly when [ADC_BITS] is zero, and then
    for every sample.  With that setting the iteration on any record ends
    in an exception, so the loop gets through an input only when the
    input holds no record at all, and it then has changed nothing and
    drawn nothing. *)
Theorem zero_adc_bits (py : Py.Interpreter) (L : Np.Library)
    (cfg : Fft.config) :
  (forall adc,
      Fft.adc_to_volts cfg adc = Raise ZeroDivisionError
      <-> Fft.ADC_BITS cfg = 0)
  /\ (Fft.ADC_BITS cfg = 0 ->
      (forall st raw,
          Ref.is_record raw = true -> exists e, Fft.step cfg st raw = Raise e)
      /\ (forall st lines st' snaps,
            Fft.run cfg st lines = Ok (st', snaps) ->
            filter Ref.is_record lines = [] /\ st' = st /\ snaps = [])).
Proof.
  split.
  - apply adc_to_volts_zero_division.
  - intros Hb. split.
    + intros st raw Hr. now apply step_record_raises.
    + intros st lines st' snaps Hr.
      now apply (@run_zero_bits py L cfg lines st st' snaps Hb Hr).
Qed.

(** ** What a refresh hands to the plot *)

Section Snapshot.
Context {L : Np.Library}.
Variable cfg : Fft.config.

Lemma refresh_inv st snap :
  Fft.refresh cfg st = Ok snap ->
  exists fs X,
    Fft.rate_and_axis cfg st = Ok (fs, Fft.time_axis snap)
    /\ Np.rfft (Np.multiply (Fft.x st) (Np.hanning (Fft.N cfg))) = Ok X
    /\ Fft.freq_axis cfg fs = Ok (Fft.freqs snap)
    /\ Spectrum.magnitude (Fft.N cfg) (Np.hanning (Fft.N cfg)) X
       = Ok (Fft.mag snap)
    /\ Fft.fs snap = Py.value fs
    /\ Fft.time_data snap = Fft.x st.
Proof.
  unfold Fft.refresh.
  destruct (Fft.rate_and_axis cfg st) as [[fs axis]|e]; cbn [bind];
    [|discriminate].
  destruct (Np.rfft _) as [X|e]; cbn [bind]; [|discriminate].
  destruct (Fft.freq_axis cfg fs) as [fr|e] eqn:Ef; cbn [bind];
    [|discriminate].
  destruct (Spectrum.magnitude _ _ X) as [m|e] eqn:Em; cbn [bind];
    [|discriminate].
  intros [= <-]. cbn. exists fs, X. now repeat split.
Qed.

Lemma arange_length n : length (Np.arange n) = n.
Proof. unfold Np.arange. now rewrite length_map, length_seq. Qed.

Lemma rate_and_axis_length st fs axis :
  length (Fft.t st) = Fft.N cfg ->
  Fft.rate_and_axis cfg st = Ok (fs, axis) -> length axis = Fft.N cfg.
Proof.
  intros Ht. unfold Fft.rate_and_axis.
  destruct (Fft.have_timestamps st).
  - destruct (Py.getitem_last (Fft.t st)) as [t_last|e]; cbn [bind];
      [|discriminate].
    intros [= _ <-]. now rewrite subtract_scalar_length.
  - intros [= _ <-]. now rewrite length_map, arange_length.
Qed.

Lemma freq_axis_length fs freqs :
  Fft.freq_axis cfg fs = Ok freqs -> length freqs = Fft.N cfg / 2 + 1.
Proof.
  unfold Fft.freq_axis, Np.rfftfreq.
  destruct (Py.reciprocal fs) as [d|e]; cbn [bind]; [|discriminate].
  destruct (Py.reciprocal (Py.mul_length (Fft.N cfg) d)) as [val|e];
    cbn [bind]; [|discriminate].
  intros [= <-]. now rewrite length_map, arange_length.
Qed.

(** The fallback branch of lines 152-156. *)
Lemma refresh_fallback st snap :
  Fft.have_timestamps st = false ->
  Fft.refresh cfg st = Ok snap ->
  Fft.fs snap = Fft.FS_FALLBACK cfg
  /\ Fft.time_axis snap
     = map (fun i => (i / Fft.FS_FALLBACK cfg)%float) (Np.arange (Fft.N cfg)).
Proof.
  intros Hf Hr. destruct (refresh_inv _ Hr) as [fs [X [Ha [_ [_ [_ [Hfs _]]]]]]].
  unfold Fft.rate_and_axis in Ha. rewrite Hf in Ha.
  injection Ha as <- <-. now split.
Qed.

Lemma snapshot_lengths st :
  Ref.well_formed cfg st ->
  exists snap,
    Fft.refresh cfg st = Ok snap
    /\ length (Fft.time_axis snap) = Fft.N cfg
    /\ length (Fft.time_data snap) = Fft.N cfg
    /\ length (Fft.freqs snap) = Fft.N cfg / 2 + 1
    /\ length (Fft.mag snap) = Fft.N cfg / 2 + 1.
Proof.
  intros [Hx [Ht [Hn Hst]]].
  destruct (@refresh_scaled L cfg st Hx Ht Hn Hst) as [X [snap [HX [Hr Hs]]]].
  exists snap. split; [exact Hr|].
  destruct (refresh_inv _ Hr) as [fs [X' [Ha [_ [Hf [_ [_ Hd]]]]]]].
  split; [now apply (rate_and_axis_length st Ht Ha)|].
  split; [now rewrite Hd|].
  split; [now apply (freq_axis_length _ Hf)|].
  now destruct Hs as [_ [Hm _]].
Qed.

End Snapshot.

(** X12. Every refresh hands the plot curves of matching lengths.  In
    [fft.py], on buffers of the configured length [N > 0] and in either
    timing mode, the time axis and the time-domain curve have [N]
    points, the frequency axis and the magnitudes [N/2 + 1]; in
    [fft2.py] the time-domain curve has [N] points and the magnitudes
    [N/2 + 1], as many as the time axis and the frequency axis that
    were fixed at start-up. *)
Theorem snapshot_shapes (L : Np.Library) :
  (forall (cfg : Fft.config) (st : Fft.state),
      Ref.well_formed cfg st ->
      exists snap,
        Fft.refresh cfg st = Ok snap
        /\ length (Fft.time_axis snap) = Fft.N cfg
        /\ length (Fft.time_data snap) = Fft.N cfg
        /\ length (Fft.freqs snap) = Fft.N cfg / 2 + 1
        /\ length (Fft.mag snap) = Fft.N cfg / 2 + 1)
  /\ (forall (cfg : Fft2.config) (buf : list float),
        length buf = Fft2.N cfg -> 0 < Fft2.N cfg ->
        exists snap,
          Fft2.refresh cfg buf = Ok snap
          /\ length (Fft2.time_data snap) = length (Fft2.t_axis cfg)
          /\ length (Fft2.time_data snap) = Fft2.N cfg
          /\ length (Fft2.mag snap) = Fft2.N cfg / 2 + 1
          /\ forall f_axis,
               Fft2.f_axis cfg = Ok f_axis ->
               length (Fft2.mag snap) = length f_axis).
Proof.
  split.
  - intros cfg st Hwf. now apply snapshot_lengths.
  - intros cfg buf Hb Hn.
    destruct (@refresh2_scaled L cfg buf Hb Hn) as [X [snap [_ [Hr Hs]]]].
    exists snap. split; [exact Hr|].
    rewrite (@refresh2_time_data L cfg buf snap Hr).
    destruct Hs as [_ [Hm _]].
    split; [unfold Fft2.t_axis; now rewrite length_map, arange_length|].
    split; [exact Hb|]. split; [exact Hm|].
    intros f_axis Hf. rewrite Hm. revert Hf.
    unfold Fft2.f_axis, Np.rfftfreq.
    destruct (Py.reciprocal _) as [d|e]; cbn [bind]; [|discriminate].
    destruct (Py.reciprocal _) as [val|e]; cbn [bind]; [|discriminate].
    intros [= <-]. now rewrite length_map, arange_length.
Qed.

Lemma snapshot_shapes_witness :
  exists snap,
    Fft.refresh (L := Np.flat) (Ref.small 2) (Fft.init (Ref.small 2)) = Ok snap
    /\ length (Fft.time_axis snap) = 2
    /\ length (Fft.mag snap) = 2.
Proof.
  destruct (proj1 (snapshot_shapes Np.flat) (Ref.small 2)
              (Fft.init (Ref.small 2)) (small_well_formed 2))
    as [snap [Hr [Ha [_ [_ Hm]]]]].
  exists snap. split; [exact Hr|]. split; [exact Ha | exact Hm].
Defined.

(** ** The first timestamps (fft.py, lines 81 and 143-145) *)

Section WarmUp.
Context {py : Py.Interpreter} {L : Np.Library}.
Variable cfg : Fft.config.

(** A buffer of zeros followed by [l] has at most [length l] valid
    deltas: a delta between two zeros is not positive. *)
Lemma valid_deltas_zeros m l :
  length (filter Ref.valid_delta (Np.diff (repeat 0%float m ++ l)))
  <= length l.
Proof.
  induction m as [|m IH].
  - cbn [repeat app].
    pose proof (filter_length_le Ref.valid_delta (Np.diff l)) as H.
    rewrite diff_length in H. lia.
  - destruct m as [|m].
    + cbn [repeat app]. destruct l as [|b l]; [cbn; lia|].
      rewrite diff_cons2.
      pose proof (filter_length_le Ref.valid_delta
                    ((b - 0)%float :: Np.diff (b :: l))) as H.
      cbn [length] in H. rewrite diff_length in H. cbn [length] in *. lia.
    + change (repeat 0%float (S (S m)) ++ l)
        with (0%float :: 0%float :: (repeat 0%float m ++ l)).
      rewrite diff_cons2.
      change (0%float :: repeat 0%float m ++ l)
        with (repeat 0%float (S m) ++ l).
      change (filter Ref.valid_delta
                ((0 - 0)%float :: Np.diff (repeat 0%float (S m) ++ l)))
        with (filter Ref.valid_delta (Np.diff (repeat 0%float (S m) ++ l))).
      exact IH.
Qed.

Lemma estimate_fs_warm m l :
  length l <= 10 ->
  Fft.estimate_fs cfg (repeat 0%float m ++ l)
  = Py.PyFloat (Fft.FS_FALLBACK cfg).
Proof.
  intros Hl. unfold Fft.estimate_fs. rewrite select_valid.
  pose proof (valid_deltas_zeros m l) as H.
  destruct (Nat.ltb_spec 10
              (length (filter Ref.valid_delta
                         (Np.diff (repeat 0%float m ++ l))))) as [Hlt|_];
    [lia | reflexivity].
Qed.

(** The timestamp buffer is a run of zeros followed by at most [c]
    values. *)
Lemma accept_warm st s c :
  (exists m l, Fft.t st = repeat 0%float m ++ l /\ length l <= c) ->
  exists m l,
    Fft.t (Ref.accept cfg st s) = repeat 0%float m ++ l
    /\ length l <= c + length (Ref.stamps [s]).
Proof.
  intros [m [l [Ht Hl]]]. destruct s as [[ts|] v];
    cbn [Ref.accept Fft.t fst Ref.stamps length].
  - rewrite Ht. destruct m as [|m].
    + exists 0, (tl l ++ [ts]). split; [reflexivity|].
      rewrite length_app. cbn [length]. destruct l; cbn [tl length] in *; lia.
    + exists m, (l ++ [ts]). cbn [repeat app tl].
      split; [now rewrite app_assoc|]. rewrite length_app. cbn [length]. lia.
  - exists m, l. split; [exact Ht | lia].
Qed.

Lemma refresh_warm st snap c :
  (exists m l, Fft.t st = repeat 0%float m ++ l /\ length l <= c) ->
  c <= 10 ->
  Fft.refresh cfg st = Ok snap -> Fft.fs snap = Fft.FS_FALLBACK cfg.
Proof.
  intros [m [l [Ht Hl]]] Hc Hr.
  destruct (Fft.have_timestamps st) eqn:Hf.
  - destruct (@refresh_uses_timestamps L cfg st snap Hf Hr) as [-> _].
    rewrite Ht, estimate_fs_warm by lia. reflexivity.
  - now destruct (@refresh_fallback L cfg st snap Hf Hr).
Qed.

Lemma run_warm lines : forall st st' snaps ss c,
  (exists m l, Fft.t st = repeat 0%float m ++ l /\ length l <= c) ->
  Fft.run cfg st lines = Ok (st', snaps) ->
  Ref.samples cfg lines = Ok ss ->
  c + length (Ref.stamps ss) <= 10 ->
  Forall (fun snap => Fft.fs snap = Fft.FS_FALLBACK cfg) snaps
  /\ exists m l,
       Fft.t st' = repeat 0%float m ++ l
       /\ length l <= c + length (Ref.stamps ss).
Proof.
  induction lines as [|raw lines IH]; intros st st' snaps ss c Hi Hr Hs Hc.
  - cbn in Hr, Hs. injection Hr as <- <-. injection Hs as <-.
    split; [constructor|]. destruct Hi as [m [l [Ht Hl]]].
    exists m, l. split; [exact Ht | lia].
  - cbn [Fft.run Ref.samples] in Hr, Hs.
    destruct (Fft.step cfg st raw) as [[st1 out]|e] eqn:Est; cbn [bind] in Hr;
      [|discriminate].
    destruct (Fft.run cfg st1 lines) as [[st2 outs]|e] eqn:Erun;
      cbn [bind] in Hr; [|discriminate].
    injection Hr as <- <-.
    destruct (@step_inv py L cfg st raw st1 out Est)
      as [[Hd [-> ->]] | [s [Hd [-> Hout]]]];
      rewrite Hd in Hs; cbn [bind] in Hs;
      destruct (Ref.samples cfg lines) as [rest|e] eqn:Er; cbn [bind] in Hs;
      try discriminate; injection Hs as <-.
    + exact (IH _ _ _ _ c Hi Erun eq_refl Hc).
    + pose proof (@accept_warm st s c Hi) as Hi1.
      assert (Hst : length (Ref.stamps (s :: rest))
                    = length (Ref.stamps [s]) + length (Ref.stamps rest)).
      { destruct s as [[ts|] v]; reflexivity. }
      rewrite Hst in Hc |- *.
      destruct (IH _ _ _ _ (c + length (Ref.stamps [s])) Hi1 Erun eq_refl
                  ltac:(lia)) as [Hall [m [l [Ht Hl]]]].
      split.
      * destruct out as [snap|]; [|exact Hall].
        constructor; [|exact Hall].
        apply (@refresh_warm (Ref.accept cfg st s) snap
                 (c + length (Ref.stamps [s])) Hi1);
          [lia | now apply Hout].
      * exists m, l. split; [exact Ht | lia].
Qed.

End WarmUp.

(** X13. The rate estimate of [fft.py] needs more than ten timestamps
    to leave the fallback: the timestamp buffer starts as zeros, a delta
    between two zeros is not positive and is dropped, so from the start
    of the program, over lines that decode and carry at most ten
    timestamps between them, every refresh reports the rate
    [FS_FALLBACK], and so would one after the last line. *)
Theorem estimator_warm_up (py : Py.Interpreter) (L : Np.Library)
    (cfg : Fft.config) (lines : list string)
    (ss : list (option float * float)) :
  Ref.well_formed cfg (Fft.init cfg) ->
  Ref.samples cfg lines = Ok ss ->
  length (Ref.stamps ss) <= 10 ->
  exists st' snaps,
    Fft.run cfg (Fft.init cfg) lines = Ok (st', snaps)
    /\ Forall (fun snap => Fft.fs snap = Fft.FS_FALLBACK cfg) snaps
    /\ Fft.estimate_fs cfg (Fft.t st') = Py.PyFloat (Fft.FS_FALLBACK cfg).
Proof.
  intros Hwf Hs Hc.
  destruct (run_samples lines Hwf Hs) as [snaps Hr].
  eexists _, snaps. split; [exact Hr|].
  assert (Hi : exists m l,
             Fft.t (Fft.init cfg) = repeat 0%float m ++ l /\ length l <= 0).
  { exists (Fft.N cfg), []. split; [|cbn; lia].
    cbn [Fft.init Fft.t]. unfold Np.zeros. now rewrite app_nil_r. }
  destruct (@run_warm py L cfg lines _ _ snaps ss 0 Hi Hr Hs Hc)
    as [Hall [m [l [Ht Hl]]]].
  split; [exact Hall|]. rewrite Ht. apply estimate_fs_warm.
  cbn [Nat.add] in Hl. lia.
Qed.

Lemma estimator_warm_up_witness :
  exists st' snaps,
    Fft.run (py := Py.cpython) (L := Np.flat) (Ref.small 2)
      (Fft.init (Ref.small 2))
      ["1000,1"; "1001,2"; "x"; "1002,3"; "1003,4"]%string = Ok (st', snaps)
    /\ Forall (fun snap => Fft.fs snap = 1000%float) snaps.
Proof.
  assert (Hs : exists ss,
             Ref.samples (py := Py.cpython) (Ref.small 2)
               ["1000,1"; "1001,2"; "x"; "1002,3"; "1003,4"]%string = Ok ss
             /\ length (Ref.stamps ss) = 4)
    by (vm_compute; eexists; split; reflexivity).
  destruct Hs as [ss [Hs Hk]].
  destruct (@estimator_warm_up Py.cpython Np.flat _ _ _
              (small_well_formed 2) Hs)
    as [st' [snaps [Hr [Hall _]]]].
  - rewrite Hk. repeat constructor.
  - exists st', snaps. split; [exact Hr | exact Hall].
Defined.

(** ** The counter of synthesized time (fft.py, lines 86 and 133) *)

Section SampleCount.
Context {py : Py.Interpreter} {L : Np.Library}.
Variable cfg : Fft.config.

Lemma refresh_live st1 st2 :
  Ref.live st1 = Ref.live st2 -> Fft.refresh cfg st1 = Fft.refresh cfg st2.
Proof.
  destruct st1, st2. unfold Ref.live. cbn. now intros [= -> -> -> ->].
Qed.

Lemma step_live st1 st2 raw :
  Ref.live st1 = Ref.live st2 ->
  match Fft.step cfg st1 raw, Fft.step cfg st2 raw with
  | Ok (a, o1), Ok (b, o2) => Ref.live a = Ref.live b /\ o1 = o2
  | Raise e1, Raise e2 => e1 = e2
  | _, _ => False
  end.
Proof.
  intros H. pose proof H as H'. revert H'.
  destruct st1 as [x1 t1 f1 c1 n1], st2 as [x2 t2 f2 c2 n2].
  unfold Ref.live at 1 2. cbn [Fft.x Fft.t Fft.have_timestamps Fft.new_samples].
  intros [= -> -> -> ->]. clear H. unfold Fft.step.
  destruct (Fft.parse_line raw) as [[t_s [adc|]]|e]; cbn [bind];
    [|now split|reflexivity].
  destruct (Fft.adc_to_volts cfg adc) as [v|e]; cbn [bind]; [|reflexivity].
  cbn [Fft.x].
  destruct (Window.set_last (Window.shift_left x2) v) as [xa|e]; cbn [bind];
    [|reflexivity].
  destruct t_s as [ts|]; cbn [Fft.t].
  - destruct (Window.set_last (Window.shift_left t2) ts) as [ta|e];
      cbn [bind]; [|reflexivity].
    cbn [Fft.x Fft.t Fft.have_timestamps Fft.sample_count Fft.new_samples].
    destruct (Fft.HOP cfg <=? n2 + 1).
    + rewrite (@refresh_live
                 {| Fft.x := xa; Fft.t := ta; Fft.have_timestamps := true;
                    Fft.sample_count := c1; Fft.new_samples := 0 |}
                 {| Fft.x := xa; Fft.t := ta; Fft.have_timestamps := true;
                    Fft.sample_count := c2; Fft.new_samples := 0 |} eq_refl).
      destruct (Fft.refresh cfg _) as [snap|e]; cbn [bind];
        [now split | reflexivity].
    + now split.
  - cbn [bind Fft.x Fft.t Fft.have_timestamps Fft.sample_count
         Fft.new_samples].
    destruct (Fft.HOP cfg <=? n2 + 1).
    + rewrite (@refresh_live
                 {| Fft.x := xa; Fft.t := t2; Fft.have_timestamps := f2;
                    Fft.sample_count := c1 + 1; Fft.new_samples := 0 |}
                 {| Fft.x := xa; Fft.t := t2; Fft.have_timestamps := f2;
                    Fft.sample_count := c2 + 1; Fft.new_samples := 0 |}
                 eq_refl).
      destruct (Fft.refresh cfg _) as [snap|e]; cbn [bind];
        [now split | reflexivity].
    + now split.
Qed.

Lemma run_live lines : forall st1 st2,
  Ref.live st1 = Ref.live st2 ->
  Ref.shown (Fft.run cfg st1 lines) = Ref.shown (Fft.run cfg st2 lines).
Proof.
  induction lines as [|raw lines IH]; intros st1 st2 H.
  - cbn. now rewrite H.
  - cbn [Fft.run]. pose proof (step_live raw H) as Hs.
    destruct (Fft.step cfg st1 raw) as [[a o1]|e1],
             (Fft.step cfg st2 raw) as [[b o2]|e2]; try contradiction.
    + destruct Hs as [Hl ->]. cbn [bind]. specialize (IH a b Hl).
      destruct (Fft.run cfg a lines) as [[a' s1]|e1],
               (Fft.run cfg b lines) as [[b' s2]|e2];
        cbn [bind Ref.shown] in *; try discriminate.
      * assert (E : Ref.live a' = Ref.live b' /\ s1 = s2)
          by (split; congruence).
        destruct E as [-> ->]. reflexivity.
      * exact IH.
    + subst e2. reflexivity.
Qed.

(** A bare sample is counted. *)
Lemma accept_sample_count st s :
  Fft.sample_count (Ref.accept cfg st s)
  = Fft.sample_count st + (length [s] - length (Ref.stamps [s])).
Proof. destruct s as [[ts|] v]; cbn; lia. Qed.

End SampleCount.

(** X14. [sample_count] of [fft.py] is written but never read: two runs
    over the same lines from states that differ in [sample_count] only
    end in the same exception, or draw the same snapshots and leave the
    same buffers, flag and hop counter.  The synthesized time it was
    meant for plays no part in what is plotted. *)
Theorem sample_count_never_read (py : Py.Interpreter) (L : Np.Library)
    (cfg : Fft.config) (st1 st2 : Fft.state) (lines : list string) :
  Ref.live st1 = Ref.live st2 ->
  Ref.shown (Fft.run cfg st1 lines) = Ref.shown (Fft.run cfg st2 lines).
Proof. intros H. now apply run_live. Qed.

Lemma sample_count_never_read_witness :
  Ref.shown (Fft.run (py := Py.cpython) (L := Np.flat) (Ref.small 2)
               (Fft.init (Ref.small 2)) ["1"; "2"; "7,3"]%string)
  = Ref.shown (Fft.run (py := Py.cpython) (L := Np.flat) (Ref.small 2)
                 {| Fft.x := Np.zeros 2; Fft.t := Np.zeros 2;
                    Fft.have_timestamps := false;
                    Fft.sample_count := 41; Fft.new_samples := 0 |}
                 ["1"; "2"; "7,3"]%string).
Proof.
  apply (@sample_count_never_read Py.cpython Np.flat (Ref.small 2)
           (Fft.init (Ref.small 2))
           {| Fft.x := Np.zeros 2; Fft.t := Np.zeros 2;
              Fft.have_timestamps := false;
              Fft.sample_count := 41; Fft.new_samples := 0 |}).
  reflexivity.
Defined.

(** ** Input without timestamps (fft.py, lines 131-133 and 152-156) *)

Section BareMode.
Context {py : Py.Interpreter} {L : Np.Library}.
Variable cfg : Fft.config.

Lemma stamps_cons_nil s rest :
  Ref.stamps (s :: rest) = [] -> fst s = None /\ Ref.stamps rest = [].
Proof. destruct s as [[ts|] v]; cbn; [discriminate | now split]. Qed.

Lemma accept_bare st s :
  fst s = None ->
  Fft.t (Ref.accept cfg st s) = Fft.t st
  /\ Fft.have_timestamps (Ref.accept cfg st s) = Fft.have_timestamps st
  /\ Fft.sample_count (Ref.accept cfg st s) = Fft.sample_count st + 1.
Proof. unfold Ref.accept. cbn. now intros ->. Qed.

Lemma run_bare lines : forall st st' snaps ss,
  Fft.have_timestamps st = false ->
  Fft.run cfg st lines = Ok (st', snaps) ->
  Ref.samples cfg lines = Ok ss ->
  Ref.stamps ss = [] ->
  Fft.t st' = Fft.t st
  /\ Fft.have_timestamps st' = false
  /\ Fft.sample_count st' = Fft.sample_count st + length ss
  /\ Forall (fun snap =>
               Fft.fs snap = Fft.FS_FALLBACK cfg
               /\ Fft.time_axis snap
                  = map (fun i => (i / Fft.FS_FALLBACK cfg)%float)
                      (Np.arange (Fft.N cfg))) snaps.
Proof.
  induction lines as [|raw lines IH]; intros st st' snaps ss Hf Hr Hs Hb.
  - cbn in Hr, Hs. injection Hr as <- <-. injection Hs as <-.
    cbn [length]. rewrite Nat.add_0_r. now repeat split.
  - cbn [Fft.run Ref.samples] in Hr, Hs.
    destruct (Fft.step cfg st raw) as [[st1 out]|e] eqn:Est; cbn [bind] in Hr;
      [|discriminate].
    destruct (Fft.run cfg st1 lines) as [[st2 outs]|e] eqn:Erun;
      cbn [bind] in Hr; [|discriminate].
    injection Hr as <- <-.
    destruct (@step_inv py L cfg st raw st1 out Est)
      as [[Hd [-> ->]] | [s [Hd [-> Hout]]]];
      rewrite Hd in Hs; cbn [bind] in Hs;
      destruct (Ref.samples cfg lines) as [rest|e] eqn:Er; cbn [bind] in Hs;
      try discriminate; injection Hs as <-.
    + exact (IH _ _ _ _ Hf Erun eq_refl Hb).
    + destruct (stamps_cons_nil _ _ Hb) as [Hn Hb'].
      destruct (accept_bare st s Hn) as [Ht [Hfl Hc]].
      assert (Hf1 : Fft.have_timestamps (Ref.accept cfg st s) = false)
        by now rewrite Hfl.
      destruct (IH _ _ _ _ Hf1 Erun eq_refl Hb') as [Ht' [Hf' [Hc' Hall]]].
      split; [now rewrite Ht'|]. split; [exact Hf'|].
      split; [rewrite Hc', Hc; cbn [length]; lia|].
      destruct out as [snap|]; [|exact Hall].
      constructor; [|exact Hall].
      apply (@refresh_fallback L cfg (Ref.accept cfg st s) snap Hf1).
      now apply Hout.
Qed.

End BareMode.

(** X15. As long as no line carries a timestamp, [fft.py] stays in its
    fallback timing: from a well-formed state with [have_timestamps]
    unset and over lines that decode to bare samples only, the loop runs
    through, the timestamp buffer is never written, the flag stays
    unset, [sample_count] grows by one per sample, and every refresh
    reports the rate [FS_FALLBACK] on the time axis
    [arange(N) / FS_FALLBACK]. *)
Theorem bare_input_uses_fallback (py : Py.Interpreter) (L : Np.Library)
    (cfg : Fft.config) (st : Fft.state) (lines : list string)
    (ss : list (option float * float)) :
  Ref.well_formed cfg st ->
  Fft.have_timestamps st = false ->
  Ref.samples cfg lines = Ok ss ->
  Ref.stamps ss = [] ->
  exists st' snaps,
    Fft.run cfg st lines = Ok (st', snaps)
    /\ Fft.t st' = Fft.t st
    /\ Fft.have_timestamps st' = false
    /\ Fft.sample_count st' = Fft.sample_count st + length ss
    /\ Forall (fun snap =>
                 Fft.fs snap = Fft.FS_FALLBACK cfg
                 /\ Fft.time_axis snap
                    = map (fun i => (i / Fft.FS_FALLBACK cfg)%float)
                        (Np.arange (Fft.N cfg))) snaps.
Proof.
  intros Hwf Hf Hs Hb.
  destruct (run_samples lines Hwf Hs) as [snaps Hr].
  eexists _, snaps. split; [exact Hr|].
  exact (@run_bare py L cfg lines st _ snaps ss Hf Hr Hs Hb).
Qed.

Lemma bare_input_uses_fallback_witness :
  exists st' snaps,
    Fft.run (py := Py.cpython) (L := Np.flat) (Ref.small 2)
      (Fft.init (Ref.small 2)) ["1"; "2"; ""; "3"; "4"]%string
    = Ok (st', snaps)
    /\ Fft.t st' = Np.zeros 2
    /\ Fft.have_timestamps st' = false
    /\ Fft.sample_count st' = 4.
Proof.
  assert (Hs : exists ss,
             Ref.samples (py := Py.cpython) (Ref.small 2)
               ["1"; "2"; ""; "3"; "4"]%string = Ok ss
             /\ Ref.stamps ss = [] /\ length ss = 4)
    by (vm_compute; eexists; repeat split; reflexivity).
  destruct Hs as [ss [Hs [Hb Hk]]].
  destruct (@bare_input_uses_fallback Py.cpython Np.flat _ _ _ _
              (small_well_formed 2) eq_refl Hs Hb)
    as [st' [snaps [Hr [Ht [Hf [Hc _]]]]]].
  rewrite Hk in Hc.
  exists st', snaps. split; [exact Hr|]. split; [exact Ht|].
  split; [exact Hf | exact Hc].
Defined.

(** ** The relative time axis (fft.py, lines 147-151) *)

Section RelativeTime.

Lemma is_finite_spec x :
  is_finite x = match Prim2SF x with
                | S754_zero _ | S754_finite _ _ _ => true
                | _ => false
                end.
Proof.
  unfold is_finite.
  assert (Hn : is_nan x = match Prim2SF x with
                          | S754_nan => true
                          | _ => false
                          end).
  { destruct (is_nan x) eqn:E.
    - apply is_nan_spec in E. now rewrite E.
    - destruct (Prim2SF x) eqn:Ep; try reflexivity.
      apply is_nan_spec in Ep. congruence. }
  rewrite Hn. unfold is_infinity. rewrite eqb_spec, abs_spec.
  now destruct (Prim2SF x) as [s|[|]| |s m e].
Qed.

Lemma SFsub_self x :
  SF64sub x x = match x with
                | S754_zero _ | S754_finite _ _ _ => S754_zero false
                | _ => S754_nan
                end.
Proof.
  destruct x as [[|]|[|]| |s m e]; try reflexivity.
  unfold SF64sub, SFsub. rewrite Z.min_id. unfold shl_align.
  rewrite Z.sub_diag. cbn [fst]. rewrite ?Z.sub_diag. reflexivity.
Qed.

Lemma sub_self_finite x : is_finite x = true -> (x - x)%float = 0%float.
Proof.
  rewrite is_finite_spec. intros H.
  rewrite <- (SF2Prim_Prim2SF (x - x)), sub_spec, SFsub_self.
  now destruct (Prim2SF x).
Qed.

Lemma sub_self_not_finite x :
  is_finite x = false -> is_nan (x - x)%float = true.
Proof.
  rewrite is_finite_spec. intros H.
  apply is_nan_spec. rewrite sub_spec, SFsub_self.
  now destruct (Prim2SF x).
Qed.

Lemma getitem_last_map (A B : Type) (f : A -> B) l v :
  Py.getitem_last l = Ok v -> Py.getitem_last (map f l) = Ok (f v).
Proof.
  unfold Py.getitem_last. rewrite <- map_rev.
  destruct (rev l) as [|a r]; [discriminate|]. now intros [= <-].
Qed.

End RelativeTime.

(** X16. In timestamp mode the time axis of [fft.py] is relative to the
    newest timestamp, so it ends at zero: on a well-formed state with
    [have_timestamps] set the refresh succeeds and the last point of its
    time axis is [t[-1] - t[-1]], which is [0.0] whenever the newest
    timestamp is finite; it is NaN when that timestamp is infinite or
    NaN. *)
Theorem newest_sample_at_zero (L : Np.Library) (cfg : Fft.config)
    (st : Fft.state) :
  Ref.well_formed cfg st ->
  Fft.have_timestamps st = true ->
  exists snap t_last,
    Fft.refresh cfg st = Ok snap
    /\ Py.getitem_last (Fft.t st) = Ok t_last
    /\ Py.getitem_last (Fft.time_axis snap) = Ok (t_last - t_last)%float
    /\ (is_finite t_last = true -> (t_last - t_last)%float = 0%float)
    /\ (is_finite t_last = false -> is_nan (t_last - t_last)%float = true).
Proof.
  intros Hwf Hf. destruct (refresh_ok Hwf) as [snap Hr].
  destruct (@refresh_uses_timestamps L cfg st snap Hf Hr)
    as [_ [t_last [Hl Ha]]].
  exists snap, t_last. split; [exact Hr|]. split; [exact Hl|].
  split.
  - rewrite Ha. unfold Np.subtract_scalar.
    exact (getitem_last_map (fun v => (v - t_last)%float) _ Hl).
  - split; [apply sub_self_finite | apply sub_self_not_finite].
Qed.

Lemma newest_sample_at_zero_witness :
  exists snap,
    Fft.refresh (L := Np.flat) (Ref.small 2)
      {| Fft.x := [1; 2]%float; Fft.t := [0.5; 0.75]%float;
         Fft.have_timestamps := true;
         Fft.sample_count := 0; Fft.new_samples := 0 |} = Ok snap
    /\ Py.getitem_last (Fft.time_axis snap) = Ok 0%float.
Proof.
  assert (Hwf : Ref.well_formed (Ref.small 2)
                  {| Fft.x := [1; 2]%float; Fft.t := [0.5; 0.75]%float;
                     Fft.have_timestamps := true;
                     Fft.sample_count := 0; Fft.new_samples := 0 |}).
  { destruct (small_well_formed 2) as [_ [_ [Hn Hst]]].
    split; [reflexivity|]. split; [reflexivity|]. split; [exact Hn | exact Hst]. }
  destruct (@newest_sample_at_zero Np.flat _ _ Hwf eq_refl)
    as [snap [t_last [Hr [Hl [Ha [H0 _]]]]]].
  exists snap. split; [exact Hr|].
  assert (Ht : t_last = 0.75%float).
  { symmetry.
    exact (f_equal (fun r => match r with
                             | Ok v => v
                             | Raise _ => 0%float
                             end) Hl). }
  rewrite Ha, H0; [reflexivity|]. rewrite Ht. reflexivity.
Defined.

(** ** The values in the window of fft2.py (lines 51-56) *)

Section Counts.
Context {L : Np.Library}.
Variable cfg : Fft2.config.

Lemma zero_is_count : Ref.is_count 0%float.
Proof. exists 0%Z. split; [lia | reflexivity]. Qed.

Lemma consume_keeps (P : float -> Prop) data : forall buf new buf' new' snaps,
  Forall P buf -> Forall P (map Py.Z2float data) ->
  Fft2.consume cfg buf new data = Ok (buf', new', snaps) ->
  Forall P buf' /\ Forall (fun snap => Forall P (Fft2.time_data snap)) snaps.
Proof.
  induction data as [|s data IH]; intros buf new buf' new' snaps Hb Hd Hc.
  - cbn in Hc. injection Hc as <- <- <-. now split.
  - cbn [Fft2.consume] in Hc. cbn [map] in Hd. inversion Hd as [|? ? Hs Hd']; subst.
    destruct (Window.push buf (Py.Z2float s)) as [buf1|e] eqn:Ep;
      cbn [bind] in Hc; [|discriminate].
    apply push_inv in Ep.
    assert (Hb1 : Forall P buf1).
    { subst buf1. apply Forall_app. split.
      - destruct buf as [|a buf]; [constructor|]. now inversion Hb.
      - now constructor. }
    destruct (Fft2.HOP cfg <=? new + 1).
    + destruct (Fft2.refresh cfg buf1) as [snap|e] eqn:Er; cbn [bind] in Hc;
        [|discriminate].
      destruct (Fft2.consume cfg buf1 0 data) as [[[buf2 new2] snaps2]|e]
        eqn:Ec; cbn [bind] in Hc; [|discriminate].
      injection Hc as <- <- <-.
      destruct (IH _ _ _ _ _ Hb1 Hd' Ec) as [H1 H2].
      split; [exact H1|]. constructor; [|exact H2].
      now rewrite (@refresh2_time_data L cfg buf1 snap Er).
    + exact (IH _ _ _ _ _ Hb1 Hd' Hc).
Qed.

End Counts.

(** X17. The window of [fft2.py] holds raw converter counts and nothing
    else: started from zeros (or from any window of such values), after
    any chunks every cell of the window, and every point of every
    time-domain curve drawn on the way, is the [float] of an integer
    from [0] to [65535]; no scaling to volts takes place. *)
Theorem window_holds_counts (L : Np.Library) (cfg : Fft2.config)
    (st : Fft2.state) (chunks : list (list byte)) :
  length (Fft2.pending st) <= 1 ->
  length (Fft2.buf st) = Fft2.N cfg -> 0 < Fft2.N cfg ->
  Forall Ref.is_count (Fft2.buf st) ->
  Forall Ref.is_count (Fft2.buf (Fft2.init cfg))
  /\ exists st' data snaps,
      Fft2.run cfg st chunks = Ok (st', data, snaps)
      /\ Forall Ref.is_count (Fft2.buf st')
      /\ Forall (fun snap => Forall Ref.is_count (Fft2.time_data snap)) snaps.
Proof.
  intros Hp Hb Hn Hc. split.
  - cbn [Fft2.init Fft2.buf]. unfold Np.zeros. apply Forall_forall.
    intros v Hv. apply repeat_spec in Hv. subst v. apply zero_is_count.
  - destruct (@read_at_once_ok L cfg st (concat chunks) Hb Hn)
      as [st' [snaps [Hr _]]].
    exists st', (Ref.words (Fft2.pending st ++ concat chunks)), snaps.
    rewrite run_at_once by assumption. split; [exact Hr|].
    unfold Ref.read_at_once in Hr.
    destruct (Fft2.consume cfg (Fft2.buf st) (Fft2.new st)
                (Ref.words (Fft2.pending st ++ concat chunks)))
      as [[[buf1 new1] snaps1]|e] eqn:Ec; cbn [bind] in Hr; [|discriminate].
    injection Hr as <- <-. cbn [Fft2.buf].
    apply (@consume_keeps L cfg Ref.is_count
             (Ref.words (Fft2.pending st ++ concat chunks))
             (Fft2.buf st) (Fft2.new st) buf1 new1 snaps1 Hc); [|exact Ec].
    apply Forall_map.
    eapply Forall_impl; [|apply words_range]. intros k Hk. now exists k.
Qed.

Lemma window_holds_counts_witness :
  exists st' data snaps,
    Fft2.run (L := Np.flat) (Ref.small2 2) (Fft2.init (Ref.small2 2))
      [["001"%byte; "000"%byte; "255"%byte]; ["255"%byte; "007"%byte]]
    = Ok (st', data, snaps)
    /\ Forall Ref.is_count (Fft2.buf st').
Proof.
  destruct (@window_holds_counts Np.flat (Ref.small2 2)
              (Fft2.init (Ref.small2 2))
              [["001"%byte; "000"%byte; "255"%byte]; ["255"%byte; "007"%byte]]
              (Nat.le_0_l 1) eq_refl (Nat.lt_0_succ 1))
    as [_ [st' [data [snaps [Hr [Hc _]]]]]].
  - repeat constructor; exists 0%Z; (split; [lia | reflexivity]).
  - exists st', data, snaps. split; [exact Hr | exact Hc].
Defined.

(** ** Where an iteration of fft.py can fail *)

Section Failures.
Context {py : Py.Interpreter} {L : Np.Library}.
Variable cfg : Fft.config.

Lemma int_truediv_raises a b e :
  Py.int_truediv a b = Raise e ->
  e = OverflowError \/ (e = ZeroDivisionError /\ b = 0%Z).
Proof.
  unfold Py.int_truediv. destruct (Z.eqb_spec b 0) as [->|Hb].
  - intros [= <-]. now right.
  - destruct (a =? 0)%Z; [discriminate|].
    destruct (SFdiv_core_binary _ _ _ _ _ _) as [[q ex] l].
    destruct (is_infinity _); [|discriminate]. intros [= <-]. now left.
Qed.

Lemma decode_raises raw e :
  Ref.decode cfg raw = Raise e ->
  e = OverflowError \/ (e = ZeroDivisionError /\ Fft.ADC_BITS cfg = 0).
Proof.
  unfold Ref.decode. rewrite parse_line_classify.
  assert (Hv : forall a e',
             Fft.adc_to_volts cfg a = Raise e' ->
             e' = OverflowError
             \/ (e' = ZeroDivisionError /\ Fft.ADC_BITS cfg = 0)).
  { intros a e'. unfold Fft.adc_to_volts.
    destruct (Py.int_truediv a _) as [q|e0] eqn:Eq; cbn [bind];
      [discriminate|].
    intros [= <-]. destruct (int_truediv_raises _ _ Eq) as [->|[-> Hz]];
      [now left | right]. split; [reflexivity|].
    apply full_scale_zero. now apply Z.eqb_eq. }
  destruct (Ref.classify raw) as [|a|t_ms a|]; cbn [bind]; try discriminate.
  - destruct (Fft.adc_to_volts cfg a) as [v|e0] eqn:Ev; cbn [bind];
      [discriminate|]. intros [= <-]. now apply (Hv a).
  - rewrite int_truediv_float_1000.
    destruct (is_infinity (Py.Z2float t_ms)); cbn [bind].
    + intros [= <-]. now left.
    + destruct (Fft.adc_to_volts cfg a) as [v|e0] eqn:Ev; cbn [bind];
        [discriminate|]. intros [= <-]. now apply (Hv a).
Qed.

Lemma step_decode_raises st raw e :
  Ref.decode cfg raw = Raise e -> Fft.step cfg st raw = Raise e.
Proof.
  unfold Ref.decode, Fft.step.
  destruct (Fft.parse_line raw) as [[t_s [adc|]]|e0]; cbn [bind];
    try discriminate; [|now intros [= <-]].
  destruct (Fft.adc_to_volts cfg adc) as [v|e0]; cbn [bind];
    [discriminate | now intros [= <-]].
Qed.

End Failures.

(** X18. On buffers of the configured length [N > 0], after a start-up
    that went through, an iteration of [fft.py] can fail in two places
    only, the conversion of the timestamp in [parse_line] and the
    division in [adc_to_volts]: it ends in an exception exactly when
    decoding the line does, and that exception is an [OverflowError], or
    a [ZeroDivisionError] with [ADC_BITS = 0].  The window update, the
    rate estimate, the transform, the frequency axis and the scaling
    never raise. *)
Theorem step_failures (py : Py.Interpreter) (L : Np.Library)
    (cfg : Fft.config) (st : Fft.state) (raw : string) :
  Ref.well_formed cfg st ->
  (forall e, Fft.step cfg st raw = Raise e <-> Ref.decode cfg raw = Raise e)
  /\ (forall e,
        Fft.step cfg st raw = Raise e ->
        e = OverflowError
        \/ (e = ZeroDivisionError /\ Fft.ADC_BITS cfg = 0))
  /\ ((exists r, Ref.decode cfg raw = Ok r)
      -> exists st' out, Fft.step cfg st raw = Ok (st', out)).
Proof.
  intros Hwf.
  assert (H1 : forall e,
             Fft.step cfg st raw = Raise e <-> Ref.decode cfg raw = Raise e).
  { intros e. split; [|apply step_decode_raises].
    destruct (Ref.decode cfg raw) as [[s|]|e0] eqn:Ed.
    - destruct (step_accept raw Hwf Ed) as [out [-> _]]. discriminate.
    - rewrite (@step_reject py L cfg st raw Ed). discriminate.
    - rewrite (@step_decode_raises py L cfg st raw e0 Ed).
      now intros [= <-]. }
  split; [exact H1|]. split.
  - intros e He. apply H1 in He. now apply (@decode_raises py cfg raw e).
  - intros [[s|] Ed].
    + destruct (step_accept raw Hwf Ed) as [out [-> _]]. now eexists _, _.
    + rewrite (@step_reject py L cfg st raw Ed). now eexists _, _.
Qed.

Lemma step_failures_witness :
  (forall e,
      Fft.step (py := Py.cpython) (L := Np.flat) (Ref.small 2)
        (Fft.init (Ref.small 2)) Ref.long_timestamp_line = Raise e ->
      e = OverflowError
      \/ (e = ZeroDivisionError /\ Fft.ADC_BITS (Ref.small 2) = 0))
  /\ Fft.step (py := Py.cpython) (L := Np.flat) (Ref.small 2)
       (Fft.init (Ref.small 2)) Ref.long_timestamp_line
     = Raise OverflowError.
Proof.
  destruct (@step_failures Py.cpython Np.flat (Ref.small 2)
              (Fft.init (Ref.small 2)) Ref.long_timestamp_line
              (small_well_formed 2)) as [H1 [H2 _]].
  split; [exact H2|]. apply H1. vm_compute. reflexivity.
Defined.

(** X19. With its own constants ([FS = 1000.0], [N = 2048],
    [HOP = 256]) [fft2.py] gets through every input: the frequency axis
    of the start-up is defined, and from the start-up state the loop
    reads any chunks whatever without an exception, decodes the 16-bit
    groups of the whole stream, refreshes the plot once every 256
    samples, keeps 2048 cells in the window and carries at most one
    byte over. *)
Theorem shipped_run_total2 (L : Np.Library) (chunks : list (list byte)) :
  (exists f_axis, Fft2.f_axis Fft2.defaults = Ok f_axis)
  /\ exists st' snaps,
      Fft2.run Fft2.defaults (Fft2.init Fft2.defaults) chunks
      = Ok (st', Ref.words (concat chunks), snaps)
      /\ length snaps = length (Ref.words (concat chunks)) / 256
      /\ Fft2.new st' = length (Ref.words (concat chunks)) mod 256
      /\ length (Fft2.buf st') = 2048
      /\ length (Fft2.pending st') <= 1.
Proof.
  split; [vm_compute; eexists; reflexivity|].
  assert (Hb : length (Fft2.buf (Fft2.init Fft2.defaults))
               = Fft2.N Fft2.defaults).
  { cbn [Fft2.init Fft2.buf]. unfold Np.zeros. apply repeat_length. }
  assert (Hn : 0 < Fft2.N Fft2.defaults) by (cbn; lia).
  assert (Hh : 0 < Fft2.HOP Fft2.defaults) by (cbn; lia).
  rewrite run_at_once by (cbn; lia).
  destruct (@consume_schedule L Fft2.defaults (Ref.words (concat chunks))
              (Fft2.buf (Fft2.init Fft2.defaults)) 0 Hb Hn Hh Hh)
    as [buf' [snaps [Hc [Hl _]]]].
  destruct (@consume_ok L Fft2.defaults (Ref.words (concat chunks))
              (Fft2.buf (Fft2.init Fft2.defaults)) 0 Hb Hn)
    as [new' [snaps' Hc']].
  unfold Ref.read_at_once. cbn [Fft2.pending Fft2.init app].
  change (Fft2.buf (Fft2.init Fft2.defaults)) with (Np.zeros 2048) in *.
  change (Fft2.new (Fft2.init Fft2.defaults)) with 0.
  rewrite Hc. cbn [bind]. eexists _, snaps.
  split; [reflexivity|]. cbn [Fft2.buf Fft2.new Fft2.pending].
  split; [exact Hl|]. split; [reflexivity|].
  split; [|apply tail_bytes_short].
  assert (Hbuf : buf' = skipn (length (Ref.words (concat chunks)))
                          (Np.zeros 2048
                           ++ map Py.Z2float (Ref.words (concat chunks))))
    by congruence.
  rewrite Hbuf, length_skipn, length_app, length_map.
  unfold Np.zeros. rewrite repeat_length. lia.
Qed.
